(** * video-analyzer: audio extraction, transcription client, normaliser

    A shallow embedding of
      - [src/video_analyzer/clients/whisper_client.py] (class [WhisperClient])
      - [src/video_analyzer/audio_processor.py] (class [AudioProcessor])
      - [src/video_analyzer/config.py] (class [Config] but for
        [save_user_config], and [get_client], [get_model])
    together with the properties the specification states about them and
    further properties read off the code.  [src/video_analyzer/prompt.py]
    is not embedded: the [else:] of its lines 91 and 123 has no indented
    body, so Python does not accept the module.

    Python values that reach this code are JSON documents decoded by
    [response.json()], so the value universe is the one of the [json]
    module: None, bool, int, float, str, list and dict.  External
    collaborators (the HTTP service, ffmpeg, pydub, the file system) are
    oracles: a record gives the outcome each of them produces when it is
    called, and every function returns the trace of the calls and log
    records it made next to its result. *)

From Stdlib Require Import List ZArith NArith Bool String Ascii Lia.
From Stdlib Require Import Floats.PrimFloat.
From Stdlib Require Import DecimalString.
Import ListNotations.

(* ===================================================================== *)
(** ** Python strings *)
(* ===================================================================== *)

(** A Python [str] is a sequence of Unicode code points. *)
Definition char := N.
Definition pystr := list char.

(** Literal of the source text, written as a Rocq string of ASCII. *)
Definition py (s : string) : pystr :=
  map N_of_ascii (list_ascii_of_string s).
Arguments py : simpl never.

Definition char_eqb : char -> char -> bool := N.eqb.

Fixpoint str_eqb (a b : pystr) : bool :=
  match a, b with
  | [], [] => true
  | x :: a', y :: b' => char_eqb x y && str_eqb a' b'
  | _, _ => false
  end.

(** [str.isspace] on one code point: the white-space table of CPython
    (bidirectional class WS, B or S, or category Zs). *)
Definition isspace (c : char) : bool :=
  ((9 <=? c) && (c <=? 13) || (28 <=? c) && (c <=? 32)
   || (c =? 133) || (c =? 160) || (c =? 5760)
   || (8192 <=? c) && (c <=? 8202)
   || (c =? 8232) || (c =? 8233) || (c =? 8239) || (c =? 8287)
   || (c =? 12288))%N.

(** [s.lstrip()], [s.rstrip()] and [s.strip()] without argument. *)
Fixpoint lstrip (s : pystr) : pystr :=
  match s with
  | c :: s' => if isspace c then lstrip s' else s
  | [] => []
  end.

Definition rstrip (s : pystr) : pystr := rev (lstrip (rev s)).

Definition strip (s : pystr) : pystr := rstrip (lstrip s).

(** [s.rstrip(chars)] for a one-character argument. *)
Fixpoint lstrip_char (c : char) (s : pystr) : pystr :=
  match s with
  | x :: s' => if char_eqb x c then lstrip_char c s' else s
  | [] => []
  end.

Definition rstrip_char (c : char) (s : pystr) : pystr :=
  rev (lstrip_char c (rev s)).

(** [needle in haystack] on two strings. *)
Fixpoint startswith (needle s : pystr) : bool :=
  match needle, s with
  | [], _ => true
  | x :: n', y :: s' => char_eqb x y && startswith n' s'
  | _ :: _, [] => false
  end.

Fixpoint str_contains (needle s : pystr) : bool :=
  startswith needle s
  || match s with
     | [] => false
     | _ :: s' => str_contains needle s'
     end.

(* ===================================================================== *)
(** ** Python values *)
(* ===================================================================== *)

Unset Elimination Schemes.
Inductive value : Type :=
| VNone
| VBool (b : bool)
| VInt (z : Z)
| VFloat (f : float)
| VStr (s : pystr)
| VList (l : list value)
| VDict (d : list (pystr * value)).
Set Elimination Schemes.

(** A dict is kept as the list of its items; a lookup takes the first
    binding of the key. *)
Definition dict := list (pystr * value).

(** Truth value of an object, as [if x] and [not x] test it. *)
Definition truthy (v : value) : bool :=
  match v with
  | VNone => false
  | VBool b => b
  | VInt z => negb (z =? 0)%Z
  | VFloat f => negb (PrimFloat.eqb f 0%float)
  | VStr s => match s with [] => false | _ => true end
  | VList l => match l with [] => false | _ => true end
  | VDict d => match d with [] => false | _ => true end
  end.

Fixpoint lookup (k : pystr) (d : dict) : option value :=
  match d with
  | [] => None
  | (k', v) :: d' => if str_eqb k k' then Some v else lookup k d'
  end.

(** [d.get(k, default)] on a dict. *)
Definition dict_get (d : dict) (k : pystr) (default : value) : value :=
  match lookup k d with
  | Some v => v
  | None => default
  end.

(** [k in d] on a dict. *)
Definition dict_contains (d : dict) (k : pystr) : bool :=
  match lookup k d with
  | Some _ => true
  | None => false
  end.

(** Iteration protocol of a [for] loop: a list yields its items, a str
    its characters, a dict its keys; the other values are not iterable. *)
Definition iter_items (v : value) : option (list value) :=
  match v with
  | VList l => Some l
  | VStr s => Some (map (fun c => VStr [c]) s)
  | VDict d => Some (map (fun kv => VStr (fst kv)) d)
  | VNone | VBool _ | VInt _ | VFloat _ => None
  end.

(* ===================================================================== *)
(** ** Exceptions *)
(* ===================================================================== *)

(** The exception classes this code raises, catches or can meet.  Every
    class derives from [Exception]; [UserError] stands for any further
    class derived directly from it.  The [requests] classes carry their
    package as a prefix where a builtin of the same name exists. *)
Inductive exn_class : Type :=
| Exception
| OSError
| FileNotFoundError
| ConnectionError
| RuntimeError
| AttributeError
| TypeError
| ValueError
| UnicodeDecodeError
| CalledProcessError
| RequestException
| Timeout
| HTTPError
| RequestsConnectionError
| JSONDecodeError
| UserError (name : string).

Definition exn_class_eqb (a b : exn_class) : bool :=
  match a, b with
  | Exception, Exception | OSError, OSError
  | FileNotFoundError, FileNotFoundError
  | ConnectionError, ConnectionError | RuntimeError, RuntimeError
  | AttributeError, AttributeError | TypeError, TypeError
  | ValueError, ValueError | UnicodeDecodeError, UnicodeDecodeError
  | CalledProcessError, CalledProcessError
  | RequestException, RequestException | Timeout, Timeout
  | HTTPError, HTTPError
  | RequestsConnectionError, RequestsConnectionError
  | JSONDecodeError, JSONDecodeError => true
  | UserError n, UserError m => String.eqb n m
  | _, _ => false
  end.

(** Direct base classes. *)
Definition bases (c : exn_class) : list exn_class :=
  match c with
  | Exception => []
  | OSError | RuntimeError | AttributeError | TypeError | ValueError
  | CalledProcessError | UserError _ => [Exception]
  | FileNotFoundError | ConnectionError | RequestException => [OSError]
  | UnicodeDecodeError => [ValueError]
  | Timeout | HTTPError | RequestsConnectionError => [RequestException]
  | JSONDecodeError => [RequestException; ValueError]
  end.

Fixpoint issubclass_upto (depth : nat) (c k : exn_class) : bool :=
  exn_class_eqb c k
  || match depth with
     | O => false
     | S n => existsb (fun b => issubclass_upto n b k) (bases c)
     end.

(** The hierarchy above is three levels deep. *)
Definition issubclass : exn_class -> exn_class -> bool := issubclass_upto 3.

(** Bytes are seen through [bytes.decode()]: either they are the UTF-8
    encoding of a text, or decoding them fails. *)
Inductive pybytes : Type :=
| Utf8 (text : pystr)
| Undecodable.

(** An exception object: its class, its message and, as
    [CalledProcessError] has it, the captured [stderr] when there is one. *)
Record exn : Type := mkExn {
  exn_cls : exn_class;
  exn_msg : pystr;
  exn_stderr : option pybytes
}.

Definition exn_of (c : exn_class) (msg : pystr) : exn := mkExn c msg None.

Definition isinstance (e : exn) (k : exn_class) : bool :=
  issubclass (exn_cls e) k.

(* ===================================================================== *)
(** ** Effects: a trace of observable actions and an exception *)
(* ===================================================================== *)

Inductive level : Type := DEBUG | INFO | WARNING | ERROR.

(** A path is the list of its components. *)
Definition Path := list pystr.

Inductive event : Type :=
| Log (lvl : level) (what : string)
| EGet (url : pystr) (timeout : Z)
| EOpen (p : Path)
| EPost (url : pystr) (filename : pystr) (data : list (pystr * pystr))
        (timeout : Z)
| EMkdir (p : Path)
| ERun (argv : list pystr)
| EFromFile (src : pystr)
| EExport (dst : pystr) (channels frame_rate : Z) (format : pystr).

Inductive result (A : Type) : Type :=
| Ok (a : A)
| Raise (e : exn).
Arguments Ok {A} a.
Arguments Raise {A} e.

(** A computation: what it did, and how it ended. *)
Definition M (A : Type) : Type := (list event * result A)%type.

Definition ret {A} (a : A) : M A := ([], Ok a).
Definition raise {A} (e : exn) : M A := ([], Raise e).
Definition emit (ev : event) : M unit := ([ev], Ok tt).

Definition bind {A B} (m : M A) (f : A -> M B) : M B :=
  match m with
  | (t, Ok a) => let (t', r) := f a in (t ++ t', r)
  | (t, Raise e) => (t, Raise e)
  end.

Notation "x <- m ;; k" := (bind m (fun x => k))
  (at level 61, m at next level, right associativity).
Notation "m ;;; k" := (bind m (fun _ => k))
  (at level 61, right associativity).

(** [logger.debug/info/warning/error]: the record is kept by level with
    an English digest of the message. *)
Definition log (lvl : level) (what : string) : M unit := emit (Log lvl what).

(** One [except classes as e: handler] clause. *)
Definition clause (A : Type) : Type := (list exn_class * (exn -> M A))%type.

Definition catches {A} (c : clause A) (e : exn) : bool :=
  existsb (isinstance e) (fst c).

(** [try: body  except ...: ...]: the first clause whose classes match
    the exception runs; with none the exception goes on. *)
Definition try_except {A} (body : M A) (clauses : list (clause A)) : M A :=
  match body with
  | (t, Ok a) => (t, Ok a)
  | (t, Raise e) =>
      match find (fun c => catches c e) clauses with
      | Some c => let (t', r) := snd c e in (t ++ t', r)
      | None => (t, Raise e)
      end
  end.

Fixpoint mapM {A B} (f : A -> M B) (l : list A) : M (list B) :=
  match l with
  | [] => ret []
  | x :: l' => y <- f x ;; ys <- mapM f l' ;; ret (y :: ys)
  end.

Definition trace {A} (m : M A) : list event := fst m.
Definition outcome {A} (m : M A) : result A := snd m.

(* ===================================================================== *)
(** ** The outside world *)
(* ===================================================================== *)

(** An HTTP response as the client reads it: the status code and what
    [response.json()] gives (the decoded document, or an exception when
    the body is not JSON). *)
Record response : Type := mkResponse {
  status_code : Z;
  json : result value
}.

Inductive http_outcome : Type :=
| HttpRaises (e : exn)
| HttpResponse (r : response).

(** Outcome of a child process started by [subprocess.run]. *)
Inductive run_outcome : Type :=
| Exit0
| ExitNonZero (stderr : pybytes)
| RunRaises (e : exn).

Record world : Type := mkWorld {
  http_get : pystr -> http_outcome;
  file_open : Path -> option exn;
  http_post : pystr -> pystr -> list (pystr * pystr) -> http_outcome;
  fs_mkdir : Path -> option exn;
  proc_run : list pystr -> run_outcome;
  pydub_from_file : pystr -> option exn;
  pydub_export : pystr -> option exn
}.

Definition of_http (o : http_outcome) : M response :=
  match o with
  | HttpRaises e => raise e
  | HttpResponse r => ret r
  end.

Definition of_option_exn (o : option exn) : M unit :=
  match o with
  | Some e => raise e
  | None => ret tt
  end.

Section World.
Variable w : world.

Definition requests_get (url : pystr) (timeout : Z) : M response :=
  emit (EGet url timeout) ;;; of_http (http_get w url).

Definition requests_post (url filename : pystr) (data : list (pystr * pystr))
  (timeout : Z) : M response :=
  emit (EPost url filename data timeout) ;;;
  of_http (http_post w url filename data).

Definition open_rb (p : Path) : M unit :=
  emit (EOpen p) ;;; of_option_exn (file_open w p).

(** [response.raise_for_status()]. *)
Definition raise_for_status (r : response) : M unit :=
  if (400 <=? status_code r)%Z && (status_code r <? 600)%Z
  then raise (exn_of HTTPError [])
  else ret tt.

Definition response_json (r : response) : M value :=
  match json r with
  | Ok v => ret v
  | Raise e => raise e
  end.

(** [subprocess.run(argv, check=True, capture_output=True)]. *)
Definition subprocess_run (argv : list pystr) : M unit :=
  emit (ERun argv) ;;;
  match proc_run w argv with
  | Exit0 => ret tt
  | ExitNonZero err => raise (mkExn CalledProcessError [] (Some err))
  | RunRaises e => raise e
  end.

(** [e.stderr.decode()]. *)
Definition stderr_decode (e : exn) : M pystr :=
  match exn_stderr e with
  | None => raise (exn_of AttributeError [])
  | Some (Utf8 text) => ret text
  | Some Undecodable => raise (exn_of UnicodeDecodeError [])
  end.

Definition mkdir_parents (p : Path) : M unit :=
  emit (EMkdir p) ;;; of_option_exn (fs_mkdir w p).

Definition AudioSegment_from_file (src : pystr) : M unit :=
  emit (EFromFile src) ;;; of_option_exn (pydub_from_file w src).

Definition AudioSegment_export (dst : pystr) (channels frame_rate : Z)
  (format : pystr) : M unit :=
  emit (EExport dst channels frame_rate format) ;;;
  of_option_exn (pydub_export w dst).

End World.

(* ===================================================================== *)
(** ** pathlib and Optional[str] *)
(* ===================================================================== *)

(** [p / name]. *)
Definition path_div (p : Path) (name : pystr) : Path := p ++ [name].

(** [p.name]: the last component. *)
Definition path_name (p : Path) : pystr := last p [].

(** [str(p)]. *)
Fixpoint path_str (p : Path) : pystr :=
  match p with
  | [] => []
  | [c] => c
  | c :: p' => c ++ py "/" ++ path_str p'
  end.

(** Truth value of an [Optional[str]]: [None] and the empty str are false. *)
Definition opt_truthy (o : option pystr) : bool :=
  match o with
  | Some (_ :: _) => true
  | Some [] | None => false
  end.

(* ===================================================================== *)
(** ** clients/whisper_client.py *)
(* ===================================================================== *)

Record WhisperClient : Type := mkWhisperClient {
  api_url : pystr;
  timeout : Z;
  transcribe_url : pystr
}.

(** The message of the [ConnectionError] of [__init__]: the text
    "Whisper API <unavailable at address> " of the source, in Russian
    there, followed by the URL as the caller gave it. *)
Definition unavailable_msg (api_url : pystr) : pystr :=
  py "Whisper API "
  ++ [1085; 1077; 1076; 1086; 1089; 1090; 1091; 1087; 1077; 1085; 32;
      1087; 1086; 32; 1072; 1076; 1088; 1077; 1089; 1091; 32]%N
  ++ api_url.

Definition data_fields (language : option pystr) : list (pystr * pystr) :=
  [(py "model", py "whisper-1"); (py "response_format", py "json")]
  ++ match language with
     | Some l => if opt_truthy language then [(py "language", l)] else []
     | None => []
     end.

Section Client.
Variable w : world.

(** [WhisperClient.__init__(api_url, timeout)]. *)
Definition WhisperClient_init (url : pystr) (tmo : Z) : M WhisperClient :=
  let self_api_url := rstrip_char 47%N url in
  let self :=
    mkWhisperClient self_api_url tmo
      (self_api_url ++ py "/v1/audio/transcriptions") in
  try_except
    (health_response <- requests_get w (self_api_url ++ py "/health") 10 ;;
     if (status_code health_response =? 200)%Z
     then health_data <- response_json health_response ;;
          log INFO "Whisper API available"
     else log WARNING "Whisper API returned a status")
    [ ([Exception], fun e =>
         log ERROR "could not check Whisper API availability" ;;;
         raise (exn_of ConnectionError (unavailable_msg url))) ] ;;;
  ret self.

(** [WhisperClient.transcribe(audio_path, language)]; the Python [None]
    it returns on failure is [VNone]. *)
Definition WhisperClient_transcribe (self : WhisperClient)
  (audio_path : Path) (language : option pystr) : M value :=
  try_except
    (open_rb w audio_path ;;;
     let data := data_fields language in
     log DEBUG "sending transcription request" ;;;
     resp <- requests_post w (transcribe_url self) (path_name audio_path)
               data (timeout self) ;;
     raise_for_status resp ;;;
     res <- response_json resp ;;
     log DEBUG "transcription finished" ;;;
     ret res)
    [ ([Timeout], fun _ =>
         log ERROR "timeout while transcribing" ;;; ret VNone);
      ([RequestException], fun _ =>
         log ERROR "HTTP error while transcribing" ;;; ret VNone);
      ([Exception], fun _ =>
         log ERROR "unexpected error while transcribing" ;;; ret VNone) ].

(** [WhisperClient.check_health()]. *)
Definition WhisperClient_check_health (self : WhisperClient) : M bool :=
  try_except
    (resp <- requests_get w (api_url self ++ py "/health") 10 ;;
     ret (status_code resp =? 200)%Z)
    [ ([Exception], fun _ => ret false) ].

End Client.

(* ===================================================================== *)
(** ** audio_processor.py *)
(* ===================================================================== *)

(** [AudioTranscript]: a dataclass whose fields hold whatever the
    normaliser put there. *)
Record AudioTranscript : Type := mkAudioTranscript {
  text : value;
  segments : list value;
  language : value
}.

Record AudioProcessor : Type := mkAudioProcessor {
  self_language : option pystr;
  whisper_client : WhisperClient;
  has_ffmpeg : bool
}.

Definition no_stream_marker : pystr :=
  py "Output file does not contain any stream".

Definition install_guidance : pystr :=
  py "Failed to extract audio. Please install ffmpeg using:"
  ++ [10%N] ++
  py "Ubuntu/Debian: sudo apt-get update && sudo apt-get install -y ffmpeg"
  ++ [10%N] ++ py "MacOS: brew install ffmpeg"
  ++ [10%N] ++ py "Windows: choco install ffmpeg".

Definition ffmpeg_extract_argv (video_path audio_path : Path) : list pystr :=
  [py "ffmpeg"; py "-i"; path_str video_path;
   py "-vn";
   py "-acodec"; py "pcm_s16le";
   py "-ar"; py "16000";
   py "-ac"; py "1";
   py "-y";
   path_str audio_path].

(** [obj.get]: of the values met here only a dict has the method. *)
Definition attr_get (obj : value) : M dict :=
  match obj with
  | VDict d => ret d
  | _ => raise (exn_of AttributeError [])
  end.

(** [obj.strip()]: only a str has the method. *)
Definition attr_strip (obj : value) : M value :=
  match obj with
  | VStr s => ret (VStr (strip s))
  | _ => raise (exn_of AttributeError [])
  end.

(** The items a [for] loop over [v] visits. *)
Definition iter (v : value) : M (list value) :=
  match iter_items v with
  | Some l => ret l
  | None => raise (exn_of TypeError [])
  end.

(** Body of the inner loop (lines 144-151). *)
Definition word_info (word : value) : M value :=
  wd <- attr_get word ;;
  ret (VDict [(py "word", dict_get wd (py "word") (VStr []));
              (py "start", dict_get wd (py "start") (VFloat 0));
              (py "end", dict_get wd (py "end") (VFloat 0));
              (py "probability", dict_get wd (py "probability") (VFloat 1))]).

(** Body of the outer loop (lines 134-153). *)
Definition segment_info (segment : value) : M value :=
  sd <- attr_get segment ;;
  let s_text := dict_get sd (py "text") (VStr []) in
  let s_start := dict_get sd (py "start") (VFloat 0) in
  let s_end := dict_get sd (py "end") (VFloat 0) in
  words <-
    (if dict_contains sd (py "words")
        && truthy (dict_get sd (py "words") VNone)
     then ws <- iter (dict_get sd (py "words") VNone) ;; mapM word_info ws
     else ret []) ;;
  ret (VDict [(py "text", s_text); (py "start", s_start);
              (py "end", s_end); (py "words", VList words)]).

(** The segment made up when the service sent none (lines 125-130). *)
Definition base_segment (txt : value) : value :=
  VDict [(py "text", txt); (py "start", VFloat 0); (py "end", VFloat 0);
         (py "words", VList [])].

(** [self.language or 'unknown']. *)
Definition language_or_unknown (l : option pystr) : value :=
  match l with
  | Some s => if opt_truthy l then VStr s else VStr (py "unknown")
  | None => VStr (py "unknown")
  end.

(** Lines 111-162 of [AudioProcessor.transcribe]: what is done with the
    value the client returned. *)
Definition normalize (lang : option pystr) (res : value)
  : M (option AudioTranscript) :=
  if negb (truthy res)
  then log WARNING "no transcription result" ;;; ret None
  else
    rd <- attr_get res ;;
    let txt := dict_get rd (py "text") (VStr []) in
    blank <- (if negb (truthy txt) then ret true
              else stripped <- attr_strip txt ;; ret (negb (truthy stripped))) ;;
    if (blank : bool)
    then log WARNING "no text found in audio" ;;; ret None
    else
      let segs0 := dict_get rd (py "segments") (VList []) in
      let segs := if negb (truthy segs0) then VList [base_segment txt]
                  else segs0 in
      items <- iter segs ;;
      segment_data <- mapM segment_info items ;;
      let detected_language :=
        dict_get rd (py "language") (language_or_unknown lang) in
      ret (Some (mkAudioTranscript txt segment_data detected_language)).

Section Processor.
Variable w : world.

(** [AudioProcessor.__init__(language, whisper_api_url, timeout)]. *)
Definition AudioProcessor_init (lang : option pystr) (whisper_api_url : pystr)
  (tmo : Z) : M AudioProcessor :=
  try_except
    (let l := if opt_truthy lang then lang else None in
     client <- WhisperClient_init w whisper_api_url tmo ;;
     log INFO "AudioProcessor initialisation" ;;;
     ff <- try_except
             (subprocess_run w [py "ffmpeg"; py "-version"] ;;; ret true)
             [ ([CalledProcessError; FileNotFoundError], fun _ =>
                  log WARNING "FFmpeg not found" ;;; ret false) ] ;;
     ret (mkAudioProcessor l client ff))
    [ ([Exception], fun e =>
         log ERROR "AudioProcessor initialisation error" ;;; raise e) ].

(** [AudioProcessor.extract_audio(video_path, output_dir)]. *)
Definition extract_audio (self : AudioProcessor) (video_path output_dir : Path)
  : M (option Path) :=
  let audio_path := path_div output_dir (py "audio.wav") in
  mkdir_parents w output_dir ;;;
  try_except
    (subprocess_run w (ffmpeg_extract_argv video_path audio_path) ;;;
     log DEBUG "extracted audio using ffmpeg" ;;;
     ret (Some audio_path))
    [ ([CalledProcessError], fun e =>
         error_output <- stderr_decode e ;;
         log ERROR "FFmpeg error" ;;;
         if str_contains no_stream_marker error_output
         then log DEBUG "no audio streams found in video" ;;; ret None
         else
           log INFO "falling back to pydub" ;;;
           try_except
             (AudioSegment_from_file w (path_str video_path) ;;;
              AudioSegment_export w (path_str audio_path) 1 16000 (py "wav") ;;;
              log DEBUG "extracted audio using pydub" ;;;
              ret (Some audio_path))
             [ ([Exception], fun e2 =>
                  log ERROR "error extracting audio using pydub" ;;;
                  raise (exn_of RuntimeError install_guidance)) ]) ].

(** [AudioProcessor.transcribe(audio_path)]. *)
Definition transcribe (self : AudioProcessor) (audio_path : Path)
  : M (option AudioTranscript) :=
  try_except
    (res <- WhisperClient_transcribe w (whisper_client self) audio_path
              (self_language self) ;;
     normalize (self_language self) res)
    [ ([Exception], fun e =>
         log ERROR "audio transcription error" ;;;
         log ERROR "exception traceback" ;;;
         ret None) ].

End Processor.

(* ===================================================================== *)
(** ** Vocabulary of the specification *)
(* ===================================================================== *)

(** A text that is empty or made of white space only. *)
Definition blank (s : pystr) : bool := forallb isspace s.

(** The segment list the loop runs over (lines 122-130). *)
Definition segments_to_convert (rd : dict) (txt : value) : value :=
  if negb (truthy (dict_get rd (py "segments") (VList [])))
  then VList [base_segment txt]
  else dict_get rd (py "segments") (VList []).

(** The fixed output path and the command line of the primary path. *)
Definition audio_path_of (output_dir : Path) : Path :=
  path_div output_dir (py "audio.wav").

Definition argv_of (video_path output_dir : Path) : list pystr :=
  ffmpeg_extract_argv video_path (audio_path_of output_dir).

(** Events of the in-process fallback decode routine. *)
Definition is_fallback_event (ev : event) : bool :=
  match ev with
  | EFromFile _ | EExport _ _ _ _ => true
  | _ => false
  end.

Definition fallback_attempted (t : list event) : bool :=
  existsb is_fallback_event t.

(** [out] is the field [k] of [d], or [default] when [d] lacks it. *)
Definition copied (d : dict) (k : pystr) (default out : value) : Prop :=
  match lookup k d with
  | Some v => out = v
  | None => out = default
  end.

Inductive word_copied : value -> value -> Prop :=
| WordCopied (d : dict) (wv sv ev pv : value) :
    copied d (py "word") (VStr []) wv ->
    copied d (py "start") (VFloat 0) sv ->
    copied d (py "end") (VFloat 0) ev ->
    copied d (py "probability") (VFloat 1) pv ->
    word_copied (VDict d)
      (VDict [(py "word", wv); (py "start", sv); (py "end", ev);
              (py "probability", pv)]).

(** The words of a normalised segment against the raw segment [d]:
    none when [d] has no word list, else one per raw word, in order. *)
Inductive words_copied (d : dict) : list value -> Prop :=
| WordsAbsent :
    lookup (py "words") d = None -> words_copied d []
| WordsEmpty (v : value) :
    lookup (py "words") d = Some v -> truthy v = false -> words_copied d []
| WordsPresent (ws outs : list value) :
    lookup (py "words") d = Some (VList ws) ->
    Forall2 word_copied ws outs ->
    words_copied d outs.

Inductive segment_copied : value -> value -> Prop :=
| SegmentCopied (d : dict) (tv sv ev : value) (ws : list value) :
    copied d (py "text") (VStr []) tv ->
    copied d (py "start") (VFloat 0) sv ->
    copied d (py "end") (VFloat 0) ev ->
    words_copied d ws ->
    segment_copied (VDict d)
      (VDict [(py "text", tv); (py "start", sv); (py "end", ev);
              (py "words", VList ws)]).

Definition is_dict (v : value) : bool :=
  match v with
  | VDict _ => true
  | _ => false
  end.

(** A raw segment of the wire contract: an object whose [words], when
    present and not empty, is an array of objects. *)
Definition segment_ok (seg : value) : bool :=
  match seg with
  | VDict d =>
      match lookup (py "words") d with
      | None => true
      | Some v =>
          negb (truthy v)
          || match v with
             | VList ws => forallb is_dict ws
             | _ => false
             end
      end
  | _ => false
  end.

(** A structurally valid service response: an object whose [text], when
    present, is a string and whose [segments], when present and not
    empty, is an array of raw segments. *)
Definition valid_response (res : value) : bool :=
  match res with
  | VDict rd =>
      match lookup (py "text") rd with
      | None => true
      | Some (VStr _) => true
      | Some _ => false
      end
      && match lookup (py "segments") rd with
         | None => true
         | Some v =>
             negb (truthy v)
             || match v with
                | VList segs => forallb segment_ok segs
                | _ => false
                end
         end
  | _ => false
  end.

(** A world given by what opening the audio file and the transcription
    request do; the health probe answers 200, ffmpeg and pydub succeed. *)
Definition transcription_world (opening : option exn) (post : http_outcome)
  : world :=
  mkWorld (fun _ => HttpResponse (mkResponse 200 (Ok (VDict []))))
          (fun _ => opening)
          (fun _ _ _ => post)
          (fun _ => None)
          (fun _ => Exit0)
          (fun _ => None)
          (fun _ => None).

(** The service answers the transcription request with status 200 and
    the document [res]. *)
Definition service_world (res : value) : world :=
  transcription_world None (HttpResponse (mkResponse 200 (Ok res))).

(** A world in which nothing answers: every HTTP request fails with
    [e], ffmpeg is not installed and pydub cannot decode. *)
Definition dead_world (e : exn) : world :=
  mkWorld (fun _ => HttpRaises e)
          (fun _ => None)
          (fun _ _ _ => HttpRaises e)
          (fun _ => None)
          (fun _ => RunRaises (exn_of FileNotFoundError []))
          (fun _ => Some (exn_of FileNotFoundError []))
          (fun _ => None).

(** The address the liveness probe asks, and the client a successful
    construction returns. *)
Definition health_url (url : pystr) : pystr :=
  rstrip_char 47%N url ++ py "/health".

Definition client_of (url : pystr) (tmo : Z) : WhisperClient :=
  mkWhisperClient (rstrip_char 47%N url) tmo
    (rstrip_char 47%N url ++ py "/v1/audio/transcriptions").

(** What the constructor of [AudioProcessor] keeps of the hint. *)
Definition hint_of (lang : option pystr) : option pystr :=
  if opt_truthy lang then lang else None.

(** A world that differs from a working one by the answer to the
    liveness probe only. *)
Definition health_world (probe : http_outcome) : world :=
  mkWorld (fun _ => probe)
          (fun _ => None)
          (fun _ _ _ => HttpResponse (mkResponse 200 (Ok (VDict []))))
          (fun _ => None)
          (fun _ => Exit0)
          (fun _ => None)
          (fun _ => None).

(** A machine without ffmpeg: starting it fails with
    [FileNotFoundError]; the service and pydub work. *)
Definition no_ffmpeg_world : world :=
  mkWorld (fun _ => HttpResponse (mkResponse 200 (Ok (VDict []))))
          (fun _ => None)
          (fun _ _ _ => HttpResponse (mkResponse 200 (Ok (VDict []))))
          (fun _ => None)
          (fun _ => RunRaises (exn_of FileNotFoundError []))
          (fun _ => None)
          (fun _ => None).

(** ffmpeg is installed and fails with the diagnostic [stderr]. *)
Definition ffmpeg_fails_world (stderr : pybytes) (pydub : option exn)
  : world :=
  mkWorld (fun _ => HttpResponse (mkResponse 200 (Ok (VDict []))))
          (fun _ => None)
          (fun _ _ _ => HttpResponse (mkResponse 200 (Ok (VDict []))))
          (fun _ => None)
          (fun _ => ExitNonZero stderr)
          (fun _ => pydub)
          (fun _ => None).

Definition localhost : pystr := py "http://localhost:16000".

Definition a_client : WhisperClient :=
  mkWhisperClient localhost 300 (localhost ++ py "/v1/audio/transcriptions").

Definition a_processor (lang : option pystr) : AudioProcessor :=
  mkAudioProcessor lang a_client true.

(** Constructing a processor and transcribing one file with it. *)
Definition construct_and_transcribe (w : world) (lang : option pystr)
  (url : pystr) (tmo : Z) (audio_path : Path) : M (option AudioTranscript) :=
  self <- AudioProcessor_init w lang url tmo ;;
  transcribe w self audio_path.

(** The raw results of the examples of the specification. *)
Definition raw_hi_fr : value :=
  VDict [(py "text", VStr (py "hi")); (py "language", VStr (py "fr"))].

Definition raw_hi : value := VDict [(py "text", VStr (py "hi"))].

Definition raw_word_without_probability : value :=
  VDict [(py "text", VStr (py "hi"));
         (py "segments",
          VList [VDict [(py "text", VStr (py "hi"));
                        (py "start", VFloat 0.5);
                        (py "words",
                         VList [VDict [(py "word", VStr (py "hi"));
                                       (py "start", VFloat 0.5)]])]])].

Definition audio_wav : Path := [py "out"; py "audio.wav"].

(* ===================================================================== *)
(** ** config.py *)
(* ===================================================================== *)

(** [KeyError]; for the handlers of this file, which catch [Exception]
    only, it is a class derived from [Exception] like any other. *)
Definition KeyError : exn_class := UserError "KeyError".

(** [d[k] = v] on a dict: an existing key keeps its place, a new one
    goes to the end. *)
Fixpoint dict_set (k : pystr) (v : value) (d : dict) : dict :=
  match d with
  | [] => [(k, v)]
  | (k', v') :: d' =>
      if str_eqb k k' then (k', v) :: d' else (k', v') :: dict_set k v d'
  end.

(** [obj[k]] for a str [k]: a dict answers or raises [KeyError]; a list
    or a str wants an integer, the other values cannot be subscripted. *)
Definition getitem (obj : value) (k : pystr) : result value :=
  match obj with
  | VDict d =>
      match lookup k d with
      | Some v => Ok v
      | None => Raise (exn_of KeyError k)
      end
  | _ => Raise (exn_of TypeError [])
  end.

(** [obj[k] = v] for a str [k]; the updated object is returned. *)
Definition setitem (obj : value) (k : pystr) (v : value) : result value :=
  match obj with
  | VDict d => Ok (VDict (dict_set k v d))
  | _ => Raise (exn_of TypeError [])
  end.

(** [d[key]] on a dict for a key that is any value: the keys of the
    dicts of this program are strings, so another hashable key is
    missing, and a list or a dict cannot be hashed. *)
Definition dict_getitem (d : dict) (key : value) : result (pystr * value) :=
  match key with
  | VStr k =>
      match lookup k d with
      | Some v => Ok (k, v)
      | None => Raise (exn_of KeyError k)
      end
  | VList _ | VDict _ => Raise (exn_of TypeError [])
  | VNone | VBool _ | VInt _ | VFloat _ => Raise (exn_of KeyError [])
  end.

(** [obj[p1]...[pn][k] = v]: the objects on the way are read, the last
    one is updated, and in the tree the configuration is the update
    shows in every object above it.  Nothing changes when a step
    raises. *)
Fixpoint setpath (path : list pystr) (k : pystr) (v : value) (obj : value)
  : result value :=
  match path with
  | [] => setitem obj k v
  | p :: path' =>
      match getitem obj p with
      | Raise e => Raise e
      | Ok sub =>
          match setpath path' k v sub with
          | Raise e => Raise e
          | Ok sub' => setitem obj p sub'
          end
      end
  end.

(** Statements that work on [self.config]: the configuration as they
    leave it, and how they end. *)
Definition ST (A : Type) : Type := value -> value * result A.

Definition st_ret {A} (a : A) : ST A := fun c => (c, Ok a).

Definition st_bind {A B} (m : ST A) (f : A -> ST B) : ST B :=
  fun c =>
    match m c with
    | (c', Ok a) => f a c'
    | (c', Raise e) => (c', Raise e)
    end.

Definition st_lift {A} (r : result A) : ST A := fun c => (c, r).

(** [self.config[p1]...[pn][k] = v]. *)
Definition assign (path : list pystr) (k : pystr) (v : value) : ST unit :=
  fun c =>
    match setpath path k v c with
    | Ok c' => (c', Ok tt)
    | Raise e => (c, Raise e)
    end.

(** Lines 88-89: [client = self.config["clients"]["default"]] and
    [self.config["clients"][client]["model"] = value]. *)
Definition assign_model (v : value) : ST unit :=
  fun c =>
    match getitem c (py "clients") with
    | Raise e => (c, Raise e)
    | Ok clients =>
        match getitem clients (py "default") with
        | Raise e => (c, Raise e)
        | Ok client =>
            match clients with
            | VDict cd =>
                match dict_getitem cd client with
                | Raise e => (c, Raise e)
                | Ok (name, section) =>
                    match setitem section (py "model") v with
                    | Raise e => (c, Raise e)
                    | Ok section' =>
                        match setitem c (py "clients")
                                (VDict (dict_set name section' cd)) with
                        | Ok c' => (c', Ok tt)
                        | Raise e => (c, Raise e)
                        end
                    end
                end
            | _ => (c, Raise (exn_of TypeError []))
            end
        end
    end.

(** [argparse.Namespace]: [vars(args)] as the list of its items;
    [args.name] raises [AttributeError] when there is no such item. *)
Definition Namespace := list (pystr * value).

Definition getattr (args : Namespace) (name : pystr) : result value :=
  match lookup name args with
  | Some v => Ok v
  | None => Raise (exn_of AttributeError name)
  end.

Definition is_none (v : value) : bool :=
  match v with
  | VNone => true
  | _ => false
  end.

Definition is_list (v : value) : bool :=
  match v with
  | VList _ => true
  | _ => false
  end.

(** [v == "literal"]. *)
Definition eq_str (v : value) (s : pystr) : bool :=
  match v with
  | VStr x => str_eqb x s
  | _ => false
  end.

(** [key in [...]] for a list of strings. *)
Definition str_in (key : pystr) (l : list pystr) : bool :=
  existsb (str_eqb key) l.

(** Body of the loop of [update_from_args] (lines 75-103). *)
Definition update_one (args : Namespace) (key : pystr) (val : value)
  : ST unit :=
  if negb (is_none val) then
    if str_eqb key (py "client") then
      assign [py "clients"] (py "default") val
    else if str_eqb key (py "ollama_url") then
      assign [py "clients"; py "ollama"] (py "url") val
    else if str_eqb key (py "api_key") then
      st_bind (assign [py "clients"; py "openai_api"] (py "api_key") val)
        (fun _ =>
           st_bind (st_lift (getattr args (py "client")))
             (fun given =>
                if negb (truthy given)
                then assign [py "clients"] (py "default")
                       (VStr (py "openai_api"))
                else st_ret tt))
    else if str_eqb key (py "api_url") then
      assign [py "clients"; py "openai_api"] (py "api_url") val
    else if str_eqb key (py "model") then
      assign_model val
    else if str_eqb key (py "prompt") then
      assign [] (py "prompt") val
    else if str_eqb key (py "whisper_api_url") then
      assign [py "audio"] (py "whisper_api_url") val
    else if str_eqb key (py "whisper_timeout") then
      assign [py "audio"] (py "timeout") val
    else if str_eqb key (py "language") then
      if negb (is_none val)
      then assign [py "audio"] (py "language") val
      else st_ret tt
    else if str_eqb key (py "temperature") then
      assign [py "clients"] (py "temperature") val
    else if negb (str_in key [py "start_stage"; py "max_frames"]) then
      assign [] key val
    else st_ret tt
  else st_ret tt.

Fixpoint update_items (args : Namespace) (items : list (pystr * value))
  : ST unit :=
  match items with
  | [] => st_ret tt
  | (key, val) :: rest =>
      st_bind (update_one args key val) (fun _ => update_items args rest)
  end.

Record Config : Type := mkConfig {
  config_dir : Path;
  user_config : Path;
  default_config : Path;
  default_config_content : option pystr;
  config : value
}.

Definition with_config (self : Config) (c : value) : Config :=
  mkConfig (config_dir self) (user_config self) (default_config self)
    (default_config_content self) c.

(** [Config.update_from_args(args)]: the object as the call leaves it,
    also when an exception goes out.  The configuration is a tree of
    values: an argument is stored by value.  That is what Python does
    but for a list or dict argument that a later assignment of the same
    call writes into (stored under [clients] or [audio], or handed in
    from the configuration itself), which then shows the write wherever
    the object is stored; str, int, float and bool arguments cannot be
    written into. *)
Definition update_from_args (self : Config) (args : Namespace)
  : Config * result unit :=
  let (c, r) := update_items args args (config self) in
  (with_config self c, r).

(** [Config.get(key, default)]. *)
Definition Config_get (self : Config) (key : pystr) (default : value)
  : M value :=
  d <- attr_get (config self) ;;
  ret (dict_get d key default).

(** [d.get(key, default)] on a dict for a key that is any value. *)
Definition get_by_value (d : dict) (key default : value) : M value :=
  match key with
  | VStr k => ret (dict_get d k default)
  | VList _ | VDict _ => raise (exn_of TypeError [])
  | VNone | VBool _ | VInt _ | VFloat _ => ret default
  end.

(** [str(v)] as an f-string puts it into a text, for the values that
    can be the key of a dict; the decimal form of a float is the
    runtime's and is taken as [float_str]. *)
Definition format_value (float_str : float -> pystr) (v : value) : pystr :=
  match v with
  | VNone => py "None"
  | VBool true => py "True"
  | VBool false => py "False"
  | VInt z => py (NilZero.string_of_int (Z.to_int z))
  | VFloat f => float_str f
  | VStr s => s
  | VList _ | VDict _ => []
  end.

(** [get_client(config)]. *)
Definition get_client (float_str : float -> pystr) (cfg : Config) : M value :=
  clients <- Config_get cfg (py "clients") (VDict []) ;;
  cd <- attr_get clients ;;
  let client_type := dict_get cd (py "default") (VStr (py "ollama")) in
  clients' <- Config_get cfg (py "clients") (VDict []) ;;
  cd' <- attr_get clients' ;;
  client_config <- get_by_value cd' client_type (VDict []) ;;
  if eq_str client_type (py "ollama") then
    cc <- attr_get client_config ;;
    ret (VDict [(py "url",
                 dict_get cc (py "url") (VStr (py "http://localhost:11434")))])
  else if eq_str client_type (py "openai_api") then
    cc <- attr_get client_config ;;
    let api_key := dict_get cc (py "api_key") VNone in
    cc' <- attr_get client_config ;;
    let api_url := dict_get cc' (py "api_url") VNone in
    if negb (truthy api_key) then
      raise (exn_of ValueError
               (py "API key is required when using OpenAI API client"))
    else if negb (truthy api_url) then
      raise (exn_of ValueError
               (py "API URL is required when using OpenAI API client"))
    else ret (VDict [(py "api_key", api_key); (py "api_url", api_url)])
  else raise (exn_of ValueError
                (py "Unknown client type: "
                 ++ format_value float_str client_type)).

(** [get_model(config)]. *)
Definition get_model (cfg : Config) : M value :=
  clients <- Config_get cfg (py "clients") (VDict []) ;;
  cd <- attr_get clients ;;
  let client_type := dict_get cd (py "default") (VStr (py "ollama")) in
  clients' <- Config_get cfg (py "clients") (VDict []) ;;
  cd' <- attr_get clients' ;;
  client_config <- get_by_value cd' client_type (VDict []) ;;
  cc <- attr_get client_config ;;
  ret (dict_get cc (py "model") (VStr (py "llama3.2-vision"))).

(** What [Config] finds outside: which paths exist, what opening a file
    and decoding it with [json.load] gives, what reading the packaged
    default configuration gives, and [json.loads] on a text. *)
Record config_world : Type := mkConfigWorld {
  cw_exists : Path -> bool;
  cw_load : Path -> result value;
  cw_resource : result pystr;
  cw_loads : pystr -> result value
}.

Definition of_result {A} (r : result A) : M A :=
  match r with
  | Ok a => ret a
  | Raise e => raise e
  end.

Definition packaged_default : Path :=
  [py "video_analyzer"; py "config"; py "default_config.json"].

Section ConfigFiles.
Variable cw : config_world.

(** [with open(p) as f: json.load(f)]. *)
Definition json_load (p : Path) : M value :=
  emit (EOpen p) ;;; of_result (cw_load cw p).

(** [json.loads(content)]; [None] is not a text. *)
Definition json_loads (content : option pystr) : M value :=
  match content with
  | Some text => of_result (cw_loads cw text)
  | None => raise (exn_of TypeError [])
  end.

(** [Config.load_config()] on the object [self]. *)
Definition load_config (self : Config) : M Config :=
  try_except
    (loaded <-
       (if cw_exists cw (user_config self) then
          log DEBUG "loading user config" ;;;
          json_load (user_config self)
        else if cw_exists cw (default_config self) then
          log DEBUG "loading default config" ;;;
          json_load (default_config self)
        else
          log DEBUG "loading packaged default config" ;;;
          json_loads (default_config_content self)) ;;
     d <- attr_get loaded ;;
     if negb (is_list (dict_get d (py "prompts") (VList [])))
     then log WARNING "prompts in config is not a list" ;;;
          ret (with_config self (VDict (dict_set (py "prompts") (VList []) d)))
     else ret (with_config self loaded))
    [ ([Exception], fun e => log ERROR "error loading config" ;;; raise e) ].

(** [Config.__init__(config_dir)]. *)
Definition Config_init (dir : Path) : M Config :=
  let user := path_div dir (py "config.json") in
  let default := path_div dir (py "default_config.json") in
  content <-
    (if negb (cw_exists cw default) then
       try_except
         (emit (EOpen packaged_default) ;;;
          text <- of_result (cw_resource cw) ;;
          log DEBUG "using packaged default config" ;;;
          ret (Some text))
         [ ([Exception], fun e =>
              log ERROR "error finding default config" ;;; raise e) ]
     else ret None) ;;
  load_config (mkConfig dir user default content VNone).

End ConfigFiles.

(** *** Raw bytes

    The bytes a process writes, as numbers below 256, and the strict
    UTF-8 decoding [bytes.decode()] does without argument: shortest
    forms only, no surrogates, nothing above U+10FFFF. *)
Definition is_cont (b : N) : bool := ((128 <=? b) && (b <=? 191))%N.

(** The second byte of a three-byte and of a four-byte sequence. *)
Definition second_of_three (lead b : N) : bool :=
  (if lead =? 224 then (160 <=? b) && (b <=? 191)
   else if lead =? 237 then (128 <=? b) && (b <=? 159)
   else is_cont b)%N.

Definition second_of_four (lead b : N) : bool :=
  (if lead =? 240 then (144 <=? b) && (b <=? 191)
   else if lead =? 244 then (128 <=? b) && (b <=? 143)
   else is_cont b)%N.

Fixpoint utf8_decode (bs : list N) : option pystr :=
  match bs with
  | [] => Some []
  | b :: r1 =>
      if (b <? 128)%N then option_map (cons b) (utf8_decode r1)
      else if ((194 <=? b) && (b <=? 223))%N then
        match r1 with
        | c1 :: r2 =>
            if is_cont c1
            then option_map (cons ((b - 192) * 64 + (c1 - 128))%N)
                   (utf8_decode r2)
            else None
        | [] => None
        end
      else if ((224 <=? b) && (b <=? 239))%N then
        match r1 with
        | c1 :: c2 :: r3 =>
            if second_of_three b c1 && is_cont c2
            then option_map
                   (cons ((b - 224) * 4096 + (c1 - 128) * 64
                          + (c2 - 128))%N)
                   (utf8_decode r3)
            else None
        | _ => None
        end
      else if ((240 <=? b) && (b <=? 244))%N then
        match r1 with
        | c1 :: c2 :: c3 :: r4 =>
            if second_of_four b c1 && is_cont c2 && is_cont c3
            then option_map
                   (cons ((b - 240) * 262144 + (c1 - 128) * 4096
                          + (c2 - 128) * 64 + (c3 - 128))%N)
                   (utf8_decode r4)
            else None
        | _ => None
        end
      else None
  end.

(** The bytes [bs] as [bytes.decode()] sees them. *)
Definition bytes_view (bs : list N) : pybytes :=
  match utf8_decode bs with
  | Some text => Utf8 text
  | None => Undecodable
  end.

(** What ffmpeg writes for a video without audio whose title tag is
    "caf\xe9" in Latin-1: a line with the tag, then the line with the
    marker.  The second is the same with the title in UTF-8. *)
Definition no_stream_stderr_latin1 : list N :=
  py "    title           : caf" ++ [233; 10]%N
  ++ py "[out#0/wav] Output file does not contain any stream" ++ [10%N].

Definition no_stream_stderr_utf8 : list N :=
  py "    title           : caf" ++ [195; 169; 10]%N
  ++ py "[out#0/wav] Output file does not contain any stream" ++ [10%N].

(** The exception [subprocess.run(..., check=True)] raises, by what the
    child process did. *)
Definition raised_by_run (o : run_outcome) : option exn :=
  match o with
  | Exit0 => None
  | ExitNonZero err => Some (mkExn CalledProcessError [] (Some err))
  | RunRaises e => Some e
  end.

(** Events that are HTTP requests of the transcription end point. *)
Definition is_post (ev : event) : bool :=
  match ev with
  | EPost _ _ _ _ => true
  | _ => false
  end.

Definition is_run (ev : event) : bool :=
  match ev with
  | ERun _ => true
  | _ => false
  end.

(** The shape of a normalised word and of a normalised segment: a dict
    with these keys, in this order, and nothing else. *)
Definition word_shape (v : value) : Prop :=
  exists wv sv ev pv,
    v = VDict [(py "word", wv); (py "start", sv); (py "end", ev);
               (py "probability", pv)].

Definition segment_shape (v : value) : Prop :=
  exists tv sv ev ws,
    v = VDict [(py "text", tv); (py "start", sv); (py "end", ev);
               (py "words", VList ws)]
    /\ Forall word_shape ws.

(** What the cascade of [load_config] reads: the user file when it
    exists, else the default file when it exists, else the packaged
    text. *)
Definition config_source (cw : config_world) (self : Config) : result value :=
  if cw_exists cw (user_config self) then cw_load cw (user_config self)
  else if cw_exists cw (default_config self)
       then cw_load cw (default_config self)
       else match default_config_content self with
            | Some text => cw_loads cw text
            | None => Raise (exn_of TypeError [])
            end.

(** Lines 60-62 on a dict. *)
Definition repair_prompts (d : dict) : dict :=
  if is_list (dict_get d (py "prompts") (VList [])) then d
  else dict_set (py "prompts") (VList []) d.

(** [cfg] holds the dict [d] as [load_config] keeps it: every key but
    [prompts] as in [d], and [prompts] as in [d] when it is a list there
    (or missing), else the empty list. *)
Definition loaded_from (d : dict) (cfg : Config) : Prop :=
  exists d',
    config cfg = VDict d'
    /\ (forall k, k <> py "prompts" -> lookup k d' = lookup k d)
    /\ lookup (py "prompts") d'
       = if is_list (dict_get d (py "prompts") (VList []))
         then lookup (py "prompts") d
         else Some (VList []).

(** The messages of the two [ValueError]s about credentials. *)
Definition api_key_msg : pystr :=
  py "API key is required when using OpenAI API client".

Definition url_key_msg : pystr :=
  py "API URL is required when using OpenAI API client".

(** An argument [update_from_args] passes over: not given, or one of
    the two command-line-only options. *)
Definition inert_arg (kv : pystr * value) : Prop :=
  snd kv = VNone \/ In (fst kv) [py "start_stage"; py "max_frames"].

(** The names [update_from_args] gives a meaning of their own. *)
Definition special_keys : list pystr :=
  [py "client"; py "ollama_url"; py "api_key"; py "api_url"; py "model";
   py "prompt"; py "whisper_api_url"; py "whisper_timeout"; py "language";
   py "temperature"; py "start_stage"; py "max_frames"].

(** The three options that go to the [audio] section, with the key each
    is stored under. *)
Definition audio_option (key : pystr) : option pystr :=
  if str_eqb key (py "whisper_api_url") then Some (py "whisper_api_url")
  else if str_eqb key (py "whisper_timeout") then Some (py "timeout")
  else if str_eqb key (py "language") then Some (py "language")
  else None.

(** A configuration file world with a user file only. *)
Definition user_file_world (loaded : result value) (resource : result pystr)
  : config_world :=
  mkConfigWorld (fun p => str_eqb (path_name p) (py "config.json"))
                (fun _ => loaded)
                resource
                (fun _ => Raise (exn_of ValueError [])).

Definition conf_dir : Path := [py "config"].

Definition a_config (c : value) : Config :=
  mkConfig conf_dir (path_div conf_dir (py "config.json"))
    (path_div conf_dir (py "default_config.json")) None c.

(* ===================================================================== *)
(** * Properties *)
(* ===================================================================== *)

(** ** The effect layer *)

Lemma bind_ok_inv {A B} (m : M A) (f : A -> M B) (t : list event) (b : B) :
  bind m f = (t, Ok b) ->
  exists t1 a t2, m = (t1, Ok a) /\ f a = (t2, Ok b) /\ t = t1 ++ t2.
Proof.
  destruct m as [t1 [a | e]]; cbn; [ | discriminate ].
  destruct (f a) as [t2 r] eqn:Hf. intros H. inversion H; subst.
  now exists t1, a, t2.
Qed.

Lemma bind_ret_l {A B} (a : A) (f : A -> M B) : bind (ret a) f = f a.
Proof. unfold bind, ret. now destruct (f a). Qed.

(** Every class of the model derives from [Exception]. *)
Lemma isinstance_Exception (e : exn) : isinstance e Exception = true.
Proof. destruct e as [[] m s]; reflexivity. Qed.

Lemma catches_Exception {A} (h : exn -> M A) (e : exn) :
  catches ([Exception], h) e = true.
Proof.
  unfold catches; cbn [fst existsb]. now rewrite isinstance_Exception.
Qed.

(** A [try] whose only clause is [except Exception] lets nothing out
    but what the handler raises. *)
Lemma try_except_Exception {A} (body : M A) (h : exn -> M A) :
  try_except body [([Exception], h)]
  = match body with
    | (t, Ok a) => (t, Ok a)
    | (t, Raise e) => let (t', r) := h e in (t ++ t', r)
    end.
Proof.
  destruct body as [t [a | e]]; cbn [try_except]; [ reflexivity | ].
  cbn [find]. now rewrite catches_Exception.
Qed.

Lemma mapM_length {A B} (f : A -> M B) (l : list A) t ys :
  mapM f l = (t, Ok ys) -> List.length ys = List.length l.
Proof.
  revert t ys. induction l as [ | x l IH]; intros t ys H.
  - inversion H. reflexivity.
  - cbn [mapM] in H.
    apply bind_ok_inv in H as (t1 & y & t2 & _ & H & _).
    apply bind_ok_inv in H as (t3 & ys' & t4 & Hl & H & _).
    inversion H; subst. cbn. f_equal. eauto.
Qed.

Lemma mapM_Forall2 {A B} (f : A -> M B) (l : list A) t ys :
  mapM f l = (t, Ok ys) ->
  Forall2 (fun x y => outcome (f x) = Ok y) l ys.
Proof.
  revert t ys. induction l as [ | x l IH]; intros t ys H.
  - inversion H. constructor.
  - cbn [mapM] in H.
    apply bind_ok_inv in H as (t1 & y & t2 & Hx & H & _).
    apply bind_ok_inv in H as (t3 & ys' & t4 & Hl & H & _).
    inversion H; subst. constructor; [ now rewrite Hx | eauto ].
Qed.

Lemma mapM_total {A B} (f : A -> M B) (l : list A) :
  Forall (fun x => exists y, f x = ([], Ok y)) l ->
  exists ys, mapM f l = ([], Ok ys).
Proof.
  induction 1 as [ | x l (y & Hx) _ (ys & IH)].
  - now exists [].
  - exists (y :: ys). cbn [mapM]. rewrite Hx. cbn. now rewrite IH.
Qed.

(** ** Strings *)

Lemma lstrip_nil_iff (s : pystr) : lstrip s = [] <-> blank s = true.
Proof.
  induction s as [ | c s IH]; cbn; [ easy | ].
  destruct (isspace c); cbn; [ exact IH | easy ].
Qed.

Lemma blank_app (a b : pystr) : blank (a ++ b) = blank a && blank b.
Proof. apply forallb_app. Qed.

Lemma blank_rev (s : pystr) : blank (rev s) = blank s.
Proof.
  induction s as [ | c s IH]; cbn; [ reflexivity | ].
  rewrite blank_app, IH. cbn. rewrite andb_true_r. apply andb_comm.
Qed.

Lemma lstrip_blank (s : pystr) : blank (lstrip s) = true -> blank s = true.
Proof.
  induction s as [ | c s IH]; cbn; [ easy | ].
  destruct (isspace c) eqn:Hc; cbn; [ exact IH | ].
  now rewrite Hc.
Qed.

(** [s.strip()] is empty exactly when [s] holds white space only. *)
Lemma strip_nil_iff (s : pystr) : strip s = [] <-> blank s = true.
Proof.
  unfold strip, rstrip. split.
  - intros H.
    assert (H' : lstrip (rev (lstrip s)) = []).
    { destruct (lstrip (rev (lstrip s))) as [ | c r]; [ reflexivity | ].
      cbn in H. now destruct (rev r). }
    apply lstrip_nil_iff in H'. rewrite blank_rev in H'.
    now apply lstrip_blank.
  - intros H. apply lstrip_nil_iff in H. now rewrite H.
Qed.

Lemma truthy_strip (s : pystr) : truthy (VStr (strip s)) = negb (blank s).
Proof.
  destruct (blank s) eqn:Hb.
  - apply strip_nil_iff in Hb. now rewrite Hb.
  - destruct (strip s) eqn:Hs; [ | reflexivity ].
    apply strip_nil_iff in Hs. congruence.
Qed.

Lemma blank_nonempty_truthy (s : pystr) :
  blank s = false -> truthy (VStr s) = true.
Proof. now destruct s. Qed.

(** ** The transcription client *)

Section ClientFacts.
Variable w : world.
Variable self : WhisperClient.
Variable audio_path : Path.
Variable lang : option pystr.

(** The three [except] clauses of [WhisperClient.transcribe] turn any
    exception of the body into the return value [None]. *)
Lemma client_clauses_absorb (body : M value) (e : exn) :
  outcome body = Raise e ->
  outcome
    (try_except body
       [ ([Timeout], fun _ =>
            log ERROR "timeout while transcribing" ;;; ret VNone);
         ([RequestException], fun _ =>
            log ERROR "HTTP error while transcribing" ;;; ret VNone);
         ([Exception], fun _ =>
            log ERROR "unexpected error while transcribing" ;;; ret VNone) ])
  = Ok VNone.
Proof.
  destruct body as [t r]; cbn [outcome snd]; intros ->.
  cbn [try_except find].
  destruct (catches _ e); [ reflexivity | ].
  destruct (catches _ e); [ reflexivity | ].
  now rewrite catches_Exception.
Qed.

(** What the client returns, by the answers of the outside world. *)
Lemma client_outcome :
  outcome (WhisperClient_transcribe w self audio_path lang)
  = match file_open w audio_path with
    | Some _ => Ok VNone
    | None =>
        match http_post w (transcribe_url self) (path_name audio_path)
                (data_fields lang) with
        | HttpRaises _ => Ok VNone
        | HttpResponse r =>
            if (400 <=? status_code r)%Z && (status_code r <? 600)%Z
            then Ok VNone
            else match json r with
                 | Ok v => Ok v
                 | Raise _ => Ok VNone
                 end
        end
    end.
Proof.
  unfold WhisperClient_transcribe, open_rb, requests_post, raise_for_status,
    response_json, of_option_exn, of_http.
  destruct (file_open w audio_path) as [e | ];
    [ now apply client_clauses_absorb with (e := e) | ].
  destruct (http_post _ _ _ _) as [e | r];
    [ now apply client_clauses_absorb with (e := e) | ].
  cbn -[try_except Z.leb Z.ltb].
  destruct (_ && _);
    [ now apply client_clauses_absorb with (e := exn_of HTTPError []) | ].
  destruct (json r) as [v | e];
    [ reflexivity | now apply client_clauses_absorb with (e := e) ].
Qed.

Lemma client_returns :
  exists v, outcome (WhisperClient_transcribe w self audio_path lang) = Ok v.
Proof.
  rewrite client_outcome.
  destruct (file_open w audio_path); [ now eexists | ].
  destruct (http_post _ _ _ _) as [e | r]; [ now eexists | ].
  destruct (_ && _); [ now eexists | ].
  destruct (json r); now eexists.
Qed.

(** [check_health] answers [True] on a 200 only, and never raises. *)
Lemma check_health_outcome :
  outcome (WhisperClient_check_health w self)
  = Ok match http_get w (api_url self ++ py "/health") with
       | HttpRaises _ => false
       | HttpResponse r => (status_code r =? 200)%Z
       end.
Proof.
  unfold WhisperClient_check_health, requests_get, of_http.
  rewrite try_except_Exception.
  destruct (http_get w _); reflexivity.
Qed.

End ClientFacts.

(** ** [AudioProcessor.transcribe] through its two stages *)

Lemma transcribe_outcome (w : world) (self : AudioProcessor) (p : Path) :
  outcome (transcribe w self p)
  = match outcome (WhisperClient_transcribe w (whisper_client self) p
                     (self_language self)) with
    | Ok res =>
        match outcome (normalize (self_language self) res) with
        | Ok o => Ok o
        | Raise _ => Ok None
        end
    | Raise _ => Ok None
    end.
Proof.
  unfold transcribe. rewrite try_except_Exception.
  destruct (WhisperClient_transcribe _ _ _ _) as [t1 [res | e]]; cbn;
    [ | reflexivity ].
  destruct (normalize _ res) as [t2 [o | e]]; reflexivity.
Qed.

Lemma transcribe_of_result (w : world) (self : AudioProcessor) (p : Path)
  (res : value) :
  outcome (WhisperClient_transcribe w (whisper_client self) p
             (self_language self)) = Ok res ->
  outcome (transcribe w self p)
  = match outcome (normalize (self_language self) res) with
    | Ok o => Ok o
    | Raise _ => Ok None
    end.
Proof. intros H. now rewrite transcribe_outcome, H. Qed.

Lemma transcribe_some_inv (w : world) (self : AudioProcessor) (p : Path)
  (t : AudioTranscript) :
  outcome (transcribe w self p) = Ok (Some t) ->
  exists res,
    outcome (WhisperClient_transcribe w (whisper_client self) p
               (self_language self)) = Ok res
    /\ outcome (normalize (self_language self) res) = Ok (Some t).
Proof.
  rewrite transcribe_outcome.
  destruct (outcome (WhisperClient_transcribe _ _ _ _)) as [res | e];
    [ | discriminate ].
  destruct (outcome (normalize _ res)) as [o | e] eqn:Hn; [ | discriminate ].
  intros H. inversion H; subst. now exists res.
Qed.

(** ** The normaliser *)

Lemma outcome_inv {A} (m : M A) (r : result A) :
  outcome m = r -> exists t, m = (t, r).
Proof. destruct m as [t r']; cbn; intros ->. now exists t. Qed.

Lemma copied_get (d : dict) (k : pystr) (default : value) :
  copied d k default (dict_get d k default).
Proof. unfold copied, dict_get. now destruct (lookup k d). Qed.

Lemma word_info_inv (word out : value) :
  outcome (word_info word) = Ok out -> word_copied word out.
Proof.
  destruct word; cbn; try discriminate.
  intros H; inversion H; subst. constructor; apply copied_get.
Qed.

Lemma word_info_total (word : value) :
  is_dict word = true -> exists out, word_info word = ([], Ok out).
Proof. destruct word; cbn; try discriminate. intros _. now eexists. Qed.

Lemma words_inv (ws outs : list value) (t : list event) :
  mapM word_info ws = (t, Ok outs) -> Forall2 word_copied ws outs.
Proof.
  intros H. apply mapM_Forall2 in H.
  induction H; constructor; auto using word_info_inv.
Qed.

Lemma segment_info_inv (seg out : value) :
  outcome (segment_info seg) = Ok out -> segment_copied seg out.
Proof.
  destruct seg as [ | | | | | | d]; cbn [segment_info attr_get];
    try discriminate.
  intros H. apply outcome_inv in H as (t & H).
  apply bind_ok_inv in H as (t1 & d' & t2 & Hd & H & _).
  inversion Hd; subst d'; clear Hd.
  apply bind_ok_inv in H as (t3 & words & t4 & Hw & H & _).
  inversion H; subst; clear H.
  constructor; try apply copied_get.
  unfold dict_contains, dict_get in Hw.
  destruct (lookup (py "words") d) as [v | ] eqn:Hl; cbn [andb] in Hw.
  - destruct (truthy v) eqn:Hv.
    + apply bind_ok_inv in Hw as (t5 & ws & t6 & Hi & Hm & _).
      unfold iter in Hi.
      destruct v as [ | | | | s | l | dd]; cbn in Hi; try discriminate.
      * (* a str: its characters have no [get] *)
        inversion Hi; subst ws. destruct s as [ | c s]; [ discriminate | ].
        cbn in Hm. discriminate.
      * inversion Hi; subst ws.
        eapply WordsPresent; [ exact Hl | eauto using words_inv ].
      * (* a dict: its keys have no [get] *)
        inversion Hi; subst ws. destruct dd as [ | kv dd]; [ discriminate | ].
        cbn in Hm. discriminate.
    + inversion Hw; subst. now apply WordsEmpty with (v := v).
  - inversion Hw; subst. now apply WordsAbsent.
Qed.

Lemma segment_info_total (seg : value) :
  segment_ok seg = true -> exists out, segment_info seg = ([], Ok out).
Proof.
  destruct seg as [ | | | | | | d]; cbn [segment_ok]; try discriminate.
  intros H. unfold segment_info, attr_get. rewrite bind_ret_l.
  unfold dict_contains, dict_get.
  destruct (lookup (py "words") d) as [v | ]; cbn [andb].
  - destruct (truthy v) eqn:Hv; cbn [negb orb] in H.
    + destruct v as [ | | | | | ws | ]; try discriminate.
      destruct (@mapM_total _ _ word_info ws) as (outs & Hm).
      { apply Forall_forall. intros x Hx. apply word_info_total.
        rewrite forallb_forall in H. auto. }
      cbn [iter iter_items].
      rewrite bind_ret_l, Hm.
      cbn. now eexists.
    + cbn. now eexists.
  - cbn. now eexists.
Qed.

Lemma segments_inv (segs outs : list value) (t : list event) :
  mapM segment_info segs = (t, Ok outs) -> Forall2 segment_copied segs outs.
Proof.
  intros H. apply mapM_Forall2 in H.
  induction H; constructor; auto using segment_info_inv.
Qed.

Lemma segments_total (segs : list value) :
  forallb segment_ok segs = true ->
  exists outs, mapM segment_info segs = ([], Ok outs).
Proof.
  intros H. apply mapM_total, Forall_forall. intros x Hx.
  apply segment_info_total. rewrite forallb_forall in H. auto.
Qed.

(** On a response whose text passes the test of line 117 the normaliser
    is the conversion loop followed by the language choice. *)
Lemma normalize_text (lang : option pystr) (rd : dict) (s : pystr) :
  dict_get rd (py "text") (VStr []) = VStr s ->
  blank s = false ->
  normalize lang (VDict rd)
  = (items <- iter (segments_to_convert rd (VStr s)) ;;
     segment_data <- mapM segment_info items ;;
     ret (Some (mkAudioTranscript (VStr s) segment_data
                  (dict_get rd (py "language") (language_or_unknown lang))))).
Proof.
  intros Ht Hb. unfold normalize, segments_to_convert.
  assert (Hrd : truthy (VDict rd) = true).
  { destruct rd; [ | reflexivity ].
    unfold dict_get in Ht. cbn in Ht. inversion Ht; subst. discriminate. }
  rewrite Hrd. cbn [negb attr_get]. 
  rewrite bind_ret_l. cbv zeta. rewrite Ht, (blank_nonempty_truthy _ Hb).
  cbn [negb attr_strip].
  rewrite !bind_ret_l, truthy_strip, Hb. cbn [negb].
  reflexivity.
Qed.

Lemma normalize_blank (lang : option pystr) (rd : dict) (s : pystr) :
  dict_get rd (py "text") (VStr []) = VStr s ->
  blank s = true ->
  outcome (normalize lang (VDict rd)) = Ok None.
Proof.
  intros Ht Hb. unfold normalize.
  destruct (truthy (VDict rd)); cbn [negb]; [ | reflexivity ].
  cbn [attr_get]. rewrite bind_ret_l. cbv zeta. rewrite Ht.
  destruct (truthy (VStr s)); cbn [negb].
  - cbn [attr_strip]. rewrite !bind_ret_l, truthy_strip, Hb. reflexivity.
  - rewrite bind_ret_l. reflexivity.
Qed.

(** A transcript comes only out of an object whose text is a string
    with something else than white space in it. *)
Lemma normalize_some_inv (lang : option pystr) (res : value)
  (t : AudioTranscript) :
  outcome (normalize lang res) = Ok (Some t) ->
  exists rd s,
    res = VDict rd
    /\ dict_get rd (py "text") (VStr []) = VStr s
    /\ blank s = false.
Proof.
  unfold normalize.
  destruct (truthy res) eqn:Hres; cbn [negb]; [ | discriminate ].
  destruct res as [ | | | | | | rd]; cbn [attr_get]; try discriminate.
  rewrite bind_ret_l. cbv zeta.
  destruct (dict_get rd (py "text") (VStr [])) as [ | b | z | f | s | l | d ]
    eqn:Ht; cbn [truthy].
  1-4, 6-7:
    repeat match goal with
           | |- context [negb ?b] => destruct b; cbn [negb]
           | |- context [match ?x with [] => _ | _ :: _ => _ end] =>
               destruct x
           end; cbn; discriminate.
  destruct s as [ | c s']; [ cbn; discriminate | ].
  cbn [negb attr_strip]. rewrite !bind_ret_l, truthy_strip.
  destruct (blank (c :: s')) eqn:Hb; cbn [negb]; [ cbn; discriminate | ].
  intros _. now exists rd, (c :: s').
Qed.

Lemma base_segment_ok (txt : value) : segment_ok (base_segment txt) = true.
Proof. reflexivity. Qed.

(** On a structurally valid response the loop runs over raw segments
    of the wire contract. *)
Lemma valid_segments (rd : dict) (txt : value) :
  valid_response (VDict rd) = true ->
  exists segs,
    segments_to_convert rd txt = VList segs
    /\ forallb segment_ok segs = true.
Proof.
  cbn [valid_response]. intros H. apply andb_true_iff in H as [_ H].
  unfold segments_to_convert, dict_get.
  destruct (lookup (py "segments") rd) as [v | ].
  - destruct (truthy v) eqn:Hv; cbn [negb orb] in *.
    + destruct v as [ | | | | | segs | ]; try discriminate. now exists segs.
    + exists [base_segment txt]. now rewrite <- (base_segment_ok txt).
  - cbn. exists [base_segment txt]. now rewrite <- (base_segment_ok txt).
Qed.

Lemma valid_text (rd : dict) :
  valid_response (VDict rd) = true ->
  exists s, dict_get rd (py "text") (VStr []) = VStr s.
Proof.
  cbn [valid_response]. intros H. apply andb_true_iff in H as [H _].
  unfold dict_get.
  destruct (lookup (py "text") rd) as [v | ]; [ | now exists [] ].
  destruct v; try discriminate. now eexists.
Qed.

Lemma normalize_valid (lang : option pystr) (rd : dict) (s : pystr) :
  valid_response (VDict rd) = true ->
  dict_get rd (py "text") (VStr []) = VStr s ->
  blank s = false ->
  exists t, outcome (normalize lang (VDict rd)) = Ok (Some t).
Proof.
  intros Hv Ht Hb. rewrite (normalize_text lang rd s Ht Hb).
  destruct (valid_segments rd (VStr s) Hv) as (segs & -> & Hs).
  destruct (segments_total segs Hs) as (outs & Hm).
  cbn [iter iter_items]. rewrite bind_ret_l, Hm. cbn.
  now eexists.
Qed.

(** The segments of a transcript are the conversions, in order, of the
    segment list the loop ran over; and that list is a non-empty array
    of raw segments. *)
Lemma normalize_segments (lang : option pystr) (rd : dict) (s : pystr)
  (t : AudioTranscript) :
  dict_get rd (py "text") (VStr []) = VStr s ->
  blank s = false ->
  outcome (normalize lang (VDict rd)) = Ok (Some t) ->
  text t = VStr s
  /\ language t = dict_get rd (py "language") (language_or_unknown lang)
  /\ exists items,
       iter_items (segments_to_convert rd (VStr s)) = Some items
       /\ Forall2 segment_copied items (segments t).
Proof.
  intros Ht Hb. rewrite (normalize_text lang rd s Ht Hb). intros H.
  apply outcome_inv in H as (tr & H).
  apply bind_ok_inv in H as (t1 & items & t2 & Hi & H & _).
  apply bind_ok_inv in H as (t3 & outs & t4 & Hm & H & _).
  inversion H; subst; clear H. cbn [text language segments].
  repeat split. exists items. split; [ | eauto using segments_inv ].
  unfold iter in Hi. destruct (iter_items _); inversion Hi. reflexivity.
Qed.

Lemma iter_items_truthy (v : value) (items : list value) :
  truthy v = true -> iter_items v = Some items -> items <> [].
Proof.
  destruct v as [ | | | | [ | c s] | [ | x l] | [ | kv d]]; cbn;
    try discriminate; intros _ H; inversion H; discriminate.
Qed.

Lemma segments_to_convert_nonempty (rd : dict) (txt : value)
  (items : list value) :
  iter_items (segments_to_convert rd txt) = Some items -> items <> [].
Proof.
  unfold segments_to_convert.
  destruct (truthy (dict_get rd (py "segments") (VList []))) eqn:Hv;
    cbn [negb].
  - now apply iter_items_truthy.
  - cbn. intros H; inversion H. discriminate.
Qed.

Lemma segments_to_convert_present (rd : dict) (txt : value)
  (segs : list value) :
  lookup (py "segments") rd = Some (VList segs) ->
  segs <> [] ->
  segments_to_convert rd txt = VList segs.
Proof.
  intros Hl Hne. unfold segments_to_convert, dict_get. rewrite Hl.
  destruct segs; [ congruence | reflexivity ].
Qed.

Lemma segments_to_convert_missing (rd : dict) (txt : value) :
  lookup (py "segments") rd = None
  \/ lookup (py "segments") rd = Some (VList []) ->
  segments_to_convert rd txt = VList [base_segment txt].
Proof.
  unfold segments_to_convert, dict_get. now intros [-> | ->].
Qed.

Lemma lookup_get (rd : dict) (k : pystr) (v default : value) :
  lookup k rd = Some v -> dict_get rd k default = v.
Proof. unfold dict_get. now intros ->. Qed.

(** ** The claims about [transcribe] *)

(** C3. [AudioProcessor.transcribe] never raises: whatever the outside
    world answers, the call ends with a return value.  When the audio
    file cannot be opened, when the request raises (a timeout, a
    transport error or anything else), when the service answers with an
    error status, when the body of the answer is not JSON, and when
    handling the decoded answer raises, that value is [None]. *)
Theorem transcribe_never_raises (w : world) (self : AudioProcessor)
  (p : Path) :
  (exists o, outcome (transcribe w self p) = Ok o)
  /\ (forall e, file_open w p = Some e ->
        outcome (transcribe w self p) = Ok None)
  /\ (forall e,
        http_post w (transcribe_url (whisper_client self)) (path_name p)
          (data_fields (self_language self)) = HttpRaises e ->
        outcome (transcribe w self p) = Ok None)
  /\ (forall r,
        http_post w (transcribe_url (whisper_client self)) (path_name p)
          (data_fields (self_language self)) = HttpResponse r ->
        (400 <= status_code r < 600)%Z ->
        outcome (transcribe w self p) = Ok None)
  /\ (forall r e,
        http_post w (transcribe_url (whisper_client self)) (path_name p)
          (data_fields (self_language self)) = HttpResponse r ->
        json r = Raise e ->
        outcome (transcribe w self p) = Ok None)
  /\ (forall res e,
        outcome (WhisperClient_transcribe w (whisper_client self) p
                   (self_language self)) = Ok res ->
        outcome (normalize (self_language self) res) = Raise e ->
        outcome (transcribe w self p) = Ok None).
Proof.
  repeat split.
  - rewrite transcribe_outcome.
    destruct (outcome (WhisperClient_transcribe _ _ _ _)) as [res | e];
      [ | now eexists ].
    destruct (outcome (normalize _ res)); now eexists.
  - intros e H. rewrite transcribe_outcome, client_outcome, H. reflexivity.
  - intros e H. rewrite transcribe_outcome, client_outcome, H.
    now destruct (file_open w p).
  - intros r H [Hlo Hhi]. rewrite transcribe_outcome, client_outcome, H.
    apply Z.leb_le in Hlo. apply Z.ltb_lt in Hhi. rewrite Hlo, Hhi.
    now destruct (file_open w p).
  - intros r e H Hj. rewrite transcribe_outcome, client_outcome, H, Hj.
    destruct (file_open w p); [ reflexivity | ].
    now destruct (_ && _).
  - intros res e H Hn. now rewrite (transcribe_of_result _ _ _ _ H), Hn.
Qed.

(** C8. When the top-level text of the raw result is empty or holds
    white space only, [transcribe] returns [None]; and on a structurally
    valid response nothing else gives [None]: there the text (the empty
    string when the field is missing) is empty or white space only. *)
Theorem blank_text_is_the_only_absent_transcript (w : world)
  (self : AudioProcessor) (p : Path) (res : value) :
  outcome (WhisperClient_transcribe w (whisper_client self) p
             (self_language self)) = Ok res ->
  (forall rd s,
     res = VDict rd ->
     lookup (py "text") rd = Some (VStr s) ->
     blank s = true ->
     outcome (transcribe w self p) = Ok None)
  /\ (valid_response res = true ->
      outcome (transcribe w self p) = Ok None ->
      exists rd s,
        res = VDict rd
        /\ dict_get rd (py "text") (VStr []) = VStr s
        /\ blank s = true).
Proof.
  intros Hc. rewrite (transcribe_of_result _ _ _ _ Hc). split.
  - intros rd s -> Hl Hb.
    now rewrite (normalize_blank _ rd s (lookup_get _ _ _ _ Hl) Hb).
  - intros Hv Hn.
    destruct res as [ | | | | | | rd]; try discriminate.
    destruct (valid_text rd Hv) as (s & Ht).
    exists rd, s. repeat split; [ exact Ht | ].
    destruct (blank s) eqn:Hb; [ reflexivity | ].
    destruct (normalize_valid (self_language self) rd s Hv Ht Hb) as (t & Hs).
    rewrite Hs in Hn. discriminate.
Qed.

(** C6. When the raw result has a text with something else than white
    space in it and its [segments] field is absent or empty, the
    transcript has exactly one segment, and that segment is
    [{text: <the full text>, start: 0.0, end: 0.0, words: []}]. *)
Theorem default_segment_synthesized (w : world) (self : AudioProcessor)
  (p : Path) (rd : dict) (s : pystr) :
  outcome (WhisperClient_transcribe w (whisper_client self) p
             (self_language self)) = Ok (VDict rd) ->
  lookup (py "text") rd = Some (VStr s) ->
  blank s = false ->
  lookup (py "segments") rd = None
  \/ lookup (py "segments") rd = Some (VList []) ->
  exists t,
    outcome (transcribe w self p) = Ok (Some t)
    /\ text t = VStr s
    /\ segments t
       = [VDict [(py "text", VStr s); (py "start", VFloat 0);
                 (py "end", VFloat 0); (py "words", VList [])]].
Proof.
  intros Hc Hl Hb Hseg. rewrite (transcribe_of_result _ _ _ _ Hc).
  rewrite (normalize_text _ rd s (lookup_get _ _ _ _ Hl) Hb).
  rewrite (segments_to_convert_missing rd (VStr s) Hseg).
  eexists. split; [ reflexivity | ]. split; reflexivity.
Qed.

(** C9. Every transcript [transcribe] returns with a non-empty text has
    a non-empty sequence of segments. *)
Theorem nonempty_text_nonempty_segments (w : world) (self : AudioProcessor)
  (p : Path) (t : AudioTranscript) :
  outcome (transcribe w self p) = Ok (Some t) ->
  text t <> VStr [] ->
  segments t <> [].
Proof.
  intros H _.
  apply transcribe_some_inv in H as (res & _ & Hn).
  destruct (normalize_some_inv _ _ _ Hn) as (rd & s & -> & Ht & Hb).
  destruct (normalize_segments _ rd s _ Ht Hb Hn) as (_ & _ & items & Hi & Hf).
  apply segments_to_convert_nonempty in Hi.
  destruct Hf; [ congruence | discriminate ].
Qed.

(** C7. Every segment of the raw result is copied, in order: its
    [text], [start] and [end] with the defaults [""], [0.0] and [0.0]
    for missing fields, and every word entry with [word], [start], [end]
    and [probability], a missing probability being [1.0] and a missing
    time [0.0].  Whenever a transcript comes out it has this shape, and
    one does come out when the text is not blank and the segments follow
    the wire contract. *)
Theorem segments_and_words_copied :
  (forall (w : world) (self : AudioProcessor) (p : Path) (rd : dict)
          (segs : list value),
     outcome (WhisperClient_transcribe w (whisper_client self) p
                (self_language self)) = Ok (VDict rd) ->
     lookup (py "segments") rd = Some (VList segs) ->
     segs <> [] ->
     (forall t,
        outcome (transcribe w self p) = Ok (Some t) ->
        Forall2 segment_copied segs (segments t))
     /\ (forall s,
           lookup (py "text") rd = Some (VStr s) ->
           blank s = false ->
           forallb segment_ok segs = true ->
           exists t, outcome (transcribe w self p) = Ok (Some t)))
  /\ outcome (construct_and_transcribe
                (service_world raw_word_without_probability)
                None localhost 300 audio_wav)
     = Ok (Some (mkAudioTranscript (VStr (py "hi"))
                   [VDict [(py "text", VStr (py "hi"));
                           (py "start", VFloat 0.5);
                           (py "end", VFloat 0);
                           (py "words",
                            VList [VDict [(py "word", VStr (py "hi"));
                                          (py "start", VFloat 0.5);
                                          (py "end", VFloat 0);
                                          (py "probability", VFloat 1)]])]]
                   (VStr (py "unknown")))).
Proof.
  split; [ | reflexivity ].
  intros w self p rd segs Hc Hl Hne.
  rewrite (transcribe_of_result _ _ _ _ Hc). split.
  - intros t Hn.
    assert (Hn' : outcome (normalize (self_language self) (VDict rd))
                  = Ok (Some t)).
    { destruct (outcome (normalize _ _)) as [o | e]; congruence. }
    destruct (normalize_some_inv _ _ _ Hn') as (rd' & s & E & Ht & Hb).
    inversion E; subst rd'; clear E.
    destruct (normalize_segments _ rd s _ Ht Hb Hn') as (_ & _ & items & Hi & Hf).
    rewrite (segments_to_convert_present rd (VStr s) segs Hl Hne) in Hi.
    inversion Hi; subst. exact Hf.
  - intros s Ht Hb Hok.
    rewrite (normalize_text _ rd s (lookup_get _ _ _ _ Ht) Hb).
    rewrite (segments_to_convert_present rd (VStr s) segs Hl Hne).
    destruct (segments_total segs Hok) as (outs & Hm).
    cbn [iter iter_items]. rewrite bind_ret_l, Hm. cbn. now eexists.
Qed.

(** ** Construction *)

Lemma client_init_outcome (w : world) (url : pystr) (tmo : Z) :
  outcome (WhisperClient_init w url tmo)
  = match http_get w (health_url url) with
    | HttpRaises _ => Raise (exn_of ConnectionError (unavailable_msg url))
    | HttpResponse r =>
        if (status_code r =? 200)%Z
        then match json r with
             | Ok _ => Ok (client_of url tmo)
             | Raise _ => Raise (exn_of ConnectionError (unavailable_msg url))
             end
        else Ok (client_of url tmo)
    end.
Proof.
  unfold WhisperClient_init, health_url, client_of, requests_get, of_http,
    response_json.
  rewrite try_except_Exception.
  destruct (http_get w _) as [e | r]; [ reflexivity | ].
  cbn -[Z.eqb rstrip_char].
  destruct (status_code r =? 200)%Z; [ | reflexivity ].
  destruct (json r); reflexivity.
Qed.

(** The probe is the first thing construction does. *)
Lemma client_init_probes (w : world) (url : pystr) (tmo : Z) :
  exists rest,
    trace (WhisperClient_init w url tmo) = EGet (health_url url) 10 :: rest.
Proof.
  unfold WhisperClient_init, health_url, requests_get, of_http, response_json.
  rewrite try_except_Exception.
  destruct (http_get w _) as [e | r]; [ now eexists | ].
  cbn -[Z.eqb rstrip_char].
  destruct (status_code r =? 200)%Z; [ | now eexists ].
  destruct (json r); now eexists.
Qed.

Lemma processor_init_outcome (w : world) (lang : option pystr)
  (url : pystr) (tmo : Z) :
  outcome (AudioProcessor_init w lang url tmo)
  = match outcome (WhisperClient_init w url tmo) with
    | Raise e => Raise e
    | Ok c =>
        match proc_run w [py "ffmpeg"; py "-version"] with
        | Exit0 => Ok (mkAudioProcessor (hint_of lang) c true)
        | ExitNonZero _ => Ok (mkAudioProcessor (hint_of lang) c false)
        | RunRaises e =>
            if isinstance e CalledProcessError
               || isinstance e FileNotFoundError
            then Ok (mkAudioProcessor (hint_of lang) c false)
            else Raise e
        end
    end.
Proof.
  unfold AudioProcessor_init, hint_of. rewrite try_except_Exception.
  destruct (WhisperClient_init w url tmo) as [t [c | e]];
    [ | reflexivity ].
  unfold subprocess_run.
  destruct (proc_run w _) as [ | err | e]; try reflexivity.
  cbn -[isinstance].
  destruct (isinstance e CalledProcessError);
    [ reflexivity | ].
  destruct (isinstance e FileNotFoundError); reflexivity.
Qed.

Lemma processor_init_language (w : world) (lang : option pystr)
  (url : pystr) (tmo : Z) (self : AudioProcessor) :
  outcome (AudioProcessor_init w lang url tmo) = Ok self ->
  self_language self = hint_of lang.
Proof.
  rewrite processor_init_outcome.
  destruct (outcome (WhisperClient_init w url tmo)); [ | discriminate ].
  destruct (proc_run w _) as [ | err | e].
  1-2: intros H; inversion H; reflexivity.
  destruct (_ || _); [ | discriminate ].
  intros H; inversion H; reflexivity.
Qed.

(** Construction of the client, with what it did: the probe, then one
    log record, by the answer to the probe. *)
Lemma client_init_run (w : world) (url : pystr) (tmo : Z) :
  WhisperClient_init w url tmo
  = match http_get w (health_url url) with
    | HttpRaises _ =>
        ([EGet (health_url url) 10;
          Log ERROR "could not check Whisper API availability"],
         Raise (exn_of ConnectionError (unavailable_msg url)))
    | HttpResponse r =>
        if (status_code r =? 200)%Z
        then match json r with
             | Ok _ =>
                 ([EGet (health_url url) 10;
                   Log INFO "Whisper API available"],
                  Ok (client_of url tmo))
             | Raise _ =>
                 ([EGet (health_url url) 10;
                   Log ERROR "could not check Whisper API availability"],
                  Raise (exn_of ConnectionError (unavailable_msg url)))
             end
        else ([EGet (health_url url) 10;
               Log WARNING "Whisper API returned a status"],
              Ok (client_of url tmo))
    end.
Proof.
  unfold WhisperClient_init, health_url, client_of, requests_get, of_http,
    response_json.
  rewrite try_except_Exception.
  destruct (http_get w _) as [e | r]; [ reflexivity | ].
  cbn -[Z.eqb rstrip_char].
  destruct (status_code r =? 200)%Z; [ | reflexivity ].
  destruct (json r); reflexivity.
Qed.

(** C1 (as amended).  Construction starts with the probe
    [GET {base}/health].  When the probe request raises (the service
    cannot be reached), an error is logged, and construction of the
    client, and so of the processor, ends with the [ConnectionError]
    "service unavailable" and returns no instance.  When the probe
    answers with a status other than 200, a warning is logged, nothing
    else is done, and construction of the client succeeds. *)
Theorem construction_fails_when_probe_raises (w : world) (url : pystr)
  (tmo : Z) :
  (exists rest,
     trace (WhisperClient_init w url tmo) = EGet (health_url url) 10 :: rest)
  /\ (forall e,
        http_get w (health_url url) = HttpRaises e ->
        WhisperClient_init w url tmo
        = ([EGet (health_url url) 10;
            Log ERROR "could not check Whisper API availability"],
           Raise (exn_of ConnectionError (unavailable_msg url)))
        /\ forall lang,
             outcome (AudioProcessor_init w lang url tmo)
             = Raise (exn_of ConnectionError (unavailable_msg url)))
  /\ (forall r,
        http_get w (health_url url) = HttpResponse r ->
        status_code r <> 200%Z ->
        WhisperClient_init w url tmo
        = ([EGet (health_url url) 10;
            Log WARNING "Whisper API returned a status"],
           Ok (client_of url tmo))).
Proof.
  split; [ apply client_init_probes | ]. split.
  - intros e H.
    assert (Hc : WhisperClient_init w url tmo
                 = ([EGet (health_url url) 10;
                     Log ERROR "could not check Whisper API availability"],
                    Raise (exn_of ConnectionError (unavailable_msg url)))).
    { now rewrite client_init_run, H. }
    split; [ exact Hc | ].
    intros lang. now rewrite processor_init_outcome, Hc.
  - intros r H Hs. rewrite client_init_run, H.
    apply Z.eqb_neq in Hs. now rewrite Hs.
Qed.

(** C10. When the probe answers 200 with a body that is not JSON,
    construction fails with the same [ConnectionError] as when the
    service cannot be reached. *)
Theorem probe_200_with_invalid_json_fails (w : world) (url : pystr)
  (tmo : Z) (r : response) (e : exn) :
  http_get w (health_url url) = HttpResponse r ->
  status_code r = 200%Z ->
  json r = Raise e ->
  outcome (WhisperClient_init w url tmo)
  = Raise (exn_of ConnectionError (unavailable_msg url))
  /\ (forall lang,
        outcome (AudioProcessor_init w lang url tmo)
        = Raise (exn_of ConnectionError (unavailable_msg url)))
  /\ (forall w' e',
        http_get w' (health_url url) = HttpRaises e' ->
        outcome (WhisperClient_init w' url tmo)
        = outcome (WhisperClient_init w url tmo)).
Proof.
  intros H Hs Hj.
  assert (Hc : outcome (WhisperClient_init w url tmo)
               = Raise (exn_of ConnectionError (unavailable_msg url))).
  { now rewrite client_init_outcome, H, Hs, Hj. }
  split; [ exact Hc | ]. split.
  - intros lang. now rewrite processor_init_outcome, Hc.
  - intros w' e' H'. now rewrite Hc, client_init_outcome, H'.
Qed.

(** C5. The language of a transcript is the one the service reported
    when the raw result has a [language] field, else the hint the caller
    gave when there is one (an empty hint counts as none), else
    ["unknown"].  With the raw result [{text: "hi", language: "fr"}] and
    the hint ["en"] it is ["fr"]; without the [language] key and with
    the hint ["en"] it is ["en"]; with neither it is ["unknown"]. *)
Theorem language_precedence :
  (forall (w0 w : world) (lang : option pystr) (url : pystr) (tmo : Z)
          (self : AudioProcessor) (p : Path) (t : AudioTranscript),
     outcome (AudioProcessor_init w0 lang url tmo) = Ok self ->
     outcome (transcribe w self p) = Ok (Some t) ->
     exists rd,
       outcome (WhisperClient_transcribe w (whisper_client self) p
                  (self_language self)) = Ok (VDict rd)
       /\ language t
          = match lookup (py "language") rd with
            | Some reported => reported
            | None =>
                match lang with
                | Some (c :: hint) => VStr (c :: hint)
                | Some [] | None => VStr (py "unknown")
                end
            end)
  /\ outcome (construct_and_transcribe (service_world raw_hi_fr)
                (Some (py "en")) localhost 300 audio_wav)
     = Ok (Some (mkAudioTranscript (VStr (py "hi"))
                   [base_segment (VStr (py "hi"))] (VStr (py "fr"))))
  /\ outcome (construct_and_transcribe (service_world raw_hi)
                (Some (py "en")) localhost 300 audio_wav)
     = Ok (Some (mkAudioTranscript (VStr (py "hi"))
                   [base_segment (VStr (py "hi"))] (VStr (py "en"))))
  /\ outcome (construct_and_transcribe (service_world raw_hi)
                None localhost 300 audio_wav)
     = Ok (Some (mkAudioTranscript (VStr (py "hi"))
                   [base_segment (VStr (py "hi"))] (VStr (py "unknown")))).
Proof.
  split; [ | repeat split; reflexivity ].
  intros w0 w lang url tmo self p t Hinit H.
  apply processor_init_language in Hinit.
  apply transcribe_some_inv in H as (res & Hc & Hn).
  destruct (normalize_some_inv _ _ _ Hn) as (rd & s & -> & Ht & Hb).
  destruct (normalize_segments _ rd s _ Ht Hb Hn) as (_ & Hl & _).
  exists rd. split; [ exact Hc | ].
  rewrite Hl, Hinit. unfold dict_get.
  destruct (lookup (py "language") rd); [ reflexivity | ].
  destruct lang as [ [ | c hint] | ]; reflexivity.
Qed.

(** ** Audio extraction *)

Section Extraction.
Variable w : world.
Variable self : AudioProcessor.
Variables video_path output_dir : Path.

Hypothesis mkdir_ok : fs_mkdir w output_dir = None.

(** ffmpeg ran and succeeded. *)
Lemma extract_audio_primary :
  proc_run w (argv_of video_path output_dir) = Exit0 ->
  outcome (extract_audio w self video_path output_dir) = Ok (Some (audio_path_of output_dir))
  /\ fallback_attempted (trace (extract_audio w self video_path output_dir))
     = false.
Proof.
  unfold argv_of, audio_path_of. intros H.
  unfold extract_audio, mkdir_parents, subprocess_run.
  rewrite mkdir_ok, H. split; reflexivity.
Qed.

(** ffmpeg failed and said that the container has no audio stream. *)
Lemma extract_audio_no_stream (diagnostic : pystr) :
  proc_run w (argv_of video_path output_dir) = ExitNonZero (Utf8 diagnostic) ->
  str_contains no_stream_marker diagnostic = true ->
  outcome (extract_audio w self video_path output_dir) = Ok None
  /\ fallback_attempted (trace (extract_audio w self video_path output_dir))
     = false.
Proof.
  unfold argv_of, audio_path_of. intros H Hm.
  unfold extract_audio, mkdir_parents, subprocess_run.
  rewrite mkdir_ok, H. cbn -[str_contains no_stream_marker].
  rewrite Hm. split; reflexivity.
Qed.

(** ffmpeg failed for another reason: the fallback runs, and the
    [RuntimeError] with the install guidance is raised when it fails. *)
Lemma extract_audio_fallback (diagnostic : pystr) :
  proc_run w (argv_of video_path output_dir) = ExitNonZero (Utf8 diagnostic) ->
  str_contains no_stream_marker diagnostic = false ->
  outcome (extract_audio w self video_path output_dir)
  = match pydub_from_file w (path_str video_path),
          pydub_export w (path_str (audio_path_of output_dir)) with
    | None, None => Ok (Some (audio_path_of output_dir))
    | _, _ => Raise (exn_of RuntimeError install_guidance)
    end
  /\ fallback_attempted (trace (extract_audio w self video_path output_dir))
     = true.
Proof.
  unfold argv_of, audio_path_of. intros H Hm.
  unfold extract_audio, mkdir_parents, subprocess_run.
  rewrite mkdir_ok, H.
  cbn -[str_contains no_stream_marker install_guidance path_str].
  rewrite Hm. unfold AudioSegment_from_file, AudioSegment_export.
  destruct (pydub_from_file w _) as [e1 | ];
    cbn -[install_guidance path_str isinstance].
  - rewrite isinstance_Exception. split; reflexivity.
  - destruct (pydub_export w _) as [e2 | ];
      cbn -[install_guidance path_str isinstance];
      [ rewrite isinstance_Exception | ]; split; reflexivity.
Qed.

(** ffmpeg could not be started at all: what [subprocess.run] raised
    leaves [extract_audio] as it is, and the fallback does not run. *)
Lemma extract_audio_launch_failure (e : exn) :
  proc_run w (argv_of video_path output_dir) = RunRaises e ->
  isinstance e CalledProcessError = false ->
  outcome (extract_audio w self video_path output_dir) = Raise e
  /\ fallback_attempted (trace (extract_audio w self video_path output_dir))
     = false.
Proof.
  unfold argv_of, audio_path_of. intros H He.
  unfold extract_audio, mkdir_parents, subprocess_run.
  rewrite mkdir_ok, H. cbn -[isinstance].
  rewrite He. split; reflexivity.
Qed.

End Extraction.

(** The case of a diagnostic output that decodes: when ffmpeg fails and
    the text its [stderr] decodes to says that the container has no
    audio stream, [extract_audio] returns [None]: it raises nothing and
    the fallback decode routine does not run. *)
Theorem no_audio_stream_returns_none (w : world) (self : AudioProcessor)
  (video_path output_dir : Path) (diagnostic : pystr) :
  fs_mkdir w output_dir = None ->
  proc_run w
    (ffmpeg_extract_argv video_path (path_div output_dir (py "audio.wav")))
  = ExitNonZero (Utf8 diagnostic) ->
  str_contains no_stream_marker diagnostic = true ->
  outcome (extract_audio w self video_path output_dir) = Ok None
  /\ fallback_attempted (trace (extract_audio w self video_path output_dir))
     = false.
Proof. intros Hd Hr Hm. now apply extract_audio_no_stream with diagnostic. Qed.

Lemma utf8_decode_ascii (bs : list N) :
  forallb (fun b => (b <? 128)%N) bs = true -> utf8_decode bs = Some bs.
Proof.
  induction bs as [ | b bs IH]; cbn [forallb utf8_decode]; [ reflexivity | ].
  intros H. apply andb_true_iff in H as [Hb Hbs].
  now rewrite Hb, (IH Hbs).
Qed.

(** C4, at the input on which the code departs from it.  A video
    without audio whose title tag is in Latin-1: ffmpeg fails, its
    diagnostic output holds the line "Output file does not contain any
    stream", and also the byte E9 of the title, which is not UTF-8.
    [e.stderr.decode()] raises in the handler, before the output is
    looked at: [extract_audio] ends with [UnicodeDecodeError] where the
    claim, and the docstring of the function, have it return [None].
    With the same title in UTF-8 it does return [None]. *)
Theorem no_stream_marker_in_undecodable_output_raises :
  str_contains no_stream_marker no_stream_stderr_latin1 = true
  /\ utf8_decode no_stream_stderr_latin1 = None
  /\ extract_audio
       (ffmpeg_fails_world (bytes_view no_stream_stderr_latin1) None)
       (a_processor None) [py "video.mp4"] [py "out"]
     = ([EMkdir [py "out"];
         ERun (ffmpeg_extract_argv [py "video.mp4"]
                 [py "out"; py "audio.wav"])],
        Raise (exn_of UnicodeDecodeError []))
  /\ outcome (extract_audio
                (ffmpeg_fails_world (bytes_view no_stream_stderr_utf8) None)
                (a_processor None) [py "video.mp4"] [py "out"])
     = Ok None.
Proof. repeat split; vm_compute; reflexivity. Qed.

(** C2, at the input on which the code departs from it.  On a machine
    without ffmpeg the processor is constructed (with [has_ffmpeg]
    false), and [extract_audio] then ends with the [FileNotFoundError]
    of [subprocess.run]: the fallback decode routine, which would have
    succeeded, is not attempted, and the error is not the
    [RuntimeError] with the install guidance. *)
Theorem missing_ffmpeg_skips_fallback :
  outcome (AudioProcessor_init no_ffmpeg_world None localhost 300)
  = Ok (mkAudioProcessor None a_client false)
  /\ extract_audio no_ffmpeg_world (mkAudioProcessor None a_client false)
       [py "video.mp4"] [py "out"]
     = ([EMkdir [py "out"];
         ERun (ffmpeg_extract_argv [py "video.mp4"]
                 [py "out"; py "audio.wav"])],
        Raise (exn_of FileNotFoundError []))
  /\ fallback_attempted
       (trace (extract_audio no_ffmpeg_world
                 (mkAudioProcessor None a_client false)
                 [py "video.mp4"] [py "out"]))
     = false
  /\ pydub_from_file no_ffmpeg_world (py "video.mp4") = None
  /\ pydub_export no_ffmpeg_world (py "out/audio.wav") = None.
Proof. repeat split; reflexivity. Qed.

(* ===================================================================== *)
(** * Instances *)
(* ===================================================================== *)

(** C1, as the specification words it, fails on a probe answered with
    status 503: the client and the processor are both constructed. *)
Lemma non_200_probe_construction_succeeds :
  let w := health_world (HttpResponse (mkResponse 503 (Ok (VDict [])))) in
  (exists r,
     http_get w (health_url localhost) = HttpResponse r
     /\ status_code r <> 200%Z)
  /\ outcome (WhisperClient_init w localhost 300) = Ok a_client
  /\ outcome (AudioProcessor_init w None localhost 300)
     = Ok (a_processor None)
  /\ ~ (exists e, outcome (WhisperClient_init w localhost 300) = Raise e).
Proof.
  cbv zeta. split; [ | split; [ | split ] ].
  - eexists. split; [ reflexivity | discriminate ].
  - reflexivity.
  - reflexivity.
  - intros (e & H). discriminate H.
Qed.

Lemma construction_fails_when_probe_raises_witness :
  (WhisperClient_init (dead_world (exn_of RequestsConnectionError []))
     localhost 300
   = ([EGet (health_url localhost) 10;
       Log ERROR "could not check Whisper API availability"],
      Raise (exn_of ConnectionError (unavailable_msg localhost)))
   /\ outcome (AudioProcessor_init
                 (dead_world (exn_of RequestsConnectionError []))
                 (Some (py "en")) localhost 300)
      = Raise (exn_of ConnectionError (unavailable_msg localhost)))
  /\ WhisperClient_init
       (health_world (HttpResponse (mkResponse 503 (Ok (VDict [])))))
       localhost 300
     = ([EGet (health_url localhost) 10;
         Log WARNING "Whisper API returned a status"],
        Ok (client_of localhost 300)).
Proof.
  split.
  - destruct (construction_fails_when_probe_raises
                (dead_world (exn_of RequestsConnectionError []))
                localhost 300) as (_ & H & _).
    destruct (H (exn_of RequestsConnectionError []) eq_refl) as (Hc & Hp).
    split; [ exact Hc | exact (Hp (Some (py "en"))) ].
  - destruct (construction_fails_when_probe_raises
                (health_world (HttpResponse (mkResponse 503 (Ok (VDict [])))))
                localhost 300) as (_ & _ & H).
    apply (H (mkResponse 503 (Ok (VDict [])))); [ reflexivity | ].
    vm_compute. discriminate.
Defined.

Lemma probe_200_with_invalid_json_fails_witness :
  outcome (WhisperClient_init
             (health_world
                (HttpResponse (mkResponse 200 (Raise (exn_of JSONDecodeError [])))))
             localhost 300)
  = Raise (exn_of ConnectionError (unavailable_msg localhost)).
Proof.
  apply (probe_200_with_invalid_json_fails
           (health_world
              (HttpResponse (mkResponse 200 (Raise (exn_of JSONDecodeError [])))))
           localhost 300
           (mkResponse 200 (Raise (exn_of JSONDecodeError [])))
           (exn_of JSONDecodeError []));
    reflexivity.
Defined.

Lemma transcribe_never_raises_witness :
  outcome (transcribe
             (transcription_world (Some (exn_of FileNotFoundError []))
                (HttpRaises (exn_of Timeout [])))
             (a_processor None) audio_wav) = Ok None
  /\ outcome (transcribe (dead_world (exn_of Timeout []))
                (a_processor None) audio_wav) = Ok None
  /\ outcome (transcribe
                (transcription_world None
                   (HttpResponse (mkResponse 500 (Ok raw_hi))))
                (a_processor None) audio_wav) = Ok None
  /\ outcome (transcribe
                (transcription_world None
                   (HttpResponse
                      (mkResponse 200 (Raise (exn_of JSONDecodeError [])))))
                (a_processor None) audio_wav) = Ok None
  /\ outcome (transcribe (service_world (VList [VInt 1]))
                (a_processor None) audio_wav) = Ok None.
Proof.
  split; [ | split; [ | split; [ | split ] ] ].
  - destruct (transcribe_never_raises
                (transcription_world (Some (exn_of FileNotFoundError []))
                   (HttpRaises (exn_of Timeout [])))
                (a_processor None) audio_wav) as (_ & H & _).
    apply (H (exn_of FileNotFoundError [])). reflexivity.
  - destruct (transcribe_never_raises (dead_world (exn_of Timeout []))
                (a_processor None) audio_wav) as (_ & _ & H & _).
    apply (H (exn_of Timeout [])). reflexivity.
  - destruct (transcribe_never_raises
                (transcription_world None
                   (HttpResponse (mkResponse 500 (Ok raw_hi))))
                (a_processor None) audio_wav) as (_ & _ & _ & H & _).
    apply (H (mkResponse 500 (Ok raw_hi))); [ reflexivity | ].
    cbn. lia.
  - destruct (transcribe_never_raises
                (transcription_world None
                   (HttpResponse
                      (mkResponse 200 (Raise (exn_of JSONDecodeError [])))))
                (a_processor None) audio_wav) as (_ & _ & _ & _ & H & _).
    apply (H (mkResponse 200 (Raise (exn_of JSONDecodeError [])))
             (exn_of JSONDecodeError [])); reflexivity.
  - destruct (transcribe_never_raises (service_world (VList [VInt 1]))
                (a_processor None) audio_wav) as (_ & _ & _ & _ & _ & H).
    apply (H (VList [VInt 1]) (exn_of AttributeError [])); reflexivity.
Defined.

Lemma no_audio_stream_returns_none_witness :
  let diagnostic :=
    py "[out#0/wav] Output file does not contain any stream" in
  str_contains no_stream_marker diagnostic = true
  /\ outcome (extract_audio (ffmpeg_fails_world (Utf8 diagnostic) None)
                (a_processor None) [py "video.mp4"] [py "out"]) = Ok None
  /\ fallback_attempted
       (trace (extract_audio (ffmpeg_fails_world (Utf8 diagnostic) None)
                 (a_processor None) [py "video.mp4"] [py "out"])) = false.
Proof.
  cbv zeta. split; [ reflexivity | ].
  apply (no_audio_stream_returns_none
           (ffmpeg_fails_world
              (Utf8 (py "[out#0/wav] Output file does not contain any stream"))
              None)
           (a_processor None) [py "video.mp4"] [py "out"]
           (py "[out#0/wav] Output file does not contain any stream"));
    reflexivity.
Defined.

Lemma language_precedence_witness :
  exists rd,
    outcome (WhisperClient_transcribe (service_world raw_hi)
               a_client audio_wav (Some (py "en"))) = Ok (VDict rd)
    /\ VStr (py "en")
       = match lookup (py "language") rd with
         | Some reported => reported
         | None => VStr (py "en")
         end.
Proof.
  apply (proj1 language_precedence
           (service_world raw_hi) (service_world raw_hi)
           (Some (py "en")) localhost 300%Z (a_processor (Some (py "en")))
           audio_wav
           (mkAudioTranscript (VStr (py "hi")) [base_segment (VStr (py "hi"))]
              (VStr (py "en"))));
    reflexivity.
Defined.

Lemma default_segment_synthesized_witness :
  exists t,
    outcome (transcribe (service_world raw_hi) (a_processor None) audio_wav)
    = Ok (Some t)
    /\ text t = VStr (py "hi")
    /\ segments t
       = [VDict [(py "text", VStr (py "hi")); (py "start", VFloat 0);
                 (py "end", VFloat 0); (py "words", VList [])]].
Proof.
  apply (default_segment_synthesized (service_world raw_hi)
           (a_processor None) audio_wav
           [(py "text", VStr (py "hi"))] (py "hi"));
    [ reflexivity | reflexivity | reflexivity | left; reflexivity ].
Defined.

Lemma segments_and_words_copied_witness :
  let seg :=
    VDict [(py "text", VStr (py "hi")); (py "start", VFloat 0.5);
           (py "words",
            VList [VDict [(py "word", VStr (py "hi"));
                          (py "start", VFloat 0.5)]])] in
  Forall2 segment_copied [seg]
    [VDict [(py "text", VStr (py "hi")); (py "start", VFloat 0.5);
            (py "end", VFloat 0);
            (py "words",
             VList [VDict [(py "word", VStr (py "hi"));
                           (py "start", VFloat 0.5);
                           (py "end", VFloat 0);
                           (py "probability", VFloat 1)]])]]
  /\ exists t,
       outcome (transcribe (service_world raw_word_without_probability)
                  (a_processor None) audio_wav) = Ok (Some t).
Proof.
  cbv zeta.
  destruct (proj1 segments_and_words_copied
              (service_world raw_word_without_probability)
              (a_processor None) audio_wav
              [(py "text", VStr (py "hi"));
               (py "segments",
                VList [VDict [(py "text", VStr (py "hi"));
                              (py "start", VFloat 0.5);
                              (py "words",
                               VList [VDict [(py "word", VStr (py "hi"));
                                             (py "start", VFloat 0.5)]])]])]
              [VDict [(py "text", VStr (py "hi")); (py "start", VFloat 0.5);
                      (py "words",
                       VList [VDict [(py "word", VStr (py "hi"));
                                     (py "start", VFloat 0.5)]])]]
              eq_refl eq_refl) as (Hcopy & Hsome).
  { discriminate. }
  split.
  - apply (Hcopy
             (mkAudioTranscript (VStr (py "hi"))
                [VDict [(py "text", VStr (py "hi"));
                        (py "start", VFloat 0.5);
                        (py "end", VFloat 0);
                        (py "words",
                         VList [VDict [(py "word", VStr (py "hi"));
                                       (py "start", VFloat 0.5);
                                       (py "end", VFloat 0);
                                       (py "probability", VFloat 1)]])]]
                (VStr (py "unknown")))).
    reflexivity.
  - apply (Hsome (py "hi")); reflexivity.
Defined.

Lemma blank_text_is_the_only_absent_transcript_witness :
  let res := VDict [(py "text", VStr (py "  "))] in
  outcome (transcribe (service_world res) (a_processor None) audio_wav)
  = Ok None
  /\ exists rd s,
       res = VDict rd
       /\ dict_get rd (py "text") (VStr []) = VStr s
       /\ blank s = true.
Proof.
  cbv zeta.
  destruct (blank_text_is_the_only_absent_transcript
              (service_world (VDict [(py "text", VStr (py "  "))]))
              (a_processor None) audio_wav
              (VDict [(py "text", VStr (py "  "))]) eq_refl)
    as (Hnone & Honly).
  split.
  - apply (Hnone [(py "text", VStr (py "  "))] (py "  ")); reflexivity.
  - apply Honly; reflexivity.
Defined.

Lemma nonempty_text_nonempty_segments_witness :
  segments (mkAudioTranscript (VStr (py "hi"))
              [base_segment (VStr (py "hi"))] (VStr (py "unknown"))) <> [].
Proof.
  apply (nonempty_text_nonempty_segments (service_world raw_hi)
           (a_processor None) audio_wav
           (mkAudioTranscript (VStr (py "hi"))
              [base_segment (VStr (py "hi"))] (VStr (py "unknown"))));
    [ reflexivity | vm_compute; discriminate ].
Defined.

(* ===================================================================== *)
(** * Further properties of the client *)
(* ===================================================================== *)

Lemma lstrip_char_head (c x : char) (s r : pystr) :
  lstrip_char c s = x :: r -> char_eqb x c = false.
Proof.
  induction s as [ | y s IH]; cbn; [ discriminate | ].
  destruct (char_eqb y c) eqn:Hy; [ exact IH | ].
  intros H; inversion H; subst. exact Hy.
Qed.

Lemma rstrip_char_snoc (c : char) (s : pystr) :
  rstrip_char c (s ++ [c]) = rstrip_char c s.
Proof.
  unfold rstrip_char. rewrite rev_unit. cbn [lstrip_char].
  unfold char_eqb at 1. now rewrite N.eqb_refl.
Qed.

Lemma rstrip_char_no_trailing (c : char) (s t : pystr) :
  rstrip_char c s <> t ++ [c].
Proof.
  unfold rstrip_char. intros H.
  apply (f_equal (@rev char)) in H. rewrite rev_involutive, rev_unit in H.
  apply lstrip_char_head in H. unfold char_eqb in H.
  now rewrite N.eqb_refl in H.
Qed.

(** X1. One more slash at the end of the service URL changes nothing: a
    construction that succeeds for [url] succeeds for [url/] with the
    same client, the base address this client keeps does not end with a
    slash, and the transcription end point is that address followed by
    [/v1/audio/transcriptions]. *)
Theorem trailing_slash_ignored (w : world) (url : pystr) (tmo : Z)
  (c : WhisperClient) :
  outcome (WhisperClient_init w url tmo) = Ok c ->
  outcome (WhisperClient_init w (url ++ [47%N]) tmo) = Ok c
  /\ (forall t, api_url c <> t ++ [47%N])
  /\ transcribe_url c = api_url c ++ py "/v1/audio/transcriptions"
  /\ timeout c = tmo.
Proof.
  intros H.
  assert (Hc : c = client_of url tmo).
  { rewrite client_init_outcome in H.
    destruct (http_get w _) as [e | r]; [ discriminate | ].
    destruct (status_code r =? 200)%Z; [ | now inversion H ].
    destruct (json r); [ now inversion H | discriminate ]. }
  split.
  - rewrite client_init_outcome in *. unfold health_url, client_of in *.
    rewrite rstrip_char_snoc.
    destruct (http_get w _) as [e | r]; [ discriminate | ].
    destruct (status_code r =? 200)%Z; [ | exact H ].
    destruct (json r); [ exact H | discriminate ].
  - subst c. cbn [client_of api_url transcribe_url timeout].
    repeat split. intros t. apply rstrip_char_no_trailing.
Qed.

Lemma trailing_slash_ignored_witness :
  outcome (WhisperClient_init (service_world VNone)
             (py "http://localhost:16000/") 300) = Ok a_client
  /\ outcome (WhisperClient_init (service_world VNone)
                (py "http://localhost:16000/" ++ [47%N]) 300) = Ok a_client.
Proof.
  split; [ reflexivity | ].
  apply (trailing_slash_ignored (service_world VNone)
           (py "http://localhost:16000/") 300 a_client).
  reflexivity.
Defined.

(** X2. [check_health] never raises, and it answers [True] exactly when
    the request [GET {base}/health] is answered with status 200; the
    body of the answer is not looked at. *)
Theorem check_health_true_iff_200 (w : world) (self : WhisperClient) :
  exists b,
    outcome (WhisperClient_check_health w self) = Ok b
    /\ (b = true <->
        exists r,
          http_get w (api_url self ++ py "/health") = HttpResponse r
          /\ status_code r = 200%Z).
Proof.
  rewrite check_health_outcome. eexists. split; [ reflexivity | ].
  destruct (http_get w _) as [e | r].
  - split; [ discriminate | ]. intros (r & H & _). discriminate.
  - rewrite Z.eqb_eq. split.
    + intros H. now exists r.
    + intros (r' & H & Hs). now inversion H; subst.
Qed.

(** X3. A client that was constructed is not thereby healthy: in the
    world of its construction, [check_health] on it is [True] when the
    probe was answered with 200 and [False] when it was answered with
    another status. *)
Theorem constructed_client_health (w : world) (url : pystr) (tmo : Z)
  (c : WhisperClient) :
  outcome (WhisperClient_init w url tmo) = Ok c ->
  exists r,
    http_get w (health_url url) = HttpResponse r
    /\ outcome (WhisperClient_check_health w c)
       = Ok (status_code r =? 200)%Z.
Proof.
  intros H. rewrite client_init_outcome in H.
  destruct (http_get w (health_url url)) as [e | r] eqn:Hg;
    [ discriminate | ].
  exists r. split; [ reflexivity | ].
  assert (Hc : c = client_of url tmo).
  { destruct (status_code r =? 200)%Z; [ | now inversion H ].
    destruct (json r); [ now inversion H | discriminate ]. }
  subst c. rewrite check_health_outcome.
  cbn [client_of api_url]. fold (health_url url). now rewrite Hg.
Qed.

Lemma constructed_client_health_witness :
  exists r,
    http_get (health_world (HttpResponse (mkResponse 503 (Ok (VDict [])))))
      (health_url localhost) = HttpResponse r
    /\ outcome (WhisperClient_check_health
                  (health_world
                     (HttpResponse (mkResponse 503 (Ok (VDict [])))))
                  a_client)
       = Ok (status_code r =? 200)%Z.
Proof.
  apply (constructed_client_health
           (health_world (HttpResponse (mkResponse 503 (Ok (VDict [])))))
           localhost 300 a_client).
  reflexivity.
Defined.

(** The handlers of [WhisperClient.transcribe] only log. *)
Lemma client_clauses_trace (body : M value) :
  exists extra,
    trace
      (try_except body
         [ ([Timeout], fun _ =>
              log ERROR "timeout while transcribing" ;;; ret VNone);
           ([RequestException], fun _ =>
              log ERROR "HTTP error while transcribing" ;;; ret VNone);
           ([Exception], fun _ =>
              log ERROR "unexpected error while transcribing" ;;; ret VNone) ])
    = trace body ++ extra
    /\ filter is_post extra = [].
Proof.
  destruct body as [t [v | e]]; cbn [try_except find trace fst].
  - exists []. now rewrite app_nil_r.
  - destruct (catches _ e); [ now eexists | ].
    destruct (catches _ e); [ now eexists | ].
    rewrite catches_Exception. now eexists.
Qed.

(** X4. [WhisperClient.transcribe] sends at most one request.  When the
    audio file opens, it is one POST to the transcription end point,
    with the file under its base name, the client's timeout and the
    form fields [model=whisper-1] and [response_format=json], and a
    [language] field exactly when a non-empty hint is given; when the
    file does not open, nothing is sent. *)
Theorem one_request_per_transcription (w : world) (self : WhisperClient)
  (p : Path) (lang : option pystr) :
  filter is_post (trace (WhisperClient_transcribe w self p lang))
  = match file_open w p with
    | None =>
        [EPost (transcribe_url self) (path_name p)
           ([(py "model", py "whisper-1"); (py "response_format", py "json")]
            ++ match lang with
               | Some (c :: l) => [(py "language", c :: l)]
               | Some [] | None => []
               end)
           (timeout self)]
    | Some _ => []
    end.
Proof.
  unfold WhisperClient_transcribe.
  match goal with
  | |- context [try_except ?b _] =>
      destruct (client_clauses_trace b) as (extra & -> & Hx)
  end.
  rewrite filter_app, Hx, app_nil_r.
  unfold open_rb, requests_post, raise_for_status, response_json,
    of_option_exn, of_http.
  assert (Hd : data_fields lang
               = [(py "model", py "whisper-1");
                  (py "response_format", py "json")]
                 ++ match lang with
                    | Some (c :: l) => [(py "language", c :: l)]
                    | Some [] | None => []
                    end).
  { now destruct lang as [ [ | c l] | ]. }
  rewrite <- Hd. generalize (data_fields lang) as data. intros data.
  destruct (file_open w p) as [e | ]; [ reflexivity | ].
  destruct (http_post _ _ _ _) as [e | r]; [ reflexivity | ].
  cbn -[Z.leb Z.ltb].
  destruct (_ && _); [ reflexivity | ].
  destruct (json r); reflexivity.
Qed.

(** X5. The client returns the decoded body of every answer whose status
    is not an error status (400 to 599): a 200 is not required. *)
Theorem non_error_status_accepted (w : world) (self : WhisperClient)
  (p : Path) (lang : option pystr) (r : response) (v : value) :
  file_open w p = None ->
  http_post w (transcribe_url self) (path_name p) (data_fields lang)
  = HttpResponse r ->
  ~ (400 <= status_code r < 600)%Z ->
  json r = Ok v ->
  outcome (WhisperClient_transcribe w self p lang) = Ok v.
Proof.
  intros Ho Hp Hs Hj. rewrite client_outcome, Ho, Hp, Hj.
  destruct (_ && _) eqn:Hb; [ | reflexivity ].
  apply andb_true_iff in Hb as [Hlo Hhi].
  apply Z.leb_le in Hlo. apply Z.ltb_lt in Hhi. lia.
Qed.

Lemma non_error_status_accepted_witness :
  outcome (WhisperClient_transcribe
             (transcription_world None
                (HttpResponse (mkResponse 203 (Ok raw_hi))))
             a_client audio_wav None) = Ok raw_hi.
Proof.
  apply (non_error_status_accepted
           (transcription_world None
              (HttpResponse (mkResponse 203 (Ok raw_hi))))
           a_client audio_wav None (mkResponse 203 (Ok raw_hi)) raw_hi);
    [ reflexivity | reflexivity | cbn; lia | reflexivity ].
Defined.

(* ===================================================================== *)
(** * Further properties of the processor *)
(* ===================================================================== *)

(** X6. A missing or failing ffmpeg does not prevent construction: once
    the client is constructed, the processor is too, with [has_ffmpeg]
    true when [ffmpeg -version] succeeds and false when it exits with
    an error or cannot be started because the program is not found. *)
Theorem ffmpeg_probe_never_blocks (w : world) (lang : option pystr)
  (url : pystr) (tmo : Z) (c : WhisperClient) :
  outcome (WhisperClient_init w url tmo) = Ok c ->
  (proc_run w [py "ffmpeg"; py "-version"] = Exit0 ->
   outcome (AudioProcessor_init w lang url tmo)
   = Ok (mkAudioProcessor (hint_of lang) c true))
  /\ (forall err,
        proc_run w [py "ffmpeg"; py "-version"] = ExitNonZero err ->
        outcome (AudioProcessor_init w lang url tmo)
        = Ok (mkAudioProcessor (hint_of lang) c false))
  /\ (forall e,
        proc_run w [py "ffmpeg"; py "-version"] = RunRaises e ->
        isinstance e FileNotFoundError = true ->
        outcome (AudioProcessor_init w lang url tmo)
        = Ok (mkAudioProcessor (hint_of lang) c false)).
Proof.
  intros Hc. rewrite processor_init_outcome, Hc. repeat split.
  - now intros ->.
  - now intros err ->.
  - intros e -> He. rewrite He. now rewrite orb_true_r.
Qed.

Lemma ffmpeg_probe_never_blocks_witness :
  outcome (AudioProcessor_init (service_world VNone) None localhost 300)
  = Ok (mkAudioProcessor None a_client true)
  /\ outcome (AudioProcessor_init (ffmpeg_fails_world Undecodable None)
                None localhost 300)
     = Ok (mkAudioProcessor None a_client false)
  /\ outcome (AudioProcessor_init no_ffmpeg_world None localhost 300)
     = Ok (mkAudioProcessor None a_client false).
Proof.
  split; [ | split ].
  - apply (ffmpeg_probe_never_blocks (service_world VNone) None localhost
             300 a_client eq_refl).
    reflexivity.
  - destruct (ffmpeg_probe_never_blocks (ffmpeg_fails_world Undecodable None)
                None localhost 300 a_client eq_refl) as (_ & H & _).
    apply (H Undecodable). reflexivity.
  - destruct (ffmpeg_probe_never_blocks no_ffmpeg_world None localhost 300
                a_client eq_refl) as (_ & _ & H).
    apply (H (exn_of FileNotFoundError [])); reflexivity.
Defined.

(** X7. Any other failure to start [ffmpeg -version] (an [OSError] that
    is not [FileNotFoundError], such as a permission error) ends
    construction with that exception, though the service is up. *)
Theorem ffmpeg_probe_other_error_aborts (w : world) (lang : option pystr)
  (url : pystr) (tmo : Z) (c : WhisperClient) (e : exn) :
  outcome (WhisperClient_init w url tmo) = Ok c ->
  proc_run w [py "ffmpeg"; py "-version"] = RunRaises e ->
  isinstance e CalledProcessError = false ->
  isinstance e FileNotFoundError = false ->
  outcome (AudioProcessor_init w lang url tmo) = Raise e.
Proof.
  intros Hc Hr H1 H2. now rewrite processor_init_outcome, Hc, Hr, H1, H2.
Qed.

Lemma ffmpeg_probe_other_error_aborts_witness :
  let w :=
    mkWorld (fun _ => HttpResponse (mkResponse 200 (Ok (VDict []))))
            (fun _ => None)
            (fun _ _ _ => HttpResponse (mkResponse 200 (Ok (VDict []))))
            (fun _ => None)
            (fun _ => RunRaises (exn_of OSError (py "Permission denied")))
            (fun _ => None)
            (fun _ => None) in
  outcome (AudioProcessor_init w None localhost 300)
  = Raise (exn_of OSError (py "Permission denied")).
Proof.
  cbv zeta.
  apply (ffmpeg_probe_other_error_aborts _ None localhost 300 a_client
           (exn_of OSError (py "Permission denied")));
    reflexivity.
Defined.

(** [extract_audio] by cases on what the outside world does: the way it
    ends, and whether the fallback ran. *)
Lemma extract_audio_cases (w : world) (self : AudioProcessor)
  (video_path output_dir : Path) :
  (outcome (extract_audio w self video_path output_dir),
   fallback_attempted (trace (extract_audio w self video_path output_dir)))
  = match fs_mkdir w output_dir with
    | Some e => (Raise e, false)
    | None =>
        match raised_by_run (proc_run w (argv_of video_path output_dir)) with
        | None => (Ok (Some (audio_path_of output_dir)), false)
        | Some e =>
            if isinstance e CalledProcessError then
              match exn_stderr e with
              | None => (Raise (exn_of AttributeError []), false)
              | Some Undecodable =>
                  (Raise (exn_of UnicodeDecodeError []), false)
              | Some (Utf8 diagnostic) =>
                  if str_contains no_stream_marker diagnostic
                  then (Ok None, false)
                  else
                    (match pydub_from_file w (path_str video_path),
                           pydub_export w
                             (path_str (audio_path_of output_dir)) with
                     | None, None => Ok (Some (audio_path_of output_dir))
                     | _, _ => Raise (exn_of RuntimeError install_guidance)
                     end, true)
              end
            else (Raise e, false)
        end
    end.
Proof.
  unfold extract_audio, mkdir_parents, subprocess_run, argv_of,
    audio_path_of, of_option_exn, stderr_decode, AudioSegment_from_file,
    AudioSegment_export.
  destruct (fs_mkdir w output_dir) as [e0 | ]; [ reflexivity | ].
  destruct (proc_run w _) as [ | err | e] eqn:Hrun; cbn [raised_by_run].
  - reflexivity.
  - cbn -[str_contains no_stream_marker install_guidance path_str
          isinstance].
    change (isinstance (mkExn CalledProcessError [] (Some err))
              CalledProcessError) with true.
    cbn -[str_contains no_stream_marker install_guidance path_str
          isinstance].
    destruct err as [diagnostic | ]; [ | reflexivity ].
    cbn -[str_contains no_stream_marker install_guidance path_str
          isinstance].
    destruct (str_contains no_stream_marker diagnostic); [ reflexivity | ].
    destruct (pydub_from_file w _) as [e1 | ];
      cbn -[install_guidance path_str isinstance].
    + rewrite isinstance_Exception. reflexivity.
    + destruct (pydub_export w _) as [e2 | ];
        cbn -[install_guidance path_str isinstance];
        [ rewrite isinstance_Exception | ]; reflexivity.
  - cbn -[str_contains no_stream_marker install_guidance path_str
          isinstance].
    destruct (isinstance e CalledProcessError) eqn:He;
      [ | reflexivity ].
    cbn -[str_contains no_stream_marker install_guidance path_str
          isinstance].
    destruct (exn_stderr e) as [ [diagnostic | ] | ];
      [ | reflexivity | reflexivity ].
    cbn -[str_contains no_stream_marker install_guidance path_str
          isinstance].
    destruct (str_contains no_stream_marker diagnostic); [ reflexivity | ].
    destruct (pydub_from_file w _) as [e1 | ];
      cbn -[install_guidance path_str isinstance].
    + rewrite isinstance_Exception. reflexivity.
    + destruct (pydub_export w _) as [e2 | ];
        cbn -[install_guidance path_str isinstance];
        [ rewrite isinstance_Exception | ]; reflexivity.
Qed.

Lemma extract_audio_outcome_cases (w : world) (self : AudioProcessor)
  (video_path output_dir : Path) :
  outcome (extract_audio w self video_path output_dir)
  = fst match fs_mkdir w output_dir with
        | Some e => (Raise e, false)
        | None =>
            match raised_by_run
                    (proc_run w (argv_of video_path output_dir)) with
            | None => (Ok (Some (audio_path_of output_dir)), false)
            | Some e =>
                if isinstance e CalledProcessError then
                  match exn_stderr e with
                  | None => (Raise (exn_of AttributeError []), false)
                  | Some Undecodable =>
                      (Raise (exn_of UnicodeDecodeError []), false)
                  | Some (Utf8 diagnostic) =>
                      if str_contains no_stream_marker diagnostic
                      then (Ok None, false)
                      else
                        (match pydub_from_file w (path_str video_path),
                               pydub_export w
                                 (path_str (audio_path_of output_dir)) with
                         | None, None =>
                             Ok (Some (audio_path_of output_dir))
                         | _, _ =>
                             Raise (exn_of RuntimeError install_guidance)
                         end, true)
                  end
                else (Raise e, false)
            end
        end.
Proof.
  pose proof (extract_audio_cases w self video_path output_dir) as H.
  apply (f_equal fst) in H. exact H.
Qed.

Lemma extract_audio_fallback_cases (w : world) (self : AudioProcessor)
  (video_path output_dir : Path) :
  fallback_attempted (trace (extract_audio w self video_path output_dir))
  = match fs_mkdir w output_dir with
    | Some e => false
    | None =>
        match raised_by_run (proc_run w (argv_of video_path output_dir)) with
        | None => false
        | Some e =>
            isinstance e CalledProcessError
            && match exn_stderr e with
               | Some (Utf8 diagnostic) =>
                   negb (str_contains no_stream_marker diagnostic)
               | _ => false
               end
        end
    end.
Proof.
  pose proof (extract_audio_cases w self video_path output_dir) as H.
  apply (f_equal snd) in H. cbn [snd] in H. rewrite H.
  destruct (fs_mkdir w output_dir); [ reflexivity | ].
  destruct (raised_by_run _) as [e | ]; [ | reflexivity ].
  destruct (isinstance e CalledProcessError); [ | reflexivity ].
  destruct (exn_stderr e) as [ [d | ] | ]; try reflexivity.
  now destruct (str_contains no_stream_marker d).
Qed.

(** X8. Whenever [extract_audio] returns a path, it is
    [output_dir/audio.wav], by the primary path and by the fallback. *)
Theorem extracted_path_is_fixed (w : world) (self : AudioProcessor)
  (video_path output_dir p : Path) :
  outcome (extract_audio w self video_path output_dir) = Ok (Some p) ->
  p = path_div output_dir (py "audio.wav").
Proof.
  rewrite extract_audio_outcome_cases. fold (audio_path_of output_dir).
  destruct (fs_mkdir w output_dir); [ discriminate | ].
  destruct (raised_by_run _) as [e | ]; cbn [fst];
    [ | now intros H; inversion H ].
  destruct (isinstance e CalledProcessError); [ | discriminate ].
  destruct (exn_stderr e) as [ [d | ] | ]; try discriminate.
  destruct (str_contains no_stream_marker d); [ discriminate | ].
  cbn [fst].
  destruct (pydub_from_file w _); [ discriminate | ].
  destruct (pydub_export w _); [ discriminate | ].
  now intros H; inversion H.
Qed.

Lemma extracted_path_is_fixed_witness :
  outcome (extract_audio
             (ffmpeg_fails_world (Utf8 (py "Invalid data found")) None)
             (a_processor None) [py "video.mp4"] [py "out"])
  = Ok (Some [py "out"; py "audio.wav"])
  /\ [py "out"; py "audio.wav"] = path_div [py "out"] (py "audio.wav").
Proof.
  split; [ reflexivity | ].
  apply (extracted_path_is_fixed
           (ffmpeg_fails_world (Utf8 (py "Invalid data found")) None)
           (a_processor None) [py "video.mp4"] [py "out"]
           [py "out"; py "audio.wav"]).
  reflexivity.
Defined.

(** X9. The fallback decode routine runs in one situation only: the
    output directory was made, running ffmpeg raised a
    [CalledProcessError], and its [stderr] decodes to a text without the
    "no stream" marker. *)
Theorem fallback_only_after_tool_failure (w : world) (self : AudioProcessor)
  (video_path output_dir : Path) :
  fallback_attempted (trace (extract_audio w self video_path output_dir))
  = true ->
  fs_mkdir w output_dir = None
  /\ exists e diagnostic,
       raised_by_run
         (proc_run w
            (ffmpeg_extract_argv video_path
               (path_div output_dir (py "audio.wav")))) = Some e
       /\ isinstance e CalledProcessError = true
       /\ exn_stderr e = Some (Utf8 diagnostic)
       /\ str_contains no_stream_marker diagnostic = false.
Proof.
  rewrite extract_audio_fallback_cases. unfold argv_of, audio_path_of.
  destruct (fs_mkdir w output_dir); [ discriminate | ].
  destruct (raised_by_run _) as [e | ]; [ | discriminate ].
  destruct (isinstance e CalledProcessError) eqn:He; [ | discriminate ].
  destruct (exn_stderr e) as [ [d | ] | ] eqn:Hs; try discriminate.
  cbn [andb]. intros Hm. apply negb_true_iff in Hm.
  split; [ reflexivity | ]. now exists e, d.
Qed.

Lemma fallback_only_after_tool_failure_witness :
  exists e diagnostic,
    raised_by_run
      (proc_run (ffmpeg_fails_world (Utf8 (py "Invalid data found")) None)
         (ffmpeg_extract_argv [py "video.mp4"]
            (path_div [py "out"] (py "audio.wav")))) = Some e
    /\ isinstance e CalledProcessError = true
    /\ exn_stderr e = Some (Utf8 diagnostic)
    /\ str_contains no_stream_marker diagnostic = false.
Proof.
  apply (fallback_only_after_tool_failure
           (ffmpeg_fails_world (Utf8 (py "Invalid data found")) None)
           (a_processor None) [py "video.mp4"] [py "out"]).
  reflexivity.
Defined.

(** X10. When the fallback runs it decodes the same video and, once that
    succeeded, exports one channel at 16000 Hz as wav to the path the
    primary route writes to; these are its only two steps. *)
Theorem fallback_decode_parameters (w : world) (self : AudioProcessor)
  (video_path output_dir : Path) (diagnostic : pystr) :
  fs_mkdir w output_dir = None ->
  proc_run w
    (ffmpeg_extract_argv video_path (path_div output_dir (py "audio.wav")))
  = ExitNonZero (Utf8 diagnostic) ->
  str_contains no_stream_marker diagnostic = false ->
  filter is_fallback_event
    (trace (extract_audio w self video_path output_dir))
  = EFromFile (path_str video_path)
    :: match pydub_from_file w (path_str video_path) with
       | None =>
           [EExport (path_str (path_div output_dir (py "audio.wav")))
              1 16000 (py "wav")]
       | Some _ => []
       end.
Proof.
  intros Hd Hr Hm.
  unfold extract_audio, mkdir_parents, subprocess_run.
  rewrite Hd, Hr.
  cbn -[str_contains no_stream_marker install_guidance path_str
        isinstance].
  change (isinstance (mkExn CalledProcessError [] (Some (Utf8 diagnostic)))
            CalledProcessError) with true.
  cbn -[str_contains no_stream_marker install_guidance path_str
        isinstance].
  rewrite Hm. unfold AudioSegment_from_file, AudioSegment_export.
  destruct (pydub_from_file w _) as [e1 | ];
    cbn -[install_guidance path_str isinstance].
  - rewrite isinstance_Exception. reflexivity.
  - destruct (pydub_export w _) as [e2 | ];
      cbn -[install_guidance path_str isinstance];
      [ rewrite isinstance_Exception | ]; reflexivity.
Qed.

Lemma fallback_decode_parameters_witness :
  filter is_fallback_event
    (trace (extract_audio
              (ffmpeg_fails_world (Utf8 (py "Invalid data found")) None)
              (a_processor None) [py "video.mp4"] [py "out"]))
  = [EFromFile (py "video.mp4");
     EExport (py "out/audio.wav") 1 16000 (py "wav")].
Proof.
  apply (fallback_decode_parameters
           (ffmpeg_fails_world (Utf8 (py "Invalid data found")) None)
           (a_processor None) [py "video.mp4"] [py "out"]
           (py "Invalid data found"));
    reflexivity.
Defined.

(** X11. After such a failure of ffmpeg, [extract_audio] returns the
    path exactly when both steps of the fallback succeed; when either
    fails, whatever it raised is replaced by the [RuntimeError] with the
    install guidance. *)
Theorem fallback_failure_gives_guidance (w : world) (self : AudioProcessor)
  (video_path output_dir : Path) (diagnostic : pystr) :
  fs_mkdir w output_dir = None ->
  proc_run w
    (ffmpeg_extract_argv video_path (path_div output_dir (py "audio.wav")))
  = ExitNonZero (Utf8 diagnostic) ->
  str_contains no_stream_marker diagnostic = false ->
  (pydub_from_file w (path_str video_path) = None ->
   pydub_export w (path_str (path_div output_dir (py "audio.wav"))) = None ->
   outcome (extract_audio w self video_path output_dir)
   = Ok (Some (path_div output_dir (py "audio.wav"))))
  /\ (forall e,
        pydub_from_file w (path_str video_path) = Some e
        \/ pydub_export w (path_str (path_div output_dir (py "audio.wav")))
           = Some e ->
        outcome (extract_audio w self video_path output_dir)
        = Raise (exn_of RuntimeError install_guidance)).
Proof.
  intros Hd Hr Hm.
  destruct (extract_audio_fallback w self video_path output_dir Hd
              diagnostic Hr Hm) as (Ho & _).
  rewrite Ho. unfold audio_path_of. split.
  - now intros -> ->.
  - intros e [-> | ->]; [ reflexivity | ].
    now destruct (pydub_from_file w _).
Qed.

Lemma fallback_failure_gives_guidance_witness :
  outcome (extract_audio
             (ffmpeg_fails_world (Utf8 (py "Invalid data found")) None)
             (a_processor None) [py "video.mp4"] [py "out"])
  = Ok (Some [py "out"; py "audio.wav"])
  /\ outcome (extract_audio
                (ffmpeg_fails_world (Utf8 (py "Invalid data found"))
                   (Some (exn_of (UserError "CouldntDecodeError") [])))
                (a_processor None) [py "video.mp4"] [py "out"])
     = Raise (exn_of RuntimeError install_guidance).
Proof.
  split.
  - destruct (fallback_failure_gives_guidance
                (ffmpeg_fails_world (Utf8 (py "Invalid data found")) None)
                (a_processor None) [py "video.mp4"] [py "out"]
                (py "Invalid data found") eq_refl eq_refl eq_refl)
      as (H & _).
    apply H; reflexivity.
  - destruct (fallback_failure_gives_guidance
                (ffmpeg_fails_world (Utf8 (py "Invalid data found"))
                   (Some (exn_of (UserError "CouldntDecodeError") [])))
                (a_processor None) [py "video.mp4"] [py "out"]
                (py "Invalid data found") eq_refl eq_refl eq_refl)
      as (_ & H).
    apply (H (exn_of (UserError "CouldntDecodeError") [])).
    left. reflexivity.
Defined.

(** X12. When ffmpeg fails and its [stderr] is not valid UTF-8,
    [extract_audio] ends with [UnicodeDecodeError]: it neither returns
    [None] nor tries the fallback. *)
Theorem undecodable_diagnostic_raises (w : world) (self : AudioProcessor)
  (video_path output_dir : Path) :
  fs_mkdir w output_dir = None ->
  proc_run w
    (ffmpeg_extract_argv video_path (path_div output_dir (py "audio.wav")))
  = ExitNonZero Undecodable ->
  outcome (extract_audio w self video_path output_dir)
  = Raise (exn_of UnicodeDecodeError [])
  /\ fallback_attempted (trace (extract_audio w self video_path output_dir))
     = false.
Proof.
  intros Hd Hr.
  pose proof (extract_audio_cases w self video_path output_dir) as H.
  unfold argv_of, audio_path_of in H. rewrite Hd, Hr in H.
  cbn in H. now inversion H.
Qed.

Lemma undecodable_diagnostic_raises_witness :
  outcome (extract_audio (ffmpeg_fails_world Undecodable None)
             (a_processor None) [py "video.mp4"] [py "out"])
  = Raise (exn_of UnicodeDecodeError []).
Proof.
  apply (undecodable_diagnostic_raises (ffmpeg_fails_world Undecodable None)
           (a_processor None) [py "video.mp4"] [py "out"]);
    reflexivity.
Defined.

(** X13. When the output directory cannot be made, that exception goes
    out of [extract_audio] and ffmpeg is not started. *)
Theorem mkdir_failure_stops_extraction (w : world) (self : AudioProcessor)
  (video_path output_dir : Path) (e : exn) :
  fs_mkdir w output_dir = Some e ->
  extract_audio w self video_path output_dir
  = ([EMkdir output_dir], Raise e).
Proof.
  intros Hd. unfold extract_audio, mkdir_parents. now rewrite Hd.
Qed.

Lemma mkdir_failure_stops_extraction_witness :
  let w :=
    mkWorld (fun _ => HttpRaises (exn_of Timeout []))
            (fun _ => None)
            (fun _ _ _ => HttpRaises (exn_of Timeout []))
            (fun _ => Some (exn_of OSError (py "Read-only file system")))
            (fun _ => Exit0)
            (fun _ => None)
            (fun _ => None) in
  extract_audio w (a_processor None) [py "video.mp4"] [py "out"]
  = ([EMkdir [py "out"]],
     Raise (exn_of OSError (py "Read-only file system"))).
Proof.
  cbv zeta.
  apply (mkdir_failure_stops_extraction _ (a_processor None)
           [py "video.mp4"] [py "out"]
           (exn_of OSError (py "Read-only file system"))).
  reflexivity.
Defined.

(* ===================================================================== *)
(** * Further properties of the normaliser *)
(* ===================================================================== *)

Lemma Forall2_In_l {A B} (R : A -> B -> Prop) (l : list A) (l' : list B)
  (x : A) :
  Forall2 R l l' -> In x l -> exists y, In y l' /\ R x y.
Proof.
  induction 1 as [ | a b l l' Hab _ IH]; cbn; [ easy | ].
  intros [-> | Hin].
  - exists b. auto.
  - destruct (IH Hin) as (y & Hy & Hr). exists y. auto.
Qed.

Lemma Forall2_Forall_r {A B} (R : A -> B -> Prop) (P : B -> Prop)
  (l : list A) (l' : list B) :
  (forall x y, R x y -> P y) -> Forall2 R l l' -> Forall P l'.
Proof. intros HP. induction 1; constructor; eauto. Qed.

(** How [transcribe] ends once the client returned [res]: with what the
    normaliser returns, or with [None] when the normaliser raises. *)
Lemma transcribe_none_or_some (w : world) (self : AudioProcessor) (p : Path)
  (res : value) :
  outcome (WhisperClient_transcribe w (whisper_client self) p
             (self_language self)) = Ok res ->
  outcome (transcribe w self p) = Ok None
  \/ exists t,
       outcome (transcribe w self p) = Ok (Some t)
       /\ outcome (normalize (self_language self) res) = Ok (Some t).
Proof.
  intros Hc. rewrite (transcribe_of_result _ _ _ _ Hc).
  destruct (outcome (normalize _ res)) as [ [t | ] | e]; auto.
  right. now exists t.
Qed.

(** X14. A transcript comes only out of a raw result that is an object
    whose [text] is a string with something else than white space in
    it, and the text of the transcript is that string as it came, white
    space around it included. *)
Theorem transcript_text_is_raw_text (w : world) (self : AudioProcessor)
  (p : Path) (t : AudioTranscript) :
  outcome (transcribe w self p) = Ok (Some t) ->
  exists rd s,
    outcome (WhisperClient_transcribe w (whisper_client self) p
               (self_language self)) = Ok (VDict rd)
    /\ lookup (py "text") rd = Some (VStr s)
    /\ blank s = false
    /\ text t = VStr s.
Proof.
  intros H. apply transcribe_some_inv in H as (res & Hc & Hn).
  destruct (normalize_some_inv _ _ _ Hn) as (rd & s & -> & Ht & Hb).
  destruct (normalize_segments _ rd s _ Ht Hb Hn) as (Htx & _).
  exists rd, s. repeat split; auto.
  unfold dict_get in Ht. destruct (lookup (py "text") rd) as [v | ].
  - now subst v.
  - inversion Ht; subst s. discriminate.
Qed.

Lemma transcript_text_is_raw_text_witness :
  exists rd s,
    outcome (WhisperClient_transcribe
               (service_world (VDict [(py "text", VStr (py " hi "))]))
               a_client audio_wav None) = Ok (VDict rd)
    /\ lookup (py "text") rd = Some (VStr s)
    /\ blank s = false
    /\ VStr (py " hi ") = VStr s.
Proof.
  apply (transcript_text_is_raw_text
           (service_world (VDict [(py "text", VStr (py " hi "))]))
           (a_processor None) audio_wav
           (mkAudioTranscript (VStr (py " hi "))
              [base_segment (VStr (py " hi "))] (VStr (py "unknown")))).
  reflexivity.
Defined.

(** The segments of a transcript against the list the loop ran over. *)
Lemma transcript_items (w : world) (self : AudioProcessor) (p : Path)
  (res : value) (t : AudioTranscript) :
  outcome (WhisperClient_transcribe w (whisper_client self) p
             (self_language self)) = Ok res ->
  outcome (transcribe w self p) = Ok (Some t) ->
  exists rd s items,
    res = VDict rd
    /\ iter_items (segments_to_convert rd (VStr s)) = Some items
    /\ Forall2 segment_copied items (segments t).
Proof.
  intros Hc H. apply transcribe_some_inv in H as (res' & Hc' & Hn).
  rewrite Hc in Hc'. inversion Hc'; subst res'; clear Hc'.
  destruct (normalize_some_inv _ _ _ Hn) as (rd & s & -> & Ht & Hb).
  destruct (normalize_segments _ rd s _ Ht Hb Hn) as (_ & _ & items & Hi & Hf).
  now exists rd, s, items.
Qed.

Lemma transcript_items_present (w : world) (self : AudioProcessor)
  (p : Path) (rd : dict) (segs : list value) (t : AudioTranscript) :
  outcome (WhisperClient_transcribe w (whisper_client self) p
             (self_language self)) = Ok (VDict rd) ->
  lookup (py "segments") rd = Some (VList segs) ->
  segs <> [] ->
  outcome (transcribe w self p) = Ok (Some t) ->
  Forall2 segment_copied segs (segments t).
Proof.
  intros Hc Hl Hne H.
  destruct (transcript_items w self p _ t Hc H)
    as (rd' & s & items & E & Hi & Hf).
  inversion E; subst rd'; clear E.
  rewrite (segments_to_convert_present rd (VStr s) segs Hl Hne) in Hi.
  now inversion Hi; subst.
Qed.

(** X15. The conversion is all or nothing: when one entry of a
    non-empty [segments] array is not an object, [transcribe] returns
    [None], however good the text and the other segments are. *)
Theorem malformed_segment_voids_transcript (w : world)
  (self : AudioProcessor) (p : Path) (rd : dict) (segs : list value)
  (seg : value) :
  outcome (WhisperClient_transcribe w (whisper_client self) p
             (self_language self)) = Ok (VDict rd) ->
  lookup (py "segments") rd = Some (VList segs) ->
  In seg segs ->
  is_dict seg = false ->
  outcome (transcribe w self p) = Ok None.
Proof.
  intros Hc Hl Hin Hseg.
  destruct (transcribe_none_or_some w self p _ Hc) as [H | (t & H & _)];
    [ exact H | exfalso ].
  assert (Hne : segs <> []) by (intros ->; destruct Hin).
  pose proof (transcript_items_present w self p rd segs t Hc Hl Hne H) as Hf.
  destruct (Forall2_In_l _ _ _ seg Hf Hin) as (y & _ & Hy).
  inversion Hy; subst. discriminate.
Qed.

Lemma malformed_segment_voids_transcript_witness :
  outcome (transcribe
             (service_world
                (VDict [(py "text", VStr (py "hi"));
                        (py "segments",
                         VList [VDict [(py "text", VStr (py "hi"))];
                                VStr (py "oops")])]))
             (a_processor None) audio_wav) = Ok None.
Proof.
  apply (malformed_segment_voids_transcript
           (service_world
              (VDict [(py "text", VStr (py "hi"));
                      (py "segments",
                       VList [VDict [(py "text", VStr (py "hi"))];
                              VStr (py "oops")])]))
           (a_processor None) audio_wav
           [(py "text", VStr (py "hi"));
            (py "segments",
             VList [VDict [(py "text", VStr (py "hi"))]; VStr (py "oops")])]
           [VDict [(py "text", VStr (py "hi"))]; VStr (py "oops")]
           (VStr (py "oops")));
    [ reflexivity | reflexivity | right; left; reflexivity | reflexivity ].
Defined.

(** X16. The same holds one level down: when a segment has a non-empty
    [words] array one entry of which is not an object, [transcribe]
    returns [None]. *)
Theorem malformed_word_voids_transcript (w : world) (self : AudioProcessor)
  (p : Path) (rd sd : dict) (segs ws : list value) (wd : value) :
  outcome (WhisperClient_transcribe w (whisper_client self) p
             (self_language self)) = Ok (VDict rd) ->
  lookup (py "segments") rd = Some (VList segs) ->
  In (VDict sd) segs ->
  lookup (py "words") sd = Some (VList ws) ->
  In wd ws ->
  is_dict wd = false ->
  outcome (transcribe w self p) = Ok None.
Proof.
  intros Hc Hl Hin Hw Hinw Hwd.
  destruct (transcribe_none_or_some w self p _ Hc) as [H | (t & H & _)];
    [ exact H | exfalso ].
  assert (Hne : segs <> []) by (intros ->; destruct Hin).
  pose proof (transcript_items_present w self p rd segs t Hc Hl Hne H) as Hf.
  destruct (Forall2_In_l _ _ _ _ Hf Hin) as (y & _ & Hy).
  inversion Hy as [d tv sv ev outs _ _ _ Hwords]; subst.
  inversion Hwords as [Habs | v Hv Hfalse | ws' outs' Hv Hf2]; subst.
  - congruence.
  - rewrite Hw in Hv. inversion Hv; subst v.
    destruct ws; [ destruct Hinw | discriminate ].
  - rewrite Hw in Hv. inversion Hv; subst ws'.
    destruct (Forall2_In_l _ _ _ _ Hf2 Hinw) as (z & _ & Hz).
    inversion Hz; subst. discriminate.
Qed.

Lemma malformed_word_voids_transcript_witness :
  outcome (transcribe
             (service_world
                (VDict [(py "text", VStr (py "hi"));
                        (py "segments",
                         VList [VDict [(py "words", VList [VInt 7])]])]))
             (a_processor None) audio_wav) = Ok None.
Proof.
  apply (malformed_word_voids_transcript
           (service_world
              (VDict [(py "text", VStr (py "hi"));
                      (py "segments",
                       VList [VDict [(py "words", VList [VInt 7])]])]))
           (a_processor None) audio_wav
           [(py "text", VStr (py "hi"));
            (py "segments", VList [VDict [(py "words", VList [VInt 7])]])]
           [(py "words", VList [VInt 7])]
           [VDict [(py "words", VList [VInt 7])]]
           [VInt 7] (VInt 7));
    [ reflexivity | reflexivity | left; reflexivity | reflexivity
    | left; reflexivity | reflexivity ].
Defined.

(** X17. A [segments] field that is true but not an array (a non-empty
    string or object, a number, [true]) gives [None]: it is not replaced
    by the default segment. *)
Theorem non_array_segments_void_transcript (w : world)
  (self : AudioProcessor) (p : Path) (rd : dict) (v : value) :
  outcome (WhisperClient_transcribe w (whisper_client self) p
             (self_language self)) = Ok (VDict rd) ->
  lookup (py "segments") rd = Some v ->
  truthy v = true ->
  is_list v = false ->
  outcome (transcribe w self p) = Ok None.
Proof.
  intros Hc Hl Hv Hlist.
  destruct (transcribe_none_or_some w self p _ Hc) as [H | (t & H & _)];
    [ exact H | exfalso ].
  destruct (transcript_items w self p _ t Hc H)
    as (rd' & s & items & E & Hi & Hf).
  inversion E; subst rd'; clear E.
  unfold segments_to_convert, dict_get in Hi. rewrite Hl, Hv in Hi.
  cbn [negb] in Hi.
  destruct v as [ | | | | [ | c str] | l | [ | [k x] d] ];
    try discriminate; cbn in Hi; inversion Hi; subst items;
    inversion Hf as [ | a b l1 l2 Hab _ ]; subst; inversion Hab.
Qed.

Lemma non_array_segments_void_transcript_witness :
  outcome (transcribe
             (service_world
                (VDict [(py "text", VStr (py "hi"));
                        (py "segments", VStr (py "none"))]))
             (a_processor None) audio_wav) = Ok None.
Proof.
  apply (non_array_segments_void_transcript
           (service_world
              (VDict [(py "text", VStr (py "hi"));
                      (py "segments", VStr (py "none"))]))
           (a_processor None) audio_wav
           [(py "text", VStr (py "hi")); (py "segments", VStr (py "none"))]
           (VStr (py "none")));
    reflexivity.
Defined.

Lemma word_copied_shape (x y : value) : word_copied x y -> word_shape y.
Proof. intros H. inversion H; subst. now repeat eexists. Qed.

Lemma segment_copied_shape (x y : value) :
  segment_copied x y -> segment_shape y.
Proof.
  intros H. inversion H as [d tv sv ev ws _ _ _ Hw]; subst.
  exists tv, sv, ev, ws. split; [ reflexivity | ].
  inversion Hw; subst; try constructor.
  eapply Forall2_Forall_r; [ | eassumption ]. apply word_copied_shape.
Qed.

(** X18. Every segment of a returned transcript is a dict with the keys
    [text], [start], [end], [words] and no other, and every word of it
    a dict with the keys [word], [start], [end], [probability] and no
    other: what else the service sent in a segment or a word is
    dropped. *)
Theorem transcript_segments_have_fixed_shape (w : world)
  (self : AudioProcessor) (p : Path) (t : AudioTranscript) :
  outcome (transcribe w self p) = Ok (Some t) ->
  Forall segment_shape (segments t).
Proof.
  intros H.
  destruct (transcribe_some_inv _ _ _ _ H) as (res & Hc & _).
  destruct (transcript_items w self p res t Hc H)
    as (rd & s & items & _ & _ & Hf).
  eapply Forall2_Forall_r; [ | exact Hf ]. apply segment_copied_shape.
Qed.

Lemma transcript_segments_have_fixed_shape_witness :
  Forall segment_shape
    [VDict [(py "text", VStr (py "hi")); (py "start", VFloat 0.5);
            (py "end", VFloat 0);
            (py "words",
             VList [VDict [(py "word", VStr (py "hi"));
                           (py "start", VFloat 0.5);
                           (py "end", VFloat 0);
                           (py "probability", VFloat 1)]])]].
Proof.
  apply (transcript_segments_have_fixed_shape
           (service_world raw_word_without_probability)
           (a_processor None) audio_wav
           (mkAudioTranscript (VStr (py "hi"))
              [VDict [(py "text", VStr (py "hi"));
                      (py "start", VFloat 0.5);
                      (py "end", VFloat 0);
                      (py "words",
                       VList [VDict [(py "word", VStr (py "hi"));
                                     (py "start", VFloat 0.5);
                                     (py "end", VFloat 0);
                                     (py "probability", VFloat 1)]])]]
              (VStr (py "unknown")))).
  reflexivity.
Defined.

(* ===================================================================== *)
(** * Properties of the configuration *)
(* ===================================================================== *)

Lemma str_eqb_eq (a b : pystr) : str_eqb a b = true <-> a = b.
Proof.
  revert b. induction a as [ | x a IH]; intros [ | y b]; cbn; try easy.
  unfold char_eqb. rewrite andb_true_iff, N.eqb_eq, IH.
  split; [ intros [-> ->]; reflexivity | intros H; inversion H; auto ].
Qed.

Lemma str_eqb_refl (a : pystr) : str_eqb a a = true.
Proof. now apply str_eqb_eq. Qed.

Lemma str_eqb_neq (a b : pystr) : str_eqb a b = false <-> a <> b.
Proof.
  rewrite <- str_eqb_eq. destruct (str_eqb a b); split; congruence.
Qed.

(** Reading a key after an assignment. *)
Lemma lookup_dict_set (k k' : pystr) (v : value) (d : dict) :
  lookup k (dict_set k' v d)
  = if str_eqb k k' then Some v else lookup k d.
Proof.
  induction d as [ | [k0 v0] d IH]; cbn [dict_set lookup].
  - reflexivity.
  - destruct (str_eqb k' k0) eqn:E0; cbn [lookup].
    + apply str_eqb_eq in E0. subst k0.
      now destruct (str_eqb k k').
    + rewrite IH. destruct (str_eqb k k0) eqn:E1; [ | reflexivity ].
      apply str_eqb_eq in E1. subst k0.
      destruct (str_eqb k k') eqn:E2; [ | reflexivity ].
      apply str_eqb_eq in E2. subst k'. now rewrite str_eqb_refl in E0.
Qed.

Lemma lookup_dict_set_same (k : pystr) (v : value) (d : dict) :
  lookup k (dict_set k v d) = Some v.
Proof. now rewrite lookup_dict_set, str_eqb_refl. Qed.

Lemma lookup_dict_set_other (k k' : pystr) (v : value) (d : dict) :
  k <> k' -> lookup k (dict_set k' v d) = lookup k d.
Proof.
  intros H. apply str_eqb_neq in H. now rewrite lookup_dict_set, H.
Qed.

Section ConfigFacts.
Variable cw : config_world.

Lemma load_config_outcome (self : Config) :
  outcome (load_config cw self)
  = match config_source cw self with
    | Raise e => Raise e
    | Ok (VDict d) => Ok (with_config self (VDict (repair_prompts d)))
    | Ok _ => Raise (exn_of AttributeError [])
    end.
Proof.
  unfold load_config, config_source, json_load, json_loads, of_result,
    repair_prompts.
  rewrite try_except_Exception.
  destruct (cw_exists cw (user_config self));
    [ destruct (cw_load cw (user_config self)) as [v | e]
    | destruct (cw_exists cw (default_config self));
      [ destruct (cw_load cw (default_config self)) as [v | e]
      | destruct (default_config_content self) as [text | ];
        [ destruct (cw_loads cw text) as [v | e] | ] ] ];
    try reflexivity;
    (destruct v as [ | | | | | | d]; try reflexivity;
     cbn -[dict_get dict_set is_list];
     now destruct (is_list _)).
Qed.


Lemma config_init_outcome (dir : Path) :
  outcome (Config_init cw dir)
  = match (if cw_exists cw (path_div dir (py "default_config.json"))
           then Ok None
           else match cw_resource cw with
                | Ok text => Ok (Some text)
                | Raise e => Raise e
                end) with
    | Raise e => Raise e
    | Ok content =>
        outcome
          (load_config cw
             (mkConfig dir (path_div dir (py "config.json"))
                (path_div dir (py "default_config.json")) content VNone))
    end.
Proof.
  unfold Config_init, of_result.
  destruct (cw_exists cw (path_div dir (py "default_config.json")));
    cbn [negb].
  - rewrite bind_ret_l. reflexivity.
  - rewrite try_except_Exception.
    destruct (cw_resource cw) as [text | e]; [ | reflexivity ].
    cbn -[load_config path_div]. now destruct (load_config _ _).
Qed.

Lemma repair_prompts_loaded (self : Config) (d : dict) :
  loaded_from d (with_config self (VDict (repair_prompts d))).
Proof.
  exists (repair_prompts d). unfold repair_prompts.
  split; [ reflexivity | ].
  destruct (is_list (dict_get d (py "prompts") (VList []))); split; auto.
  - intros k Hk. now apply lookup_dict_set_other.
  - apply lookup_dict_set_same.
Qed.

Lemma load_config_dict (self : Config) (d : dict) :
  config_source cw self = Ok (VDict d) ->
  exists cfg,
    outcome (load_config cw self) = Ok cfg
    /\ loaded_from d cfg
    /\ config_dir cfg = config_dir self
    /\ user_config cfg = user_config self.
Proof.
  intros H. rewrite load_config_outcome, H. eexists.
  split; [ reflexivity | ]. split; [ apply repair_prompts_loaded | ].
  split; reflexivity.
Qed.

(** X19. A [Config] that was constructed holds a dict, and what
    [get("prompts", [])] reads from it is a list. *)
Theorem config_is_dict_with_prompt_list (dir : Path) (cfg : Config) :
  outcome (Config_init cw dir) = Ok cfg ->
  exists d l,
    config cfg = VDict d
    /\ outcome (Config_get cfg (py "prompts") (VList [])) = Ok (VList l).
Proof.
  rewrite config_init_outcome.
  destruct (if cw_exists cw _ then _ else _) as [content | e];
    [ | discriminate ].
  rewrite load_config_outcome.
  destruct (config_source cw _) as [ [ | | | | | | d] | e];
    try discriminate.
  intros H; inversion H; subst cfg; clear H.
  exists (repair_prompts d). unfold Config_get, repair_prompts.
  cbn [with_config config attr_get]. rewrite bind_ret_l.
  destruct (is_list (dict_get d (py "prompts") (VList []))) eqn:Hl.
  - destruct (dict_get d (py "prompts") (VList [])) as [ | | | | | l | ];
      try discriminate.
    now exists l.
  - exists []. unfold dict_get. now rewrite lookup_dict_set_same.
Qed.

(** X20. The packaged default configuration is read at construction
    whenever the directory has no [default_config.json]: when that
    reading fails, construction fails with its exception, a usable
    [config.json] notwithstanding. *)
Theorem packaged_default_read_eagerly (dir : Path) (e : exn) :
  cw_exists cw (path_div dir (py "default_config.json")) = false ->
  cw_resource cw = Raise e ->
  outcome (Config_init cw dir) = Raise e.
Proof. intros Hd Hr. now rewrite config_init_outcome, Hd, Hr. Qed.

(** X21. The cascade: [config.json] of the directory is loaded when it
    exists, whatever [default_config.json] holds; else
    [default_config.json] of the directory when it exists; else the
    packaged default.  What is kept is the dict that was read, with
    [prompts] replaced by the empty list when it was not a list. *)
Theorem config_cascade (dir : Path) (d : dict) :
  (cw_exists cw (path_div dir (py "config.json")) = true ->
   cw_load cw (path_div dir (py "config.json")) = Ok (VDict d) ->
   cw_exists cw (path_div dir (py "default_config.json")) = true
   \/ (exists text, cw_resource cw = Ok text) ->
   exists cfg, outcome (Config_init cw dir) = Ok cfg /\ loaded_from d cfg)
  /\ (cw_exists cw (path_div dir (py "config.json")) = false ->
      cw_exists cw (path_div dir (py "default_config.json")) = true ->
      cw_load cw (path_div dir (py "default_config.json")) = Ok (VDict d) ->
      exists cfg, outcome (Config_init cw dir) = Ok cfg /\ loaded_from d cfg)
  /\ (forall text,
        cw_exists cw (path_div dir (py "config.json")) = false ->
        cw_exists cw (path_div dir (py "default_config.json")) = false ->
        cw_resource cw = Ok text ->
        cw_loads cw text = Ok (VDict d) ->
        exists cfg,
          outcome (Config_init cw dir) = Ok cfg /\ loaded_from d cfg).
Proof.
  split; [ | split ].
  - intros Hu Hl Hdef. rewrite config_init_outcome.
    assert (Hsrc : forall content,
              config_source cw
                (mkConfig dir (path_div dir (py "config.json"))
                   (path_div dir (py "default_config.json")) content VNone)
              = Ok (VDict d)).
    { intros content. unfold config_source. cbn [user_config].
      now rewrite Hu, Hl. }
    destruct Hdef as [Hd | (text & Hr)].
    + rewrite Hd.
      destruct (load_config_dict _ d (Hsrc None)) as (cfg & H & Hf & _).
      now exists cfg.
    + destruct (cw_exists cw (path_div dir (py "default_config.json")));
        [ | rewrite Hr ].
      * destruct (load_config_dict _ d (Hsrc None)) as (cfg & H & Hf & _).
        now exists cfg.
      * destruct (load_config_dict _ d (Hsrc (Some text)))
          as (cfg & H & Hf & _).
        now exists cfg.
  - intros Hu Hd Hl. rewrite config_init_outcome, Hd.
    assert (Hsrc : config_source cw
                     (mkConfig dir (path_div dir (py "config.json"))
                        (path_div dir (py "default_config.json")) None VNone)
                   = Ok (VDict d)).
    { unfold config_source. cbn [user_config default_config].
      now rewrite Hu, Hd, Hl. }
    destruct (load_config_dict _ d Hsrc) as (cfg & H & Hf & _).
    now exists cfg.
  - intros text Hu Hd Hr Hl. rewrite config_init_outcome, Hd, Hr.
    assert (Hsrc : config_source cw
                     (mkConfig dir (path_div dir (py "config.json"))
                        (path_div dir (py "default_config.json"))
                        (Some text) VNone)
                   = Ok (VDict d)).
    { unfold config_source.
      cbn [user_config default_config default_config_content].
      now rewrite Hu, Hd, Hl. }
    destruct (load_config_dict _ d Hsrc) as (cfg & H & Hf & _).
    now exists cfg.
Qed.


End ConfigFacts.

Lemma config_is_dict_with_prompt_list_witness :
  exists d l,
    config (mkConfig conf_dir (path_div conf_dir (py "config.json"))
              (path_div conf_dir (py "default_config.json")) (Some [])
              (VDict [(py "prompts", VList [])]))
    = VDict d
    /\ outcome
         (Config_get
            (mkConfig conf_dir (path_div conf_dir (py "config.json"))
               (path_div conf_dir (py "default_config.json")) (Some [])
               (VDict [(py "prompts", VList [])]))
            (py "prompts") (VList [])) = Ok (VList l).
Proof.
  apply (config_is_dict_with_prompt_list
           (user_file_world (Ok (VDict [(py "prompts", VStr (py "x"))]))
              (Ok []))
           conf_dir).
  reflexivity.
Defined.

Lemma packaged_default_read_eagerly_witness :
  outcome (Config_init
             (user_file_world (Ok (VDict []))
                (Raise (exn_of FileNotFoundError [])))
             conf_dir)
  = Raise (exn_of FileNotFoundError []).
Proof.
  apply (packaged_default_read_eagerly
           (user_file_world (Ok (VDict []))
              (Raise (exn_of FileNotFoundError [])))
           conf_dir (exn_of FileNotFoundError []));
    reflexivity.
Defined.

Lemma config_cascade_witness :
  (exists cfg,
     outcome (Config_init
                (user_file_world (Ok (VDict [(py "prompt", VStr (py "p"))]))
                   (Ok []))
                conf_dir) = Ok cfg
     /\ loaded_from [(py "prompt", VStr (py "p"))] cfg)
  /\ (exists cfg,
        outcome (Config_init
                   (mkConfigWorld
                      (fun p => str_eqb (path_name p)
                                  (py "default_config.json"))
                      (fun _ => Ok (VDict [(py "prompt", VStr (py "p"))]))
                      (Raise (exn_of FileNotFoundError []))
                      (fun _ => Raise (exn_of ValueError [])))
                   conf_dir) = Ok cfg
        /\ loaded_from [(py "prompt", VStr (py "p"))] cfg)
  /\ (exists cfg,
        outcome (Config_init
                   (mkConfigWorld
                      (fun _ => false)
                      (fun _ => Raise (exn_of FileNotFoundError []))
                      (Ok (py "{}"))
                      (fun _ => Ok (VDict [(py "prompt", VStr (py "p"))])))
                   conf_dir) = Ok cfg
        /\ loaded_from [(py "prompt", VStr (py "p"))] cfg).
Proof.
  split; [ | split ].
  - destruct (config_cascade
                (user_file_world (Ok (VDict [(py "prompt", VStr (py "p"))]))
                   (Ok []))
                conf_dir [(py "prompt", VStr (py "p"))]) as (H & _).
    apply H; [ reflexivity | reflexivity | ].
    right. exists []. reflexivity.
  - destruct (config_cascade
                (mkConfigWorld
                   (fun p => str_eqb (path_name p) (py "default_config.json"))
                   (fun _ => Ok (VDict [(py "prompt", VStr (py "p"))]))
                   (Raise (exn_of FileNotFoundError []))
                   (fun _ => Raise (exn_of ValueError [])))
                conf_dir [(py "prompt", VStr (py "p"))]) as (_ & H & _).
    apply H; reflexivity.
  - destruct (config_cascade
                (mkConfigWorld
                   (fun _ => false)
                   (fun _ => Raise (exn_of FileNotFoundError []))
                   (Ok (py "{}"))
                   (fun _ => Ok (VDict [(py "prompt", VStr (py "p"))])))
                conf_dir [(py "prompt", VStr (py "p"))]) as (_ & _ & H).
    apply (H (py "{}")); reflexivity.
Defined.


(** ** [update_from_args] *)

Ltac eval_keys :=
  repeat match goal with
         | |- context [str_eqb (py ?a) (py ?b)] =>
             let v := eval vm_compute in (str_eqb (py a) (py b)) in
             change (str_eqb (py a) (py b)) with v
         end.

Ltac keys_differ :=
  let H := fresh in intros H; vm_compute in H; discriminate H.

Lemma with_config_same (self : Config) : with_config self (config self) = self.
Proof. now destruct self. Qed.

Lemma update_items_inert (args : Namespace) (items : list (pystr * value))
  (c : value) :
  Forall (fun kv => snd kv = VNone
                    \/ In (fst kv) [py "start_stage"; py "max_frames"])
         items ->
  update_items args items c = (c, Ok tt).
Proof.
  induction 1 as [ | [key val] items Hkv _ IH]; [ reflexivity | ].
  cbn [update_items]. unfold st_bind.
  assert (H1 : update_one args key val c = (c, Ok tt)).
  { cbn [fst snd] in Hkv. destruct Hkv as [-> | [<- | [<- | []]]].
    - reflexivity.
    - now destruct val.
    - now destruct val. }
  now rewrite H1.
Qed.

(** X23. Options that were not given (value [None]) and the two
    command-line-only options [start_stage] and [max_frames] leave the
    configuration as it is, whatever it holds. *)
Theorem unset_and_cli_only_options_are_inert (self : Config)
  (args : Namespace) :
  Forall (fun kv => snd kv = VNone
                    \/ In (fst kv) [py "start_stage"; py "max_frames"])
         args ->
  update_from_args self args = (self, Ok tt).
Proof.
  intros H. unfold update_from_args.
  rewrite (update_items_inert args args (config self) H).
  now rewrite with_config_same.
Qed.

Lemma unset_and_cli_only_options_are_inert_witness :
  update_from_args (a_config (VList []))
    [(py "client", VNone); (py "max_frames", VInt 5);
     (py "start_stage", VInt 2); (py "model", VNone)]
  = (a_config (VList []), Ok tt).
Proof.
  apply (unset_and_cli_only_options_are_inert (a_config (VList []))).
  apply Forall_cons; [ left; reflexivity | ].
  apply Forall_cons; [ right; right; left; reflexivity | ].
  apply Forall_cons; [ right; left; reflexivity | ].
  apply Forall_cons; [ left; reflexivity | ].
  apply Forall_nil.
Defined.

(** X24. An option that was given and has no meaning of its own is
    stored at the top level of the configuration under its name:
    [Config.get] then reads it back, and reads every other key as
    before. *)
Theorem plain_option_stored_and_read_back (self : Config) (d : dict)
  (key : pystr) (val : value) :
  config self = VDict d ->
  str_in key special_keys = false ->
  is_none val = false ->
  update_from_args self [(key, val)]
  = (with_config self (VDict (dict_set key val d)), Ok tt)
  /\ (forall default,
        outcome (Config_get (fst (update_from_args self [(key, val)]))
                   key default) = Ok val)
  /\ (forall k default,
        k <> key ->
        outcome (Config_get (fst (update_from_args self [(key, val)]))
                   k default)
        = outcome (Config_get self k default)).
Proof.
  intros Hc Hk Hv.
  assert (Hu : update_from_args self [(key, val)]
               = (with_config self (VDict (dict_set key val d)), Ok tt)).
  { unfold update_from_args. rewrite Hc. cbn [update_items].
    unfold st_bind, update_one. rewrite Hv. cbn [negb].
    unfold str_in, special_keys in *. cbn [existsb] in *.
    repeat (apply orb_false_iff in Hk;
            let H := fresh "E" in destruct Hk as [H Hk]; rewrite H).
    reflexivity. }
  rewrite Hu. cbn [fst]. split; [ reflexivity | ]. split.
  - intros default. unfold Config_get. cbn [with_config config attr_get].
    rewrite bind_ret_l. unfold dict_get.
    now rewrite lookup_dict_set_same.
  - intros k default Hne. unfold Config_get.
    cbn [with_config config attr_get]. rewrite Hc. cbn [attr_get].
    rewrite !bind_ret_l. unfold dict_get.
    now rewrite (lookup_dict_set_other k key val d Hne).
Qed.

Lemma plain_option_stored_and_read_back_witness :
  outcome (Config_get
             (fst (update_from_args (a_config (VDict []))
                     [(py "output", VStr (py "out"))]))
             (py "output") VNone) = Ok (VStr (py "out")).
Proof.
  destruct (plain_option_stored_and_read_back (a_config (VDict [])) []
              (py "output") (VStr (py "out")) eq_refl eq_refl eq_refl)
    as (_ & H & _).
  apply H.
Defined.

Lemma update_items_app (args : Namespace) (a b : list (pystr * value))
  (c : value) :
  update_items args (a ++ b) c
  = match update_items args a c with
    | (c', Ok _) => update_items args b c'
    | (c', Raise e) => (c', Raise e)
    end.
Proof.
  revert c. induction a as [ | [key val] a IH]; intros c; [ reflexivity | ].
  cbn [app update_items]. unfold st_bind.
  destruct (update_one args key val c) as [c1 [[] | e]]; [ apply IH | ].
  reflexivity.
Qed.

(** Arguments that are passed over before and after one argument: the
    call does to the configuration what the step of that argument
    does. *)
Lemma update_items_around (args : Namespace)
  (before after : list (pystr * value)) (key : pystr) (val c : value) :
  Forall inert_arg before ->
  Forall inert_arg after ->
  update_items args (before ++ (key, val) :: after) c
  = update_one args key val c.
Proof.
  intros Hb Ha. rewrite update_items_app.
  rewrite (update_items_inert args before c Hb). cbn [update_items].
  unfold st_bind.
  destruct (update_one args key val c) as [c1 [[] | e]]; [ | reflexivity ].
  apply (update_items_inert args after c1 Ha).
Qed.

(** X25. The options [whisper_api_url], [whisper_timeout] and
    [language] are written into the [audio] section, under
    [whisper_api_url], [timeout] and [language]; the section is not
    made.  In a call whose other arguments are not given or
    command-line-only: without the section the call ends with
    [KeyError] and the configuration is as before; with it the one key
    of the section is set and nothing else changes. *)
Theorem audio_option_needs_audio_section (self : Config) (d : dict)
  (before after : Namespace) (key name : pystr) (val : value) :
  config self = VDict d ->
  audio_option key = Some name ->
  is_none val = false ->
  Forall inert_arg before ->
  Forall inert_arg after ->
  (lookup (py "audio") d = None ->
   update_from_args self (before ++ (key, val) :: after)
   = (self, Raise (exn_of KeyError (py "audio"))))
  /\ (forall ad,
        lookup (py "audio") d = Some (VDict ad) ->
        update_from_args self (before ++ (key, val) :: after)
        = (with_config self
             (VDict (dict_set (py "audio")
                       (VDict (dict_set name val ad)) d)),
           Ok tt)).
Proof.
  intros Hc Hk Hv Hb Ha.
  assert (Hone : forall args,
            update_one args key val = assign [py "audio"] name val).
  { intros args. unfold audio_option in Hk. unfold update_one.
    rewrite Hv. cbn [negb].
    destruct (str_eqb key (py "whisper_api_url")) eqn:E1;
      [ apply str_eqb_eq in E1; subst key; inversion Hk; subst name;
        eval_keys; reflexivity | ].
    destruct (str_eqb key (py "whisper_timeout")) eqn:E2;
      [ apply str_eqb_eq in E2; subst key; inversion Hk; subst name;
        eval_keys; reflexivity | ].
    destruct (str_eqb key (py "language")) eqn:E3; [ | discriminate ].
    apply str_eqb_eq in E3; subst key; inversion Hk; subst name.
    eval_keys. reflexivity. }
  unfold update_from_args. rewrite Hc.
  rewrite (update_items_around _ before after key val (VDict d) Hb Ha).
  rewrite Hone. unfold assign. cbn [setpath getitem setitem].
  split.
  - intros Hl. rewrite Hl. rewrite <- Hc. now rewrite with_config_same.
  - intros ad Hl. rewrite Hl. reflexivity.
Qed.

Lemma audio_option_needs_audio_section_witness :
  update_from_args (a_config (VDict [(py "output", VStr (py "out"))]))
    [(py "client", VNone); (py "whisper_timeout", VInt 60);
     (py "max_frames", VInt 5)]
  = (a_config (VDict [(py "output", VStr (py "out"))]),
     Raise (exn_of KeyError (py "audio")))
  /\ update_from_args
       (a_config (VDict [(py "audio", VDict [(py "timeout", VInt 300)])]))
       [(py "client", VNone); (py "whisper_timeout", VInt 60);
        (py "max_frames", VInt 5)]
     = (a_config (VDict [(py "audio", VDict [(py "timeout", VInt 60)])]),
        Ok tt).
Proof.
  assert (Hb : Forall inert_arg [(py "client", VNone)]).
  { apply Forall_cons; [ left; reflexivity | apply Forall_nil ]. }
  assert (Ha : Forall inert_arg [(py "max_frames", VInt 5)]).
  { apply Forall_cons; [ right; right; left; reflexivity | apply Forall_nil ]. }
  split.
  - destruct (audio_option_needs_audio_section
                (a_config (VDict [(py "output", VStr (py "out"))]))
                [(py "output", VStr (py "out"))]
                [(py "client", VNone)] [(py "max_frames", VInt 5)]
                (py "whisper_timeout") (py "timeout") (VInt 60)
                eq_refl eq_refl eq_refl Hb Ha) as (H & _).
    apply H. reflexivity.
  - destruct (audio_option_needs_audio_section
                (a_config (VDict [(py "audio",
                                   VDict [(py "timeout", VInt 300)])]))
                [(py "audio", VDict [(py "timeout", VInt 300)])]
                [(py "client", VNone)] [(py "max_frames", VInt 5)]
                (py "whisper_timeout") (py "timeout") (VInt 60)
                eq_refl eq_refl eq_refl Hb Ha) as (_ & H).
    apply (H [(py "timeout", VInt 300)]). reflexivity.
Defined.

(** ** [get_client] and [get_model] *)

Lemma section_outcome (cd : dict) (client_type : value) :
  outcome (get_by_value cd client_type (VDict []))
  = match client_type with
    | VStr k => Ok (dict_get cd k (VDict []))
    | VList _ | VDict _ => Raise (exn_of TypeError [])
    | _ => Ok (VDict [])
    end.
Proof. now destruct client_type. Qed.

Lemma get_client_outcome (float_str : float -> pystr) (cfg : Config) :
  outcome (get_client float_str cfg)
  = match config cfg with
    | VDict d =>
        match dict_get d (py "clients") (VDict []) with
        | VDict cd =>
            let client_type := dict_get cd (py "default") (VStr (py "ollama")) in
            match outcome (get_by_value cd client_type (VDict [])) with
            | Raise e => Raise e
            | Ok client_config =>
                if eq_str client_type (py "ollama") then
                  match client_config with
                  | VDict cc =>
                      Ok (VDict [(py "url",
                                  dict_get cc (py "url")
                                    (VStr (py "http://localhost:11434")))])
                  | _ => Raise (exn_of AttributeError [])
                  end
                else if eq_str client_type (py "openai_api") then
                  match client_config with
                  | VDict cc =>
                      if negb (truthy (dict_get cc (py "api_key") VNone))
                      then Raise (exn_of ValueError api_key_msg)
                      else if negb (truthy (dict_get cc (py "api_url") VNone))
                      then Raise (exn_of ValueError url_key_msg)
                      else Ok (VDict [(py "api_key",
                                       dict_get cc (py "api_key") VNone);
                                      (py "api_url",
                                       dict_get cc (py "api_url") VNone)])
                  | _ => Raise (exn_of AttributeError [])
                  end
                else Raise (exn_of ValueError
                              (py "Unknown client type: "
                               ++ format_value float_str client_type))
            end
        | _ => Raise (exn_of AttributeError [])
        end
    | _ => Raise (exn_of AttributeError [])
    end.
Proof.
  unfold get_client, Config_get, url_key_msg, api_key_msg.
  destruct (config cfg) as [ | | | | | | d]; try reflexivity.
  cbn [attr_get]. rewrite !bind_ret_l.
  destruct (dict_get d (py "clients") (VDict [])) as [ | | | | | | cd];
    try reflexivity.
  repeat (cbn [attr_get]; rewrite !bind_ret_l). cbv zeta.
  destruct (dict_get cd (py "default") (VStr (py "ollama")))
    as [ | b | z | f | s | l | dd];
    cbn [get_by_value eq_str]; try reflexivity.
  rewrite bind_ret_l. cbn [outcome snd ret].
  destruct (str_eqb s (py "ollama")).
  - destruct (dict_get cd s (VDict [])); reflexivity.
  - destruct (str_eqb s (py "openai_api")); [ | reflexivity ].
    destruct (dict_get cd s (VDict [])) as [ | | | | | | cc];
      try reflexivity.
    cbn [attr_get]. rewrite !bind_ret_l.
    destruct (truthy (dict_get cc (py "api_key") VNone)); [ | reflexivity ].
    destruct (truthy (dict_get cc (py "api_url") VNone)); reflexivity.
Qed.

Lemma get_model_outcome (cfg : Config) :
  outcome (get_model cfg)
  = match config cfg with
    | VDict d =>
        match dict_get d (py "clients") (VDict []) with
        | VDict cd =>
            match dict_get cd (py "default") (VStr (py "ollama")) with
            | VStr s =>
                match dict_get cd s (VDict []) with
                | VDict cc =>
                    Ok (dict_get cc (py "model")
                          (VStr (py "llama3.2-vision")))
                | _ => Raise (exn_of AttributeError [])
                end
            | VList _ | VDict _ => Raise (exn_of TypeError [])
            | _ => Ok (VStr (py "llama3.2-vision"))
            end
        | _ => Raise (exn_of AttributeError [])
        end
    | _ => Raise (exn_of AttributeError [])
    end.
Proof.
  unfold get_model, Config_get.
  destruct (config cfg) as [ | | | | | | d]; try reflexivity.
  cbn [attr_get]. rewrite !bind_ret_l.
  destruct (dict_get d (py "clients") (VDict [])) as [ | | | | | | cd];
    try reflexivity.
  repeat (cbn [attr_get]; rewrite !bind_ret_l). cbv zeta.
  destruct (dict_get cd (py "default") (VStr (py "ollama")))
    as [ | b | z | f | s | l | dd];
    cbn [get_by_value]; try reflexivity.
  rewrite bind_ret_l.
  destruct (dict_get cd s (VDict [])); reflexivity.
Qed.

(** [get_client] once [clients.default] is ["openai_api"] and the
    section of that name is the dict [oc]. *)
Lemma get_client_openai (float_str : float -> pystr) (cfg : Config)
  (d cd oc : dict) :
  config cfg = VDict d ->
  lookup (py "clients") d = Some (VDict cd) ->
  lookup (py "default") cd = Some (VStr (py "openai_api")) ->
  lookup (py "openai_api") cd = Some (VDict oc) ->
  outcome (get_client float_str cfg)
  = if truthy (dict_get oc (py "api_key") VNone)
    then if truthy (dict_get oc (py "api_url") VNone)
         then Ok (VDict [(py "api_key", dict_get oc (py "api_key") VNone);
                         (py "api_url", dict_get oc (py "api_url") VNone)])
         else Raise (exn_of ValueError url_key_msg)
    else Raise (exn_of ValueError api_key_msg).
Proof.
  intros Hc Hcl Hdef Hoc.
  apply (lookup_get _ _ _ (VDict [])) in Hcl.
  apply (lookup_get _ _ _ (VStr (py "ollama"))) in Hdef.
  apply (lookup_get _ _ _ (VDict [])) in Hoc.
  rewrite get_client_outcome, Hc, Hcl. cbv zeta. rewrite Hdef.
  cbn [get_by_value outcome snd ret eq_str]. eval_keys. cbv iota.
  rewrite Hoc. cbn [negb].
  destruct (truthy (dict_get oc (py "api_key") VNone)); [ | reflexivity ].
  destruct (truthy (dict_get oc (py "api_url") VNone)); reflexivity.
Qed.

(** The step of [api_key] when no client is named: the key goes into
    the section [clients.openai_api] and [clients.default] becomes
    ["openai_api"]; nothing else of the section changes. *)
Lemma step_api_key (args : Namespace) (d cd od : dict) (k : value) :
  lookup (py "clients") d = Some (VDict cd) ->
  lookup (py "openai_api") cd = Some (VDict od) ->
  lookup (py "client") args = Some VNone ->
  is_none k = false ->
  exists d' cd' od',
    update_one args (py "api_key") k (VDict d) = (VDict d', Ok tt)
    /\ lookup (py "clients") d' = Some (VDict cd')
    /\ lookup (py "openai_api") cd' = Some (VDict od')
    /\ lookup (py "default") cd' = Some (VStr (py "openai_api"))
    /\ lookup (py "api_key") od' = Some k
    /\ lookup (py "api_url") od' = lookup (py "api_url") od.
Proof.
  intros Hcl Hoa Hcli Hk.
  exists (dict_set (py "clients")
            (VDict (dict_set (py "default") (VStr (py "openai_api"))
                      (dict_set (py "openai_api")
                         (VDict (dict_set (py "api_key") k od)) cd)))
            (dict_set (py "clients")
               (VDict (dict_set (py "openai_api")
                         (VDict (dict_set (py "api_key") k od)) cd)) d)),
    (dict_set (py "default") (VStr (py "openai_api"))
       (dict_set (py "openai_api") (VDict (dict_set (py "api_key") k od)) cd)),
    (dict_set (py "api_key") k od).
  split; [ | split; [ | split; [ | split; [ | split ] ] ] ].
  - unfold update_one. rewrite Hk. cbn [negb]. eval_keys. cbv iota.
    unfold st_bind at 1. unfold assign at 1.
    cbn [setpath getitem setitem]. rewrite Hcl. cbn [getitem]. rewrite Hoa.
    cbn [setitem].
    unfold st_bind at 1. unfold st_lift, getattr. rewrite Hcli.
    cbn [truthy negb].
    unfold assign. cbn [setpath getitem setitem].
    rewrite lookup_dict_set_same. cbn [setitem]. reflexivity.
  - apply lookup_dict_set_same.
  - rewrite lookup_dict_set_other by keys_differ. apply lookup_dict_set_same.
  - apply lookup_dict_set_same.
  - apply lookup_dict_set_same.
  - apply lookup_dict_set_other. keys_differ.
Qed.

(** The step of [api_url]: the URL goes into the section
    [clients.openai_api]; [clients.default] and the key stay. *)
Lemma step_api_url (args : Namespace) (d cd od : dict) (u : value) :
  lookup (py "clients") d = Some (VDict cd) ->
  lookup (py "openai_api") cd = Some (VDict od) ->
  is_none u = false ->
  exists d' cd' od',
    update_one args (py "api_url") u (VDict d) = (VDict d', Ok tt)
    /\ lookup (py "clients") d' = Some (VDict cd')
    /\ lookup (py "openai_api") cd' = Some (VDict od')
    /\ lookup (py "default") cd' = lookup (py "default") cd
    /\ lookup (py "api_url") od' = Some u
    /\ lookup (py "api_key") od' = lookup (py "api_key") od.
Proof.
  intros Hcl Hoa Hu.
  exists (dict_set (py "clients")
            (VDict (dict_set (py "openai_api")
                      (VDict (dict_set (py "api_url") u od)) cd)) d),
    (dict_set (py "openai_api") (VDict (dict_set (py "api_url") u od)) cd),
    (dict_set (py "api_url") u od).
  split; [ | split; [ | split; [ | split; [ | split ] ] ] ].
  - unfold update_one. rewrite Hu. cbn [negb]. eval_keys. cbv iota.
    unfold assign. cbn [setpath getitem setitem]. rewrite Hcl.
    cbn [getitem]. rewrite Hoa. cbn [setitem]. reflexivity.
  - apply lookup_dict_set_same.
  - apply lookup_dict_set_same.
  - apply lookup_dict_set_other. keys_differ.
  - apply lookup_dict_set_same.
  - apply lookup_dict_set_other. keys_differ.
Qed.

(** X26. Giving an API key and an API URL, two strings, without naming
    a client selects the OpenAI client.  In a call where [args.client]
    is [None], the two are given in either order and the other arguments
    are not given or command-line-only, on a configuration that has the
    section [clients.openai_api]: [update_from_args] ends well, sets
    [clients.default] to ["openai_api"], and [get_client] then returns
    exactly the two credentials when neither is empty, and raises
    [ValueError] about the key when the key is empty, about the URL
    when only the URL is. *)
Theorem api_key_selects_openai_client (float_str : float -> pystr)
  (self : Config) (d cd od : dict) (args i1 i2 i3 : Namespace)
  (x y : pystr * value) (k u : pystr) :
  config self = VDict d ->
  lookup (py "clients") d = Some (VDict cd) ->
  lookup (py "openai_api") cd = Some (VDict od) ->
  args = i1 ++ x :: i2 ++ y :: i3 ->
  (x = (py "api_key", VStr k) /\ y = (py "api_url", VStr u))
  \/ (x = (py "api_url", VStr u) /\ y = (py "api_key", VStr k)) ->
  Forall inert_arg i1 ->
  Forall inert_arg i2 ->
  Forall inert_arg i3 ->
  lookup (py "client") args = Some VNone ->
  exists self' d' cd',
    update_from_args self args = (self', Ok tt)
    /\ config self' = VDict d'
    /\ lookup (py "clients") d' = Some (VDict cd')
    /\ lookup (py "default") cd' = Some (VStr (py "openai_api"))
    /\ outcome (get_client float_str self')
       = if truthy (VStr k)
         then if truthy (VStr u)
              then Ok (VDict [(py "api_key", VStr k);
                              (py "api_url", VStr u)])
              else Raise (exn_of ValueError url_key_msg)
         else Raise (exn_of ValueError api_key_msg).
Proof.
  intros Hc Hcl Hoa Hargs Hxy H1 H2 H3 Hcli.
  assert (Hrun : forall c,
            update_items args args c
            = match update_one args (fst x) (snd x) c with
              | (c', Ok _) => update_one args (fst y) (snd y) c'
              | (c', Raise e) => (c', Raise e)
              end).
  { intros c. rewrite Hargs at 2. rewrite update_items_app.
    rewrite (update_items_inert args i1 c H1). cbn [update_items].
    destruct x as [kx vx]. cbn [fst snd]. unfold st_bind.
    destruct (update_one args kx vx c) as [c1 [[] | e]]; [ | reflexivity ].
    destruct y as [ky vy]. cbn [fst snd].
    apply (update_items_around args i2 i3 ky vy c1 H2 H3). }
  unfold update_from_args. rewrite Hc, Hrun.
  destruct Hxy as [[-> ->] | [-> ->]]; cbn [fst snd].
  - destruct (step_api_key args d cd od (VStr k) Hcl Hoa Hcli eq_refl)
      as (d1 & cd1 & od1 & -> & Hcl1 & Hoa1 & Hdef1 & Hk1 & Hu1).
    destruct (step_api_url args d1 cd1 od1 (VStr u) Hcl1 Hoa1 eq_refl)
      as (d2 & cd2 & od2 & -> & Hcl2 & Hoa2 & Hdef2 & Hu2 & Hk2).
    exists (with_config self (VDict d2)), d2, cd2.
    split; [ reflexivity | ]. split; [ reflexivity | ].
    split; [ exact Hcl2 | ]. split; [ congruence | ].
    assert (Hdef : lookup (py "default") cd2
                   = Some (VStr (py "openai_api"))) by congruence.
    rewrite (get_client_openai float_str (with_config self (VDict d2))
               d2 cd2 od2 eq_refl Hcl2 Hdef Hoa2).
    unfold dict_get. rewrite Hu2, Hk2, Hk1. reflexivity.
  - destruct (step_api_url args d cd od (VStr u) Hcl Hoa eq_refl)
      as (d1 & cd1 & od1 & -> & Hcl1 & Hoa1 & Hdef1 & Hu1 & Hk1).
    destruct (step_api_key args d1 cd1 od1 (VStr k) Hcl1 Hoa1 Hcli eq_refl)
      as (d2 & cd2 & od2 & -> & Hcl2 & Hoa2 & Hdef2 & Hk2 & Hu2).
    exists (with_config self (VDict d2)), d2, cd2.
    split; [ reflexivity | ]. split; [ reflexivity | ].
    split; [ exact Hcl2 | ]. split; [ exact Hdef2 | ].
    rewrite (get_client_openai float_str (with_config self (VDict d2))
               d2 cd2 od2 eq_refl Hcl2 Hdef2 Hoa2).
    unfold dict_get. rewrite Hk2, Hu2, Hu1. reflexivity.
Qed.

Lemma api_key_selects_openai_client_witness :
  let cfg :=
    a_config
      (VDict [(py "clients",
               VDict [(py "default", VStr (py "ollama"));
                      (py "openai_api", VDict [])])]) in
  (exists self' d' cd',
     update_from_args cfg
       [(py "client", VNone); (py "api_url", VStr (py "https://api"));
        (py "max_frames", VInt 5); (py "api_key", VStr (py "sk"))]
     = (self', Ok tt)
     /\ config self' = VDict d'
     /\ lookup (py "clients") d' = Some (VDict cd')
     /\ lookup (py "default") cd' = Some (VStr (py "openai_api"))
     /\ outcome (get_client (fun _ => []) self')
        = Ok (VDict [(py "api_key", VStr (py "sk"));
                     (py "api_url", VStr (py "https://api"))]))
  /\ (exists self' d' cd',
        update_from_args cfg
          [(py "client", VNone); (py "api_key", VStr []);
           (py "api_url", VStr (py "https://api"))]
        = (self', Ok tt)
        /\ config self' = VDict d'
        /\ lookup (py "clients") d' = Some (VDict cd')
        /\ lookup (py "default") cd' = Some (VStr (py "openai_api"))
        /\ outcome (get_client (fun _ => []) self')
           = Raise (exn_of ValueError api_key_msg)).
Proof.
  cbv zeta. split.
  - apply (api_key_selects_openai_client (fun _ => [])
             (a_config
                (VDict [(py "clients",
                         VDict [(py "default", VStr (py "ollama"));
                                (py "openai_api", VDict [])])]))
             [(py "clients",
               VDict [(py "default", VStr (py "ollama"));
                      (py "openai_api", VDict [])])]
             [(py "default", VStr (py "ollama")); (py "openai_api", VDict [])]
             []
             [(py "client", VNone); (py "api_url", VStr (py "https://api"));
              (py "max_frames", VInt 5); (py "api_key", VStr (py "sk"))]
             [(py "client", VNone)] [(py "max_frames", VInt 5)] []
             (py "api_url", VStr (py "https://api"))
             (py "api_key", VStr (py "sk"))
             (py "sk") (py "https://api"));
      try reflexivity.
    + right. split; reflexivity.
    + apply Forall_cons; [ left; reflexivity | apply Forall_nil ].
    + apply Forall_cons; [ right; right; left; reflexivity | apply Forall_nil ].
    + apply Forall_nil.
  - apply (api_key_selects_openai_client (fun _ => [])
             (a_config
                (VDict [(py "clients",
                         VDict [(py "default", VStr (py "ollama"));
                                (py "openai_api", VDict [])])]))
             [(py "clients",
               VDict [(py "default", VStr (py "ollama"));
                      (py "openai_api", VDict [])])]
             [(py "default", VStr (py "ollama")); (py "openai_api", VDict [])]
             []
             [(py "client", VNone); (py "api_key", VStr []);
              (py "api_url", VStr (py "https://api"))]
             [(py "client", VNone)] [] []
             (py "api_key", VStr [])
             (py "api_url", VStr (py "https://api"))
             [] (py "https://api"));
      try reflexivity.
    + left. split; reflexivity.
    + apply Forall_cons; [ left; reflexivity | apply Forall_nil ].
    + apply Forall_nil.
    + apply Forall_nil.
Defined.

(** X27. With the OpenAI client selected, [get_client] returns the two
    credentials when both are there and true, and raises [ValueError]
    otherwise: about the key when the key is missing or empty, whatever
    the URL is, and about the URL when only the URL is missing or
    empty. *)
Theorem openai_client_needs_key_and_url (float_str : float -> pystr)
  (cfg : Config) (d cd oc : dict) :
  config cfg = VDict d ->
  lookup (py "clients") d = Some (VDict cd) ->
  lookup (py "default") cd = Some (VStr (py "openai_api")) ->
  dict_get cd (py "openai_api") (VDict []) = VDict oc ->
  outcome (get_client float_str cfg)
  = if truthy (dict_get oc (py "api_key") VNone)
    then if truthy (dict_get oc (py "api_url") VNone)
         then Ok (VDict [(py "api_key", dict_get oc (py "api_key") VNone);
                         (py "api_url", dict_get oc (py "api_url") VNone)])
         else Raise (exn_of ValueError url_key_msg)
    else Raise (exn_of ValueError api_key_msg).
Proof.
  intros Hc Hcl Hdef Hoc.
  apply (lookup_get _ _ _ (VDict [])) in Hcl.
  apply (lookup_get _ _ _ (VStr (py "ollama"))) in Hdef.
  rewrite get_client_outcome, Hc, Hcl. cbv zeta. rewrite Hdef.
  cbn [get_by_value outcome snd ret eq_str]. eval_keys. cbv iota.
  rewrite Hoc. cbn [negb].
  destruct (truthy (dict_get oc (py "api_key") VNone)); [ | reflexivity ].
  destruct (truthy (dict_get oc (py "api_url") VNone)); reflexivity.
Qed.

Lemma openai_client_needs_key_and_url_witness :
  outcome (get_client (fun _ => [])
             (a_config
                (VDict [(py "clients",
                         VDict [(py "default", VStr (py "openai_api"));
                                (py "openai_api",
                                 VDict [(py "api_url",
                                         VStr (py "https://api"))])])])))
  = Raise (exn_of ValueError api_key_msg).
Proof.
  apply (openai_client_needs_key_and_url (fun _ => [])
           (a_config
              (VDict [(py "clients",
                       VDict [(py "default", VStr (py "openai_api"));
                              (py "openai_api",
                               VDict [(py "api_url",
                                       VStr (py "https://api"))])])]))
           [(py "clients",
             VDict [(py "default", VStr (py "openai_api"));
                    (py "openai_api",
                     VDict [(py "api_url", VStr (py "https://api"))])])]
           [(py "default", VStr (py "openai_api"));
            (py "openai_api",
             VDict [(py "api_url", VStr (py "https://api"))])]
           [(py "api_url", VStr (py "https://api"))]);
    reflexivity.
Defined.

(** X28. A default client whose name is neither ["ollama"] nor
    ["openai_api"] makes [get_client] raise [ValueError], also when the
    configuration has a section of that name; [get_model] does not
    check the name and returns the model of that section (or the
    default model). *)
Theorem unknown_client_type (float_str : float -> pystr) (cfg : Config) (d cd sc : dict) (name : pystr) :
  config cfg = VDict d ->
  lookup (py "clients") d = Some (VDict cd) ->
  lookup (py "default") cd = Some (VStr name) ->
  name <> py "ollama" ->
  name <> py "openai_api" ->
  dict_get cd name (VDict []) = VDict sc ->
  outcome (get_client float_str cfg)
  = Raise (exn_of ValueError (py "Unknown client type: " ++ name))
  /\ outcome (get_model cfg)
     = Ok (dict_get sc (py "model") (VStr (py "llama3.2-vision"))).
Proof.
  intros Hc Hcl Hdef H1 H2 Hsc.
  apply str_eqb_neq in H1. apply str_eqb_neq in H2.
  apply (lookup_get _ _ _ (VDict [])) in Hcl.
  apply (lookup_get _ _ _ (VStr (py "ollama"))) in Hdef. split.
  - rewrite get_client_outcome, Hc, Hcl. cbv zeta. rewrite Hdef.
    cbn [get_by_value outcome snd ret eq_str]. now rewrite H1, H2.
  - rewrite get_model_outcome, Hc, Hcl, Hdef. now rewrite Hsc.
Qed.

Lemma unknown_client_type_witness :
  let cfg :=
    a_config
      (VDict [(py "clients",
               VDict [(py "default", VStr (py "gemini"));
                      (py "gemini",
                       VDict [(py "model", VStr (py "flash"))])])]) in
  outcome (get_client (fun _ => []) cfg)
  = Raise (exn_of ValueError (py "Unknown client type: gemini"))
  /\ outcome (get_model cfg) = Ok (VStr (py "flash")).
Proof.
  cbv zeta.
  apply (unknown_client_type (fun _ => [])
           (a_config
              (VDict [(py "clients",
                       VDict [(py "default", VStr (py "gemini"));
                              (py "gemini",
                               VDict [(py "model", VStr (py "flash"))])])]))
           [(py "clients",
             VDict [(py "default", VStr (py "gemini"));
                    (py "gemini", VDict [(py "model", VStr (py "flash"))])])]
           [(py "default", VStr (py "gemini"));
            (py "gemini", VDict [(py "model", VStr (py "flash"))])]
           [(py "model", VStr (py "flash"))]
           (py "gemini"));
    try reflexivity; vm_compute; discriminate.
Defined.

(** X29. Without a [clients.default] the client is Ollama: [get_client]
    returns the URL of the [ollama] section, or
    [http://localhost:11434] when there is none, and [get_model] the
    model of that section, or [llama3.2-vision]; so it is with a
    configuration that has no [clients] at all. *)
Theorem ollama_is_the_default_client (float_str : float -> pystr)
  (cfg : Config) (d cd oc : dict) :
  config cfg = VDict d ->
  dict_get d (py "clients") (VDict []) = VDict cd ->
  lookup (py "default") cd = None ->
  dict_get cd (py "ollama") (VDict []) = VDict oc ->
  outcome (get_client float_str cfg)
  = Ok (VDict [(py "url",
                dict_get oc (py "url") (VStr (py "http://localhost:11434")))])
  /\ outcome (get_model cfg)
     = Ok (dict_get oc (py "model") (VStr (py "llama3.2-vision"))).
Proof.
  intros Hc Hcl Hdef Hoc.
  assert (Hd : dict_get cd (py "default") (VStr (py "ollama"))
               = VStr (py "ollama")).
  { unfold dict_get. now rewrite Hdef. }
  split.
  - rewrite get_client_outcome, Hc, Hcl. cbv zeta. rewrite Hd.
    cbn [get_by_value outcome snd ret eq_str]. eval_keys. cbv iota.
    now rewrite Hoc.
  - rewrite get_model_outcome, Hc, Hcl, Hd. now rewrite Hoc.
Qed.

Lemma ollama_is_the_default_client_witness :
  outcome (get_client (fun _ => []) (a_config (VDict [])))
  = Ok (VDict [(py "url", VStr (py "http://localhost:11434"))])
  /\ outcome (get_model (a_config (VDict [])))
     = Ok (VStr (py "llama3.2-vision")).
Proof.
  apply (ollama_is_the_default_client (fun _ => []) (a_config (VDict []))
           [] [] []);
    reflexivity.
Defined.

(** X30. Whatever the configuration, what [get_client] returns is
    either a dict with the one key [url], or a dict with the two keys
    [api_key] and [api_url] whose values are both true: it never hands
    out an empty credential. *)
Theorem get_client_result_shape (float_str : float -> pystr) (cfg : Config) (v : value) :
  outcome (get_client float_str cfg) = Ok v ->
  (exists u, v = VDict [(py "url", u)])
  \/ (exists k u,
        v = VDict [(py "api_key", k); (py "api_url", u)]
        /\ truthy k = true /\ truthy u = true).
Proof.
  rewrite get_client_outcome.
  destruct (config cfg) as [ | | | | | | d]; try discriminate.
  destruct (dict_get d (py "clients") (VDict [])) as [ | | | | | | cd];
    try discriminate.
  cbv zeta. rewrite section_outcome.
  destruct (dict_get cd (py "default") (VStr (py "ollama")))
    as [ | | | | s | | ]; cbn [eq_str]; try discriminate.
  destruct (str_eqb s (py "ollama")).
  - destruct (dict_get cd s (VDict [])) as [ | | | | | | cc];
      try discriminate.
    intros H; inversion H. left. now eexists.
  - destruct (str_eqb s (py "openai_api")); [ | discriminate ].
    destruct (dict_get cd s (VDict [])) as [ | | | | | | cc];
      try discriminate.
    destruct (truthy (dict_get cc (py "api_key") VNone)) eqn:Hk;
      [ | discriminate ].
    destruct (truthy (dict_get cc (py "api_url") VNone)) eqn:Hu;
      [ | discriminate ].
    cbn [negb]. intros H; inversion H. right. now repeat eexists.
Qed.

Lemma get_client_result_shape_witness :
  (exists u, VDict [(py "url", VStr (py "http://localhost:11434"))]
             = VDict [(py "url", u)])
  \/ (exists k u,
        VDict [(py "url", VStr (py "http://localhost:11434"))]
        = VDict [(py "api_key", k); (py "api_url", u)]
        /\ truthy k = true /\ truthy u = true).
Proof.
  apply (get_client_result_shape (fun _ => []) (a_config (VDict []))).
  reflexivity.
Defined.
